(** * ldap_proxy: the authenticating reverse proxy of [ldap_proxy.go]

    A shallow embedding of the request dispatcher, the whitelist matcher,
    the sign-in handler and the per-request authentication engine of
    [ldap_proxy.go], with the properties the specification states about
    them.

    Conventions.  A Go [string] is a Rocq [string] (a sequence of bytes);
    a [time.Duration] is a [Z] (nanoseconds); a nil pointer or nil
    interface is [None]; a nil slice is the empty list; an [error] is its
    message, [None] standing for the nil error.  [http.Header] and
    [url.Values] are [map[string][]string], here [gmap string (list string)]. *)

From Stdlib Require Import ZArith Bool List String Ascii Lia.
From stdpp Require Import base option gmap strings.
Import ListNotations.

Local Open Scope string_scope.
Local Open Scope Z_scope.

(** ** Functions of the Go standard library

    The handlers call into [net], [regexp], [strings], [net/textproto] and
    [encoding/base64].  Those packages are not part of the proxy: they are
    taken as an interface, and every property below holds for whatever
    implementation is plugged in. *)

Class GoLib := {
  net_IP : Type;
  (** [net.ParseIP]; [None] is the nil [net.IP] *)
  ParseIP : string -> option net_IP;
  net_IPNet : Type;
  (** the method [Contains] of [net.IPNet] *)
  Contains : net_IPNet -> net_IP -> bool;
  Regexp : Type;
  (** the method [MatchString] of [regexp.Regexp] *)
  MatchString : Regexp -> string -> bool;
  (** [strings.ToLower] *)
  ToLower : string -> string;
  (** [textproto.CanonicalMIMEHeaderKey], used by [Header.Get] and [Header.Set] *)
  CanonicalMIMEHeaderKey : string -> string;
  (** [base64.StdEncoding.DecodeString]; [None] is a decoding error *)
  DecodeString : string -> option string;
  (** [base64.StdEncoding.EncodeToString] *)
  EncodeToString : string -> string;
}.

(** ** Strings *)

(** [strings.HasPrefix(s, prefix)]: [s] is at least as long as [prefix] and
    starts with its bytes. *)
Fixpoint HasPrefix (s pre : string) {struct pre} : bool :=
  match pre with
  | EmptyString => true
  | String a pre' =>
      match s with
      | EmptyString => false
      | String b s' => Ascii.eqb a b && HasPrefix s' pre'
      end
  end.

(** The text of [s] before and after the first occurrence of the byte [c]. *)
Fixpoint cut (c : ascii) (s : string) : option (string * string) :=
  match s with
  | EmptyString => None
  | String a rest =>
      if Ascii.eqb a c then Some (EmptyString, rest)
      else match cut c rest with
           | Some (before, after) => Some (String a before, after)
           | None => None
           end
  end.

(** [strings.SplitN(s, sep, 2)] for a one-byte separator: at most two
    pieces, split at the first separator. *)
Definition SplitN2 (s : string) (sep : ascii) : list string :=
  match cut sep s with
  | Some (before, after) => [before; after]
  | None => [s]
  end.

(** [strings.SplitN(s, sep, 2)[0]] *)
Definition SplitN2_first (s : string) (sep : ascii) : string :=
  match SplitN2 s sep with
  | x :: _ => x
  | [] => EmptyString
  end.

Section Proxy.
Context `{lib : GoLib}.

(** ** Headers and forms: [map[string][]string] *)

(** [Header.Get(key)]: the first value stored under the canonical form of
    [key], the empty string when there is none. *)
Definition Header_Get (h : gmap string (list string)) (key : string) : string :=
  match h !! CanonicalMIMEHeaderKey key with
  | Some (v :: _) => v
  | _ => EmptyString
  end.

(** [Header.Set(key, value)] *)
Definition Header_Set (h : gmap string (list string)) (key value : string)
  : gmap string (list string) :=
  <[CanonicalMIMEHeaderKey key := [value]]> h.

(** [url.Values.Get(key)], also what [req.FormValue(key)] returns once the
    form is parsed: the first value of [key], without canonicalisation. *)
Definition Values_Get (v : gmap string (list string)) (key : string) : string :=
  match v !! key with
  | Some (x :: _) => x
  | _ => EmptyString
  end.

(** ** Data model *)

(** The fields of [*http.Request] the handlers read. *)
Record Request := {
  Method : string;
  URL_Path : string;                     (* req.URL.Path *)
  URL_RequestURI : string;               (* req.URL.RequestURI() *)
  RemoteAddr : string;
  Header : gmap string (list string);
  Form : gmap string (list string);      (* req.Form once parsed *)
  ParseForm_err : option string;         (* what req.ParseForm() returns *)
}.

(** Modelled from the spec: [SessionState], whose declaration is in another
    file of the package.  [ldap_proxy.go] builds it as
    [SessionState{User: user}] and reads [User] and [Email]; [ExpiresOn] is
    the expiry timestamp that the data model of the specification gives a
    session (0 is Go's zero value). *)
Record SessionState := {
  User : string;
  Email : string;
  ExpiresOn : Z;
}.

(** [&SessionState{User: user}] *)
Definition SessionState_of_user (user : string) : SessionState :=
  {| User := user; Email := EmptyString; ExpiresOn := 0 |}.

(** [*HtpasswdFile]: the credential-file store, seen through [Validate]. *)
Record HtpasswdFile := {
  Validate : string -> string -> bool;
}.

(** The directory client returned by [NewLDAPClient], seen through the two
    methods [LdapSignIn] calls. *)
Record LDAPClient := {
  (** [Authenticate(user, passwd)]: [(ok, attributes, err)] *)
  ldap_Authenticate : string -> string -> bool * gmap string string * option string;
  (** [GetGroupsOfUser(dn)]: [(groups, err)] *)
  GetGroupsOfUser : string -> list string * option string;
}.

(** [LDAPConfiguration], as [NewLdapProxy] fills it. *)
Record LDAPConfiguration := {
  Base : string;
  Host : string;
  Port : Z;
  UseTLS : bool;
  InsecureSkipVerify : bool;
  BindDN : string;
  BindPassword : string;
  UserFilter : string;
  GroupFilter : string;
  Attributes : list string;
}.

(** [LdapProxy], with the fields the request path reads. *)
Record LdapProxy := {
  CookieExpire : Z;
  CookieRefresh : Z;
  Validator : string -> bool;

  RobotsPath : string;
  PingPath : string;
  SignInPath : string;
  SignOutPath : string;
  AuthOnlyPath : string;

  ProxyPrefix : string;
  SignInMessage : string;
  Htpasswd : option HtpasswdFile;        (* the field HtpasswdFile; nil = None *)
  SetXAuthRequest : bool;
  PassBasicAuth : bool;
  PassUserHeaders : bool;
  BasicAuthPassword : string;

  RealIPHeader : string;
  ProxyIPHeader : string;

  LdapConfiguration : LDAPConfiguration;
  LdapGroups : list string;

  skipAuthIPs : list net_IPNet;
  skipAuthPreflight : bool;
  compiledPathRegex : list Regexp;
  Footer : string;
}.

(** [p] with another identity-allow predicate. *)
Definition with_Validator (p : LdapProxy) (v : string -> bool) : LdapProxy :=
  {| CookieExpire := CookieExpire p; CookieRefresh := CookieRefresh p;
     Validator := v;
     RobotsPath := RobotsPath p; PingPath := PingPath p;
     SignInPath := SignInPath p; SignOutPath := SignOutPath p;
     AuthOnlyPath := AuthOnlyPath p;
     ProxyPrefix := ProxyPrefix p; SignInMessage := SignInMessage p;
     Htpasswd := Htpasswd p; SetXAuthRequest := SetXAuthRequest p;
     PassBasicAuth := PassBasicAuth p; PassUserHeaders := PassUserHeaders p;
     BasicAuthPassword := BasicAuthPassword p;
     RealIPHeader := RealIPHeader p; ProxyIPHeader := ProxyIPHeader p;
     LdapConfiguration := LdapConfiguration p; LdapGroups := LdapGroups p;
     skipAuthIPs := skipAuthIPs p; skipAuthPreflight := skipAuthPreflight p;
     compiledPathRegex := compiledPathRegex p; Footer := Footer p |}.

(** [p] with another group allow-list. *)
Definition with_LdapGroups (p : LdapProxy) (groups : list string) : LdapProxy :=
  {| CookieExpire := CookieExpire p; CookieRefresh := CookieRefresh p;
     Validator := Validator p;
     RobotsPath := RobotsPath p; PingPath := PingPath p;
     SignInPath := SignInPath p; SignOutPath := SignOutPath p;
     AuthOnlyPath := AuthOnlyPath p;
     ProxyPrefix := ProxyPrefix p; SignInMessage := SignInMessage p;
     Htpasswd := Htpasswd p; SetXAuthRequest := SetXAuthRequest p;
     PassBasicAuth := PassBasicAuth p; PassUserHeaders := PassUserHeaders p;
     BasicAuthPassword := BasicAuthPassword p;
     RealIPHeader := RealIPHeader p; ProxyIPHeader := ProxyIPHeader p;
     LdapConfiguration := LdapConfiguration p; LdapGroups := groups;
     skipAuthIPs := skipAuthIPs p; skipAuthPreflight := skipAuthPreflight p;
     compiledPathRegex := compiledPathRegex p; Footer := Footer p |}.

(** ** Whitelist matcher *)

(** [getRemoteAddr]: the peer address up to its first colon, overridden by
    the real-IP header when that is set, overridden in turn by the proxy-IP
    header when that is set. *)
Definition getRemoteAddr (p : LdapProxy) (req : Request) : option net_IP :=
  let remoteAddrstr := SplitN2_first (RemoteAddr req) ":"%char in
  let ip := ParseIP remoteAddrstr in
  let ip :=
    if negb (String.eqb (Header_Get (Header req) (RealIPHeader p)) EmptyString)
    then ParseIP (Header_Get (Header req) (RealIPHeader p))
    else ip in
  let ip :=
    if negb (String.eqb (Header_Get (Header req) (ProxyIPHeader p)) EmptyString)
    then ParseIP (Header_Get (Header req) (ProxyIPHeader p))
    else ip in
  ip.

(** The loop of [IsWhitelistedIP] over [p.skipAuthIPs]. *)
Fixpoint anyContains (nets : list net_IPNet) (ip : net_IP) : bool :=
  match nets with
  | [] => false
  | c :: rest => if Contains c ip then true else anyContains rest ip
  end.

Definition IsWhitelistedIP (p : LdapProxy) (remoteAddr : option net_IP) : bool :=
  match remoteAddr with
  | None => false
  | Some ip => anyContains (skipAuthIPs p) ip
  end.

(** [IsWhitelistedPath]: [ok] is the result of the last match tried, and the
    loop stops at the first success. *)
Fixpoint IsWhitelistedPath_loop (res : list Regexp) (path : string) : bool :=
  match res with
  | [] => false
  | u :: rest => if MatchString u path then true else IsWhitelistedPath_loop rest path
  end.

Definition IsWhitelistedPath (p : LdapProxy) (path : string) : bool :=
  IsWhitelistedPath_loop (compiledPathRegex p) path.

Definition IsWhitelistedRequest (p : LdapProxy) (req : Request) : bool :=
  let isPreflightRequestAllowed :=
    skipAuthPreflight p && String.eqb (Method req) "OPTIONS" in
  isPreflightRequestAllowed
  || IsWhitelistedPath p (URL_Path req)
  || IsWhitelistedIP p (getRemoteAddr p req).

(** ** The rest of the package

    Methods of [*LdapProxy] and helpers that [ldap_proxy.go] calls and that
    are declared in other files of the package (session cookies, the
    provider hooks, the directory client, the no-cache wrapper).  They are
    taken as given for the proxy at hand; every property below holds for
    all of them.  The hooks are handed the session and answer about it;
    the session itself is changed by [Authenticate] only, which is what the
    specification says of it. *)

Class Package := {
  (** [p.LoadCookiedSession(req)]: [(session, age, err)] *)
  LoadCookiedSession : Request -> option SessionState * Z * option string;
  (** [p.RefreshSessionIfNeeded(session)]: [(ok, err)] *)
  RefreshSessionIfNeeded : option SessionState -> bool * option string;
  (** [session.IsExpired()]: the absolute-expiry test of a session *)
  IsExpired : SessionState -> bool;
  (** [p.ValidateSessionState(session)] *)
  ValidateSessionState : SessionState -> bool;
  (** [p.SaveSession(rw, req, session)]: signs the session and sets the
      session cookie; [Some err] when that fails and no cookie is set *)
  SaveSession : Request -> SessionState -> option string;
  (** [NewLDAPClient(cfg)]: a client, or the connection error *)
  NewLDAPClient : LDAPConfiguration -> LDAPClient + string;
  (** what [NoCache(handler)] writes to the response header before it
      runs [handler] *)
  NoCache : gmap string (list string) -> gmap string (list string);
}.

Context `{pkg : Package}.

(** What a handler does to the session cookie of the response. *)
Inductive CookieOp :=
| SetSessionCookie (s : SessionState)     (* a successful p.SaveSession *)
| ClearSessionCookie.                     (* p.ClearSessionCookie *)

(** What a handler writes as the body. *)
Inductive Body :=
| RobotsBody                              (* "User-agent: *\nDisallow: /" *)
| PingBody                                (* "OK" *)
| ErrorHtml (title message : string)      (* template error.html *)
| SignInHtml (failed : bool) (redirect : string)   (* template sign_in.html *)
| RedirectTo (url : string)               (* http.Redirect(rw, req, url, code) *)
| PlainError (message : string)           (* http.Error(rw, message, code) *)
| NoBody.

(** The handler either replies itself or hands the request, with the
    headers it has set so far, to the upstream router [p.serveMux]. *)
Inductive Response :=
| Reply (code : Z) (cookies : list CookieOp)
        (header : gmap string (list string)) (body : Body)
| ToUpstream (cookies : list CookieOp)
             (header : gmap string (list string)) (forwarded : Request).

(** ** Sign-in *)

(** [GetRedirect]: [(redirect, err)] *)
Definition GetRedirect (req : Request) : string * option string :=
  match ParseForm_err req with
  | Some err => (EmptyString, Some err)
  | None =>
      let redirect := Values_Get (Form req) "rd" in
      if String.eqb redirect EmptyString
         || negb (HasPrefix redirect "/")
         || HasPrefix redirect "//"
      then ("/", None)
      else (redirect, None)
  end.

(** [ManualSignIn]: [(user, ok)] *)
Definition ManualSignIn (p : LdapProxy) (req : Request) : string * bool :=
  match Htpasswd p with
  | None => (EmptyString, false)
  | Some file =>
      if negb (String.eqb (Method req) "POST") then (EmptyString, false)
      else
        let user := Values_Get (Form req) "username" in
        let passwd := Values_Get (Form req) "password" in
        if String.eqb user EmptyString then (EmptyString, false)
        else if Validate file user passwd then (user, true)
        else (EmptyString, false)
  end.

(** [LdapSignIn]: [(user, groups, ok)] *)
Definition LdapSignIn (p : LdapProxy) (req : Request)
  : string * list string * bool :=
  let user := Values_Get (Form req) "username" in
  let passwd := Values_Get (Form req) "password" in
  if String.eqb user EmptyString then (EmptyString, [], false)
  else
    match NewLDAPClient (LdapConfiguration p) with
    | inr _ => (EmptyString, [], false)
    | inl ldapClient =>
        match ldap_Authenticate ldapClient user passwd with
        | (_, _, Some _) => (EmptyString, [], false)
        | (ok, attributes, None) =>
            if ok then
              match GetGroupsOfUser ldapClient (default EmptyString (attributes !! "dn")) with
              | (_, Some _) => (user, [], true)
              | (groups, None) => (user, groups, true)
              end
            else (EmptyString, [], false)
        end
    end.

(** [sliceContainsString]: the inner loop over [b], then the outer loop over [a]. *)
Fixpoint sliceContainsString_inner (aItem : string) (b : list string) : bool :=
  match b with
  | [] => false
  | bItem :: rest =>
      if String.eqb (ToLower aItem) (ToLower bItem) then true
      else sliceContainsString_inner aItem rest
  end.

Fixpoint sliceContainsString (a b : list string) : bool :=
  match a with
  | [] => false
  | aItem :: rest =>
      if sliceContainsString_inner aItem b then true
      else sliceContainsString rest b
  end.

(** [SignInPage]: clears the session cookie, then renders the form. *)
Definition SignInPage (p : LdapProxy) (cookies : list CookieOp)
    (rw : gmap string (list string)) (req : Request) (code : Z) (failed : bool)
  : Response :=
  let redirectURL := URL_RequestURI req in
  let redirectURL :=
    if negb (String.eqb (Header_Get (Header req) "X-Auth-Request-Redirect") EmptyString)
    then Header_Get (Header req) "X-Auth-Request-Redirect"
    else redirectURL in
  let redirectURL :=
    if String.eqb redirectURL (SignInPath p) then "/" else redirectURL in
  Reply code (cookies ++ [ClearSessionCookie]) rw (SignInHtml failed redirectURL).

(** [ErrorPage] *)
Definition ErrorPage (cookies : list CookieOp) (rw : gmap string (list string))
    (code : Z) (title message : string) : Response :=
  Reply code cookies rw (ErrorHtml title message).

(** The cookie a call [p.SaveSession(rw, req, s)] leaves on the response;
    [SignIn] logs a failure and goes on. *)
Definition saved_cookie (req : Request) (s : SessionState) : list CookieOp :=
  match SaveSession req s with
  | None => [SetSessionCookie s]
  | Some _ => []
  end.

(** [SignIn] *)
Definition SignIn (p : LdapProxy) (rw : gmap string (list string)) (req : Request)
  : Response :=
  match GetRedirect req with
  | (_, Some err) => ErrorPage [] rw 500 "Internal Error" err
  | (redirect, None) =>
      match ManualSignIn p req with
      | (user, true) =>
          Reply 302 (saved_cookie req (SessionState_of_user user)) rw (RedirectTo redirect)
      | (_, false) =>
          match LdapSignIn p req with
          | (user, groups, ok) =>
              let session := SessionState_of_user user in
              if negb ok then SignInPage p [] rw req 200 true
              else if (0 <? Z.of_nat (List.length (LdapGroups p))) then
                if sliceContainsString (LdapGroups p) groups
                then Reply 302 (saved_cookie req session) rw (RedirectTo redirect)
                else SignInPage p [] rw req 401 true
              else Reply 302 (saved_cookie req session) rw (RedirectTo redirect)
          end
      end
  end.

(** [SignOut] *)
Definition SignOut (rw : gmap string (list string)) : Response :=
  Reply 307 [ClearSessionCookie] rw (RedirectTo "/").

(** ** Authentication engine *)

(** [CheckBasicAuth]: [(session, err)] *)
Definition CheckBasicAuth (p : LdapProxy) (req : Request)
  : option SessionState * option string :=
  match Htpasswd p with
  | None => (None, None)
  | Some file =>
      let auth := Header_Get (Header req) "Authorization" in
      if String.eqb auth EmptyString then (None, None)
      else
        match SplitN2 auth " "%char with
        | [s0; s1] =>
            if negb (String.eqb s0 "Basic")
            then (None, Some ("invalid Authorization header " +:+ auth))
            else
              match DecodeString s1 with
              | None => (None, Some "illegal base64 data")
              | Some b =>
                  match SplitN2 b ":"%char with
                  | [pair0; pair1] =>
                      if Validate file pair0 pair1
                      then (Some (SessionState_of_user pair0), None)
                      else (None, Some (pair0 +:+ " not in HtpasswdFile"))
                  | _ => (None, Some ("invalid format " +:+ b))
                  end
              end
        | _ => (None, Some ("invalid Authorization header " +:+ auth))
        end
  end.

(** The local variables of [Authenticate] that carry the decision. *)
Record AuthState := {
  session : option SessionState;
  saveSession : bool;
  clearSession : bool;
  revalidated : bool;
}.

(** [LoadCookiedSession], with the three flags at their zero value. *)
Definition auth_load (req : Request) : AuthState * Z :=
  match LoadCookiedSession req with
  | (session, sessionAge, _) =>
      ({| session := session; saveSession := false;
          clearSession := false; revalidated := false |}, sessionAge)
  end.

(** [if session != nil && sessionAge > p.CookieRefresh && p.CookieRefresh != 0] *)
Definition auth_refresh_due (p : LdapProxy) (sessionAge : Z) (st : AuthState)
  : AuthState :=
  match session st with
  | Some _ =>
      if (CookieRefresh p <? sessionAge) && negb (CookieRefresh p =? 0)
      then {| session := session st; saveSession := true;
              clearSession := clearSession st; revalidated := revalidated st |}
      else st
  | None => st
  end.

(** [if ok, err := p.RefreshSessionIfNeeded(session); err != nil ... else if ok] *)
Definition auth_refresh (st : AuthState) : AuthState :=
  match RefreshSessionIfNeeded (session st) with
  | (_, Some _) =>
      {| session := None; saveSession := saveSession st;
         clearSession := true; revalidated := revalidated st |}
  | (true, None) =>
      {| session := session st; saveSession := true;
         clearSession := clearSession st; revalidated := true |}
  | (false, None) => st
  end.

(** [if session != nil && session.IsExpired()] *)
Definition auth_expire (st : AuthState) : AuthState :=
  match session st with
  | Some s =>
      if IsExpired s
      then {| session := None; saveSession := false;
              clearSession := true; revalidated := revalidated st |}
      else st
  | None => st
  end.

(** [if saveSession && !revalidated && session != nil] *)
Definition auth_validate (st : AuthState) : AuthState :=
  match session st with
  | Some s =>
      if saveSession st && negb (revalidated st) then
        if negb (ValidateSessionState s)
        then {| session := None; saveSession := false;
                clearSession := true; revalidated := revalidated st |}
        else st
      else st
  | None => st
  end.

(** [if session != nil && session.Email != "" && !p.Validator(session.Email)] *)
Definition auth_policy (p : LdapProxy) (st : AuthState) : AuthState :=
  match session st with
  | Some s =>
      if negb (String.eqb (Email s) EmptyString) && negb (Validator p (Email s))
      then {| session := None; saveSession := false;
              clearSession := true; revalidated := revalidated st |}
      else st
  | None => st
  end.

(** The state of [Authenticate] when it reaches the policy test
    [if session != nil && session.Email != "" && ...]. *)
Definition auth_checked (p : LdapProxy) (req : Request) : AuthState :=
  match auth_load req with
  | (st, sessionAge) =>
      auth_validate (auth_expire (auth_refresh (auth_refresh_due p sessionAge st)))
  end.

(** The state of [Authenticate] when it reaches [if saveSession && session != nil]. *)
Definition auth_decide (p : LdapProxy) (req : Request) : AuthState :=
  auth_policy p (auth_checked p req).

(** What [Authenticate] returns and leaves behind: the status, the cookie
    operations on [rw], the header of [req] and the header of [rw]. *)
Record AuthResult := {
  status : Z;
  cookieOps : list CookieOp;
  reqHeader : gmap string (list string);
  rwHeader : gmap string (list string);
}.

(** [req.SetBasicAuth(username, password)] *)
Definition SetBasicAuth (h : gmap string (list string)) (username password : string)
  : gmap string (list string) :=
  Header_Set h "Authorization"
    ("Basic " +:+ EncodeToString (username +:+ ":" +:+ password)).

(** The header writes of [Authenticate] once the user is authenticated. *)
Definition auth_inject (p : LdapProxy) (s : SessionState)
    (rqh rwh : gmap string (list string))
  : gmap string (list string) * gmap string (list string) :=
  let rqh :=
    if PassBasicAuth p then
      let rqh := SetBasicAuth rqh (User s) (BasicAuthPassword p) in
      let rqh := <["X-Forwarded-User" := [User s]]> rqh in
      if negb (String.eqb (Email s) EmptyString)
      then <["X-Forwarded-Email" := [Email s]]> rqh else rqh
    else rqh in
  let rqh :=
    if PassUserHeaders p then
      let rqh := <["X-Forwarded-User" := [User s]]> rqh in
      if negb (String.eqb (Email s) EmptyString)
      then <["X-Forwarded-Email" := [Email s]]> rqh else rqh
    else rqh in
  let rwh :=
    if SetXAuthRequest p then
      let rwh := Header_Set rwh "X-Auth-Request-User" (User s) in
      if negb (String.eqb (Email s) EmptyString)
      then Header_Set rwh "X-Auth-Request-Email" (Email s) else rwh
    else rwh in
  let rwh :=
    if String.eqb (Email s) EmptyString
    then Header_Set rwh "LAP-Auth" (User s)
    else Header_Set rwh "LAP-Auth" (Email s) in
  (rqh, rwh).

(** [Authenticate] *)
Definition Authenticate (p : LdapProxy) (rw : gmap string (list string))
    (req : Request) : AuthResult :=
  let st := auth_decide p req in
  let save :=
    match session st with
    | Some s => if saveSession st then Some (s, SaveSession req s) else None
    | None => None
    end in
  match save with
  | Some (_, Some _) =>
      {| status := 500; cookieOps := []; reqHeader := Header req; rwHeader := rw |}
  | _ =>
      let set := match save with Some (s, _) => [SetSessionCookie s] | None => [] end in
      let clear := if clearSession st then [ClearSessionCookie] else [] in
      let session :=
        match session st with
        | None => fst (CheckBasicAuth p req)
        | Some s => Some s
        end in
      match session with
      | None =>
          {| status := 403; cookieOps := set ++ clear;
             reqHeader := Header req; rwHeader := rw |}
      | Some s =>
          match auth_inject p s (Header req) rw with
          | (rqh, rwh) =>
              {| status := 202; cookieOps := set ++ clear;
                 reqHeader := rqh; rwHeader := rwh |}
          end
      end
  end.

(** [req] with the header [Authenticate] has left on it. *)
Definition with_header (req : Request) (h : gmap string (list string)) : Request :=
  {| Method := Method req; URL_Path := URL_Path req;
     URL_RequestURI := URL_RequestURI req; RemoteAddr := RemoteAddr req;
     Header := h; Form := Form req; ParseForm_err := ParseForm_err req |}.

(** [AuthenticateOnly] *)
Definition AuthenticateOnly (p : LdapProxy) (rw : gmap string (list string))
    (req : Request) : Response :=
  let r := Authenticate p rw req in
  if status r =? 202
  then Reply 202 (cookieOps r) (rwHeader r) NoBody
  else Reply 401 (cookieOps r) (rwHeader r) (PlainError "unauthorized request").

(** [Proxy] *)
Definition Proxy (p : LdapProxy) (rw : gmap string (list string))
    (req : Request) : Response :=
  let r := Authenticate p rw req in
  if status r =? 500
  then ErrorPage (cookieOps r) (rwHeader r) 500 "Internal Error" "Internal Error"
  else if status r =? 403
  then SignInPage p (cookieOps r) (rwHeader r) (with_header req (reqHeader r)) 403 false
  else ToUpstream (cookieOps r) (rwHeader r) (with_header req (reqHeader r)).

(** ** Dispatcher *)

(** The handler [ServeHTTP] selects: the first case of its [switch] that holds. *)
Inductive Handler :=
| H_RobotsTxt | H_PingPage | H_Upstream | H_SignIn | H_SignOut
| H_AuthenticateOnly | H_Proxy.

Definition ServeHTTP_case (p : LdapProxy) (req : Request) : Handler :=
  let path := URL_Path req in
  if String.eqb path (RobotsPath p) then H_RobotsTxt
  else if String.eqb path (PingPath p) then H_PingPage
  else if IsWhitelistedRequest p req then H_Upstream
  else if String.eqb path (SignInPath p) then H_SignIn
  else if String.eqb path (SignOutPath p) then H_SignOut
  else if String.eqb path (AuthOnlyPath p) then H_AuthenticateOnly
  else H_Proxy.

(** [ServeHTTP], [rw] being the header of the fresh response. *)
Definition ServeHTTP (p : LdapProxy) (rw : gmap string (list string))
    (req : Request) : Response :=
  match ServeHTTP_case p req with
  | H_RobotsTxt => Reply 200 [] (NoCache rw) RobotsBody
  | H_PingPage => Reply 200 [] (NoCache rw) PingBody
  | H_Upstream => ToUpstream [] rw req
  | H_SignIn => SignIn p (NoCache rw) req
  | H_SignOut => SignOut (NoCache rw)
  | H_AuthenticateOnly => AuthenticateOnly p (NoCache rw) req
  | H_Proxy => Proxy p rw req
  end.

(** ** Vocabulary of the properties *)

(** The text [getRemoteAddr] hands to [net.ParseIP]: the value of the
    proxy-IP header when it is not empty, else the value of the real-IP
    header when it is not empty, else the peer address up to its first
    colon. *)
Inductive ip_source (p : LdapProxy) (req : Request) : string -> Prop :=
| source_proxy_header :
    Header_Get (Header req) (ProxyIPHeader p) <> EmptyString ->
    ip_source p req (Header_Get (Header req) (ProxyIPHeader p))
| source_real_header :
    Header_Get (Header req) (ProxyIPHeader p) = EmptyString ->
    Header_Get (Header req) (RealIPHeader p) <> EmptyString ->
    ip_source p req (Header_Get (Header req) (RealIPHeader p))
| source_peer :
    Header_Get (Header req) (ProxyIPHeader p) = EmptyString ->
    Header_Get (Header req) (RealIPHeader p) = EmptyString ->
    ip_source p req (SplitN2_first (RemoteAddr req) ":"%char).

(** The target starts with a single slash: with [/] and not with [//]. *)
Definition single_slash (rd : string) : Prop :=
  (exists rest, rd = "/" +:+ rest) /\ ~ (exists rest, rd = "//" +:+ rest).

(** The allow-list [allowed] and the fetched [groups] have a group in
    common, letter case set aside. *)
Definition common_group (allowed groups : list string) : Prop :=
  exists a b, In a allowed /\ In b groups /\ ToLower a = ToLower b.

(** The loaded session [s] is still the session, or it was dropped and the
    cookie is to be cleared. *)
Definition kept_or_cleared (s : SessionState) (st : AuthState) : Prop :=
  session st = Some s \/ (session st = None /\ clearSession st = true).

End Proxy.

(** ** A reference instance of the library interface

    Executable stand-ins for the library functions, enough to run the
    handlers on concrete requests: ASCII case mapping, header keys made of
    token bytes, dotted-quad IPv4 addresses with CIDR prefixes, base64 with
    padding and without line breaks.  A compiled regular expression is
    represented by the set of strings it matches. *)

Module Ref.

Definition code (c : ascii) : Z := Z.of_N (N_of_ascii c).
Definition char (z : Z) : ascii := ascii_of_N (Z.to_N z).

Definition is_upper (c : ascii) : bool := (65 <=? code c) && (code c <=? 90).
Definition is_lower (c : ascii) : bool := (97 <=? code c) && (code c <=? 122).
Definition is_digit (c : ascii) : bool := (48 <=? code c) && (code c <=? 57).

Definition to_lower_char (c : ascii) : ascii :=
  if is_upper c then char (code c + 32) else c.
Definition to_upper_char (c : ascii) : ascii :=
  if is_lower c then char (code c - 32) else c.

Fixpoint ToLower (s : string) : string :=
  match s with
  | EmptyString => EmptyString
  | String c rest => String (to_lower_char c) (ToLower rest)
  end.

(** The bytes allowed in a header field name (RFC 7230 token). *)
Definition is_token_byte (c : ascii) : bool :=
  is_upper c || is_lower c || is_digit c
  || existsb (Ascii.eqb c)
       ["!"; "#"; "$"; "%"; "&"; "'"; "*"; "+"; "-"; "."; "^"; "_"; "`"; "|"; "~"]%char.

Fixpoint all_token (s : string) : bool :=
  match s with
  | EmptyString => true
  | String c rest => is_token_byte c && all_token rest
  end.

Fixpoint canonical_loop (upper : bool) (s : string) : string :=
  match s with
  | EmptyString => EmptyString
  | String c rest =>
      let c' := if upper then to_upper_char c else to_lower_char c in
      String c' (canonical_loop (Ascii.eqb c' "-") rest)
  end.

Definition CanonicalMIMEHeaderKey (s : string) : string :=
  if all_token s then canonical_loop true s else s.

(** *** IPv4 addresses and CIDR blocks *)

Fixpoint decimal (s : string) (acc : Z) : option Z :=
  match s with
  | EmptyString => Some acc
  | String c rest =>
      if is_digit c then decimal rest (10 * acc + (code c - 48)) else None
  end.

(** One field of a dotted quad: one to three digits, no leading zero, at most 255. *)
Definition octet (s : string) : option Z :=
  match s with
  | EmptyString => None
  | String c rest =>
      if (3 <? Z.of_nat (String.length s)) then None
      else if Ascii.eqb c "0" && negb (String.eqb rest EmptyString) then None
      else match decimal s 0 with
           | Some n => if n <=? 255 then Some n else None
           | None => None
           end
  end.

Definition ParseIP (s : string) : option Z :=
  match cut "." s with
  | Some (a, s1) =>
      match cut "." s1 with
      | Some (b, s2) =>
          match cut "." s2 with
          | Some (c, d) =>
              match octet a, octet b, octet c, octet d with
              | Some a, Some b, Some c, Some d =>
                  Some (Z.lor (Z.shiftl a 24)
                          (Z.lor (Z.shiftl b 16) (Z.lor (Z.shiftl c 8) d)))
              | _, _, _, _ => None
              end
          | None => None
          end
      | None => None
      end
  | None => None
  end.

(** A CIDR block: the network address and the number of leading mask bits. *)
Record IPNet := { net_addr : Z; net_ones : Z }.

Definition Contains (n : IPNet) (ip : Z) : bool :=
  Z.shiftr ip (32 - net_ones n) =? Z.shiftr (net_addr n) (32 - net_ones n).

(** *** base64, standard alphabet, with padding *)

Definition b64_value (c : ascii) : option Z :=
  if is_upper c then Some (code c - 65)
  else if is_lower c then Some (code c - 97 + 26)
  else if is_digit c then Some (code c - 48 + 52)
  else if Ascii.eqb c "+" then Some 62
  else if Ascii.eqb c "/" then Some 63
  else None.

Definition b64_char (v : Z) : ascii :=
  if v <? 26 then char (v + 65)
  else if v <? 52 then char (v - 26 + 97)
  else if v <? 62 then char (v - 52 + 48)
  else if v =? 62 then "+"%char else "/"%char.

Fixpoint DecodeString (s : string) : option string :=
  match s with
  | EmptyString => Some EmptyString
  | String a (String b (String c (String d rest))) =>
      match b64_value a, b64_value b with
      | Some va, Some vb =>
          let b0 := char (Z.lor (Z.shiftl va 2) (Z.shiftr vb 4)) in
          if Ascii.eqb c "=" then
            if Ascii.eqb d "=" && String.eqb rest EmptyString
            then Some (String b0 EmptyString) else None
          else
            match b64_value c with
            | Some vc =>
                let b1 := char (Z.lor (Z.shiftl (Z.land vb 15) 4) (Z.shiftr vc 2)) in
                if Ascii.eqb d "=" then
                  if String.eqb rest EmptyString
                  then Some (String b0 (String b1 EmptyString)) else None
                else
                  match b64_value d, DecodeString rest with
                  | Some vd, Some tail =>
                      let b2 := char (Z.lor (Z.shiftl (Z.land vc 3) 6) vd) in
                      Some (String b0 (String b1 (String b2 tail)))
                  | _, _ => None
                  end
            | None => None
            end
      | _, _ => None
      end
  | _ => None
  end.

Fixpoint EncodeToString (s : string) : string :=
  match s with
  | EmptyString => EmptyString
  | String x EmptyString =>
      String (b64_char (Z.shiftr (code x) 2))
        (String (b64_char (Z.shiftl (Z.land (code x) 3) 4)) "==")
  | String x (String y EmptyString) =>
      String (b64_char (Z.shiftr (code x) 2))
        (String (b64_char (Z.lor (Z.shiftl (Z.land (code x) 3) 4) (Z.shiftr (code y) 4)))
           (String (b64_char (Z.shiftl (Z.land (code y) 15) 2)) "="))
  | String x (String y (String z rest)) =>
      String (b64_char (Z.shiftr (code x) 2))
        (String (b64_char (Z.lor (Z.shiftl (Z.land (code x) 3) 4) (Z.shiftr (code y) 4)))
           (String (b64_char (Z.lor (Z.shiftl (Z.land (code y) 15) 2) (Z.shiftr (code z) 6)))
              (String (b64_char (Z.land (code z) 63)) (EncodeToString rest))))
  end.

#[global] Instance lib : GoLib :=
  Build_GoLib Z ParseIP IPNet Contains (string -> bool) (fun re s => re s)
    ToLower CanonicalMIMEHeaderKey DecodeString EncodeToString.

End Ref.


(** ** Sample deployments and requests

    A proxy as [NewLdapProxy] builds it for the prefix [/ldap], with the
    real-IP header [X-Real-IP] and the proxy-IP header [X-Forwarded-For],
    and the collaborators it runs against. *)

Module Sample.

Definition hour : Z := 3600 * 1000000000.
Definition day : Z := 24 * hour.

Definition ldapCfg : LDAPConfiguration :=
  {| Base := "dc=example,dc=org"; Host := "ldap.example.org"; Port := 389;
     UseTLS := false; InsecureSkipVerify := true;
     BindDN := "cn=proxy,dc=example,dc=org"; BindPassword := "bind-secret";
     UserFilter := "(&(objectClass=User)(uid=%s))";
     GroupFilter := "(&(objectClass=group)(member:1.2.840.113556.1.4.1941:=%s))";
     Attributes := ["mail"; "cn"] |}.

(** The credential file holds the single user [alice] with password [pw]. *)
Definition htpasswd : HtpasswdFile :=
  {| Validate := fun user passwd => String.eqb user "alice" && String.eqb passwd "pw" |}.

(** The identity-allow predicate admits the single address [boss@corp.example]. *)
Definition validator (email : string) : bool := String.eqb email "boss@corp.example".

Definition proxy (file : option HtpasswdFile) (groups : list string)
    (ips : list Ref.IPNet) (preflight : bool) (refresh : Z)
  : @LdapProxy Ref.lib :=
  {| CookieExpire := 7 * day; CookieRefresh := refresh;
     Validator := validator;
     RobotsPath := "/robots.txt"; PingPath := "/ping";
     SignInPath := "/ldap/sign_in"; SignOutPath := "/ldap/sign_out";
     AuthOnlyPath := "/ldap/auth";
     ProxyPrefix := "/ldap"; SignInMessage := "";
     Htpasswd := file; SetXAuthRequest := false;
     PassBasicAuth := false; PassUserHeaders := true;
     BasicAuthPassword := "";
     RealIPHeader := "X-Real-IP"; ProxyIPHeader := "X-Forwarded-For";
     LdapConfiguration := ldapCfg; LdapGroups := groups;
     skipAuthIPs := ips; skipAuthPreflight := preflight;
     compiledPathRegex := []; Footer := "" |}.

(** 10.0.0.0/8 *)
Definition net10 : Ref.IPNet := {| Ref.net_addr := 167772160; Ref.net_ones := 8 |}.

(** The directory knows [bob] with password [s3cret]; [groups] is what the
    group lookup returns for him. *)
Definition directory (groups : list string * option string) : LDAPClient :=
  {| ldap_Authenticate := fun user passwd =>
       if String.eqb user "bob" && String.eqb passwd "s3cret"
       then (true, {[ "dn" := "uid=bob,dc=example,dc=org" ]}, None)
       else (false, ∅, None);
     GetGroupsOfUser := fun dn => groups |}.

(** The time of the request, for the expiry test of a session. *)
Definition now : Z := 1700000000.

(** The collaborators: what the session cookie of the request holds, what
    the refresh hook answers, whether saving a cookie fails, and what the
    group lookup of the directory returns. *)
Definition package (loaded : option SessionState * Z * option string)
    (refresh : bool * option string) (save : option string)
    (groups : list string * option string) : Package :=
  {| LoadCookiedSession := fun req => loaded;
     RefreshSessionIfNeeded := fun s => refresh;
     IsExpired := fun s => negb (ExpiresOn s =? 0) && (ExpiresOn s <? now);
     ValidateSessionState := fun s => true;
     SaveSession := fun req s => save;
     NewLDAPClient := fun cfg => inl (directory groups);
     NoCache := fun h => <["Cache-Control" := ["no-cache, no-store, must-revalidate"]]> h |}.

Definition no_cookie : option SessionState * Z * option string :=
  (None, 0, Some "Cookie not found").

Definition request (method path remote : string)
    (header form : gmap string (list string)) : Request :=
  {| Method := method; URL_Path := path; URL_RequestURI := path;
     RemoteAddr := remote; Header := header; Form := form;
     ParseForm_err := None |}.

(** A session for an address the predicate rejects, still valid for a day. *)
Definition mallory : SessionState :=
  {| User := "mallory"; Email := "x@y.com"; ExpiresOn := now + 86400 |}.

(** A session whose expiry time has passed. *)
Definition stale : SessionState :=
  {| User := "carol"; Email := ""; ExpiresOn := now - 86400 |}.

(** [GET /private/page] with the Basic credentials [alice:pw]. *)
Definition get_private_basic : Request :=
  request "GET" "/private/page" "10.0.0.5:51234"
    {[ "Authorization" := ["Basic YWxpY2U6cHc="] ]} ∅.

Definition get_private : Request :=
  request "GET" "/private/page" "10.0.0.5:51234" ∅ ∅.

(** [POST /ldap/sign_in] with [username=bob&password=s3cret]. *)
Definition post_sign_in_bob : Request :=
  request "POST" "/ldap/sign_in" "10.0.0.5:51234" ∅
    {[ "username" := ["bob"]; "password" := ["s3cret"] ]}.

(** A session with no e-mail address, an hour of validity left. *)
Definition carol : SessionState :=
  {| User := "carol"; Email := ""; ExpiresOn := now + 3600 |}.

(** Both IP headers set. *)
Definition get_both_headers : Request :=
  request "GET" "/private/page" "172.16.0.9:40000"
    {[ "X-Real-Ip" := ["10.0.0.1"]; "X-Forwarded-For" := ["192.168.1.7"] ]} ∅.

(** A proxy-IP header that is no address, from a peer in 10.0.0.0/8. *)
Definition get_bad_proxy_header : Request :=
  request "GET" "/reports" "10.0.0.5:51234"
    {[ "X-Forwarded-For" := ["unknown"] ]} ∅.

(** A CORS preflight for the sign-in path. *)
Definition options_sign_in : Request :=
  request "OPTIONS" "/ldap/sign_in" "10.0.0.5:51234" ∅ ∅.

(** [POST /ldap/sign_in] for [bob] with a redirect target. *)
Definition post_sign_in_rd (rd : string) : Request :=
  request "POST" "/ldap/sign_in" "10.0.0.5:51234" ∅
    {[ "username" := ["bob"]; "password" := ["s3cret"]; "rd" := [rd] ]}.

(** No session cookie; the directory returns [groups] for [bob]. *)
Definition signing_in (groups : list string * option string)
    (save : option string) : Package :=
  package no_cookie (false, None) save groups.

(** The cookie holds [s], [age] old; the refresh hook answers [refresh]. *)
Definition with_cookie (s : SessionState) (age : Z)
    (refresh : bool * option string) (save : option string) : Package :=
  package (Some s, age, None) refresh save ([], None).

(** The deployments: with the credential file; directory only, with the
    given allow-list; with cookie refresh every hour; with the preflight
    bypass; with the 10.0.0.0/8 bypass. *)
Definition with_file : LdapProxy := proxy (Some htpasswd) [] [] false 0.
Definition directory_only (allowed : list string) : LdapProxy :=
  proxy None allowed [] false 0.
Definition refreshing : LdapProxy := proxy (Some htpasswd) [] [] false hour.
Definition with_preflight : LdapProxy := proxy None [] [] true 0.
Definition with_net10 : LdapProxy := proxy None [] [net10] false 0.

(** The scenarios the properties are run on. *)

(** The cookie holds the session of [mallory], whom the predicate rejects. *)
Definition denied : Package := with_cookie mallory hour (false, None) None.

(** The cookie holds an expired session, eight days old. *)
Definition stale_cookie : Package :=
  with_cookie stale (8 * day) (false, None) None.

(** The same, and the refresh hook fails. *)
Definition stale_refresh_failed : Package :=
  with_cookie stale (8 * day) (false, Some "refresh failed") None.

(** The cookie holds the session of [carol], two hours old, and saving a
    session fails. *)
Definition save_fails : Package :=
  with_cookie carol (2 * hour) (false, None) (Some "cookie cipher failed").

(** The cookie holds the session of [carol], half an hour old. *)
Definition carol_cookie : Package :=
  with_cookie carol (hour / 2) (false, None) None.

(** The bind of [bob] succeeds and the group lookup fails. *)
Definition lookup_fails : Package :=
  signing_in ([], Some "LDAP Result Code 3: Time Limit Exceeded") None.

(** The directory puts [bob] in the groups [eng] and [ops]. *)
Definition eng_ops : Package := signing_in (["eng"; "ops"], None) None.

(** The same, and saving a session fails. *)
Definition eng_ops_save_fails : Package :=
  signing_in (["eng"; "ops"], None) (Some "cookie cipher failed").

(** No cookie, nothing else. *)
Definition anonymous : Package := signing_in ([], None) None.

End Sample.

(** * Start-up, cookies and the log line

    The functions of [ldap_proxy.go] around the request path:
    [NewLdapProxy] with the directors it installs, [makeCookie] and
    [MakeSessionCookie], and [getRemoteAddrStr]. *)

(** [*url.URL], with the fields [NewLdapProxy] reads. *)
Record URL := {
  Scheme : string;
  u_Host : string;                       (* u.Host *)
  u_Path : string;                       (* u.Path *)
  Fragment : string;
}.

(** [opts.signatureData] *)
Record SignatureData := {
  hash : string;
  key : string;
}.

(** What [hmacauth.NewHmacAuth(hash, key, header, headers)] is built from. *)
Record HmacAuth := {
  auth_hash : string;
  auth_key : string;
  auth_header : string;
  auth_headers : list string;
}.

Definition signatureHeader : string := "LAP-Signature".

Definition signatureHeaders : list string :=
  [ "Content-Length"; "Content-Md5"; "Content-Type"; "Date"; "Authorization";
    "X-Forwarded-User"; "X-Forwarded-Email"; "X-Forwarded-Access-Token";
    "Cookie"; "Lap-Auth" ].

(** The director [NewLdapProxy] wraps around the one of the reverse proxy. *)
Inductive Director :=
| UpstreamHostHeader                     (* setProxyUpstreamHostHeader(proxy, u) *)
| ProxyDirector.                         (* setProxyDirector(proxy) *)

(** The handlers [NewLdapProxy] registers:
    [&UpstreamProxy{u.Host, proxy, auth}] around a reverse proxy to [u], and
    [&UpstreamProxy{path, proxy, nil}] around a file server. *)
Inductive UpstreamProxy :=
| ReverseProxy (upstream : string) (target : URL) (director : Director)
               (auth : option HmacAuth)
| FileServer (upstream : string) (path filesystemPath : string).

(** The fields of an outbound [*http.Request] the directors write, and
    [RequestURI], which they read. *)
Record Outbound := {
  out_Host : string;                     (* req.Host *)
  out_RequestURI : string;               (* req.RequestURI *)
  out_URL_Scheme : string;
  out_URL_Host : string;
  out_URL_Path : string;
  out_URL_Opaque : string;
  out_URL_RawQuery : string;
}.

(** The director installed by [setProxyUpstreamHostHeader(proxy, target)],
    [director] being the one [proxy] had. *)
Definition setProxyUpstreamHostHeader (director : Outbound -> Outbound)
    (target : URL) (req : Outbound) : Outbound :=
  let req := director req in
  {| out_Host := u_Host target; out_RequestURI := out_RequestURI req;
     out_URL_Scheme := out_URL_Scheme req; out_URL_Host := out_URL_Host req;
     out_URL_Path := out_URL_Path req;
     out_URL_Opaque := out_RequestURI req; out_URL_RawQuery := EmptyString |}.

(** The director installed by [setProxyDirector(proxy)]. *)
Definition setProxyDirector (director : Outbound -> Outbound)
    (req : Outbound) : Outbound :=
  let req := director req in
  {| out_Host := out_Host req; out_RequestURI := out_RequestURI req;
     out_URL_Scheme := out_URL_Scheme req; out_URL_Host := out_URL_Host req;
     out_URL_Path := out_URL_Path req;
     out_URL_Opaque := out_RequestURI req; out_URL_RawQuery := EmptyString |}.

(** The director of a registered handler. *)
Definition run_director (d : Director) (director : Outbound -> Outbound)
    (target : URL) : Outbound -> Outbound :=
  match d with
  | UpstreamHostHeader => setProxyUpstreamHostHeader director target
  | ProxyDirector => setProxyDirector director
  end.

(** The cookie fields of [LdapProxy]. *)
Record CookieSettings := {
  CookieSeed : string;
  CookieName : string;
  CSRFCookieName : string;
  CookieDomain : string;
  CookieSecure : bool;
  CookieHTTPOnly : bool;
}.

(** [http.Cookie], with the fields [makeCookie] fills; a [time.Time] is a
    [Z], [now.Add(d)] the sum. *)
Record Cookie := {
  Name : string;
  Value : string;
  Path : string;
  Domain : string;
  HttpOnly : bool;
  Secure : bool;
  Expires : Z;
}.

Section Startup.
Context `{lib : GoLib}.

(** [strconv.Quote], what the verb [%q] prints for a string. *)
Variable Quote : string -> string.

(** [net.SplitHostPort]: [(host, port)], [None] for an error. *)
Variable SplitHostPort : string -> option (string * string).

(** [cookie.SignedValue(seed, key, value, now)], of the package [cookie]. *)
Variable SignedValue : string -> string -> string -> Z -> string.

(** The value [serveMux.Handle(pattern, handler)] panics with, if it does,
    given the handlers registered so far. *)
Variable Handle_panic : list (string * UpstreamProxy) -> string -> option string.

(** [cookie.NewCipher(secretBytes(secret))]: a cipher, or the error. *)
Variable Cipher : Type.
Variable NewCipher : string -> Cipher + string.
Variable secretBytes : string -> string.

(** [getRemoteAddrStr]: the peer address, followed by the real-IP header
    and by the proxy-IP header, each quoted in brackets, when set. *)
Definition getRemoteAddrStr (p : LdapProxy) (req : Request) : string :=
  let s := RemoteAddr req in
  let s :=
    if negb (String.eqb (Header_Get (Header req) (RealIPHeader p)) EmptyString)
    then s +:+ (" (" +:+ Quote (Header_Get (Header req) (RealIPHeader p)) +:+ ")")
    else s in
  let s :=
    if negb (String.eqb (Header_Get (Header req) (ProxyIPHeader p)) EmptyString)
    then s +:+ (" (" +:+ Quote (Header_Get (Header req) (ProxyIPHeader p)) +:+ ")")
    else s in
  s.

(** [makeCookie], [host] being [req.Host].  A host outside the configured
    cookie domain is logged and otherwise ignored. *)
Definition makeCookie (c : CookieSettings) (host : string) (name value : string)
    (expiration now : Z) : Cookie :=
  let domain := host in
  let domain :=
    match SplitHostPort domain with
    | Some (h, _) => h
    | None => domain
    end in
  let domain :=
    if negb (String.eqb (CookieDomain c) EmptyString) then CookieDomain c
    else domain in
  {| Name := name; Value := value; Path := "/"; Domain := domain;
     HttpOnly := CookieHTTPOnly c; Secure := CookieSecure c;
     Expires := now + expiration |}.

(** [MakeSessionCookie], [host] being [req.Host].  A signed value longer
    than 4096 bytes is logged and otherwise ignored. *)
Definition MakeSessionCookie (c : CookieSettings) (host : string) (value : string)
    (expiration now : Z) : Cookie :=
  let value :=
    if negb (String.eqb value EmptyString)
    then SignedValue (CookieSeed c) (CookieName c) value now
    else value in
  makeCookie c host (CookieName c) value expiration now.

(** [Options], with the fields [NewLdapProxy] reads. *)
Record Options := {
  opt_signatureData : option SignatureData;
  opt_proxyURLs : list URL;
  opt_PassHostHeader : bool;
  opt_CompiledPathRegex : list Regexp;
  opt_CookieName : string;
  opt_CookieSecret : string;
  opt_CookieDomain : string;
  opt_CookieSecure : bool;
  opt_CookieHTTPOnly : bool;
  opt_CookieExpire : Z;
  opt_CookieRefresh : Z;
  opt_LdapBaseDn : string;
  opt_LdapServerHost : string;
  opt_LdapServerPort : Z;
  opt_LdapTLS : bool;
  opt_LdapBindDn : string;
  opt_LdapBindDnPassword : string;
  opt_ProxyPrefix : string;
  opt_SetXAuthRequest : bool;
  opt_PassBasicAuth : bool;
  opt_PassUserHeaders : bool;
  opt_BasicAuthPassword : string;
  opt_RealIPHeader : string;
  opt_ProxyIPHeader : string;
  opt_LdapGroups : list string;
  opt_skipIPs : list net_IPNet;
  opt_SkipAuthPreflight : bool;
  opt_Footer : string;
}.

(** [u] with [u.Path = ""]. *)
Definition clear_Path (u : URL) : URL :=
  {| Scheme := Scheme u; u_Host := u_Host u; u_Path := EmptyString;
     Fragment := Fragment u |}.

(** The loop of [NewLdapProxy] over [opts.proxyURLs]: the handlers
    registered, in order, or the message of the panic. *)
Fixpoint register_upstreams (opts : Options) (auth : option HmacAuth)
    (urls : list URL) (serveMux : list (string * UpstreamProxy))
  : list (string * UpstreamProxy) + string :=
  match urls with
  | [] => inl serveMux
  | u :: rest =>
      let path := u_Path u in
      if String.eqb (Scheme u) "http" || String.eqb (Scheme u) "https" then
        let u := clear_Path u in
        let director :=
          if negb (opt_PassHostHeader opts) then UpstreamHostHeader
          else ProxyDirector in
        match Handle_panic serveMux path with
        | Some message => inr message
        | None =>
            register_upstreams opts auth rest
              (serveMux ++ [(path, ReverseProxy (u_Host u) u director auth)])
        end
      else if String.eqb (Scheme u) "file" then
        let path :=
          if negb (String.eqb (Fragment u) EmptyString) then Fragment u else path in
        match Handle_panic serveMux path with
        | Some message => inr message
        | None =>
            register_upstreams opts auth rest
              (serveMux ++ [(path, FileServer path path (u_Path u))])
        end
      else inr ("unknown upstream protocol " +:+ Scheme u)
  end.

(** How [NewLdapProxy] ends: with the proxy, its cookie fields, its
    [serveMux] and its [CookieCipher]; in a panic; or in [log.Fatal]. *)
Inductive Startup :=
| Started (p : LdapProxy) (c : CookieSettings)
          (serveMux : list (string * UpstreamProxy)) (CookieCipher : option Cipher)
| Panic (message : string)
| Fatal (message : string).

(** [NewLdapProxy].  The templates it loads are not carried along. *)
Definition NewLdapProxy (opts : Options) (validator : string -> bool) : Startup :=
  let auth :=
    match opt_signatureData opts with
    | Some sigData =>
        Some {| auth_hash := hash sigData; auth_key := key sigData;
                auth_header := signatureHeader; auth_headers := signatureHeaders |}
    | None => None
    end in
  match register_upstreams opts auth (opt_proxyURLs opts) [] with
  | inr message => Panic message
  | inl serveMux =>
      let cipher :=
        if negb (opt_CookieRefresh opts =? 0)
        then match NewCipher (secretBytes (opt_CookieSecret opts)) with
             | inl cipher => inl (Some cipher)
             | inr err => inr err
             end
        else inl None in
      match cipher with
      | inr err => Fatal ("cookie-secret error: " +:+ err)
      | inl cipher =>
          let ldapCfg :=
            {| Base := opt_LdapBaseDn opts; Host := opt_LdapServerHost opts;
               Port := opt_LdapServerPort opts; UseTLS := opt_LdapTLS opts;
               InsecureSkipVerify := true;
               BindDN := opt_LdapBindDn opts;
               BindPassword := opt_LdapBindDnPassword opts;
               UserFilter := "(&(objectClass=User)(uid=%s))";
               GroupFilter :=
                 "(&(objectClass=group)(member:1.2.840.113556.1.4.1941:=%s))";
               Attributes := ["mail"; "cn"] |} in
          Started
            {| CookieExpire := opt_CookieExpire opts;
               CookieRefresh := opt_CookieRefresh opts;
               Validator := validator;
               RobotsPath := "/robots.txt"; PingPath := "/ping";
               SignInPath := opt_ProxyPrefix opts +:+ "/sign_in";
               SignOutPath := opt_ProxyPrefix opts +:+ "/sign_out";
               AuthOnlyPath := opt_ProxyPrefix opts +:+ "/auth";
               ProxyPrefix := opt_ProxyPrefix opts;
               SignInMessage := EmptyString;
               Htpasswd := None;
               SetXAuthRequest := opt_SetXAuthRequest opts;
               PassBasicAuth := opt_PassBasicAuth opts;
               PassUserHeaders := opt_PassUserHeaders opts;
               BasicAuthPassword := opt_BasicAuthPassword opts;
               RealIPHeader := opt_RealIPHeader opts;
               ProxyIPHeader := opt_ProxyIPHeader opts;
               LdapConfiguration := ldapCfg;
               LdapGroups := opt_LdapGroups opts;
               skipAuthIPs := opt_skipIPs opts;
               skipAuthPreflight := opt_SkipAuthPreflight opts;
               compiledPathRegex := opt_CompiledPathRegex opts;
               Footer := opt_Footer opts |}
            {| CookieSeed := opt_CookieSecret opts;
               CookieName := opt_CookieName opts;
               CSRFCookieName := opt_CookieName opts +:+ "_" +:+ "csrf";
               CookieDomain := opt_CookieDomain opts;
               CookieSecure := opt_CookieSecure opts;
               CookieHTTPOnly := opt_CookieHTTPOnly opts |}
            serveMux cipher
      end
  end.

(** The pattern [NewLdapProxy] registers the upstream [u] under. *)
Definition upstream_pattern (u : URL) : string :=
  if String.eqb (Scheme u) "file" && negb (String.eqb (Fragment u) EmptyString)
  then Fragment u else u_Path u.

(** The handler [NewLdapProxy] registers for the upstream [u]. *)
Definition upstream_handler (opts : Options) (auth : option HmacAuth) (u : URL)
  : UpstreamProxy :=
  if String.eqb (Scheme u) "file"
  then FileServer (upstream_pattern u) (upstream_pattern u) (u_Path u)
  else ReverseProxy (u_Host u) (clear_Path u)
         (if opt_PassHostHeader opts then ProxyDirector else UpstreamHostHeader)
         auth.

(** The schemes [NewLdapProxy] knows. *)
Definition known_scheme (u : URL) : Prop :=
  Scheme u = "http" \/ Scheme u = "https" \/ Scheme u = "file".

End Startup.

Arguments Started {lib Cipher} p c serveMux CookieCipher.
Arguments Panic {lib Cipher} message.
Arguments Fatal {lib Cipher} message.
Arguments NewLdapProxy {lib} Handle_panic {Cipher} NewCipher secretBytes opts validator.

(** ** Sample start-ups and further requests *)

Module Cases.
Import Sample.

(** Stand-ins for the library functions of start-up and cookies: quoting
    of text without control bytes, [host:port] with a single colon, an
    unkeyed encoding in place of the signature, a mux that refuses the
    empty pattern and a pattern registered twice, a cipher that wants a
    secret of 16, 24 or 32 bytes. *)
Definition double_quote : ascii := "034"%char.
Definition backslash : ascii := "092"%char.

Fixpoint escape (s : string) : string :=
  match s with
  | EmptyString => EmptyString
  | String c rest =>
      if Ascii.eqb c double_quote || Ascii.eqb c backslash
      then String backslash (String c (escape rest))
      else String c (escape rest)
  end.

Definition Quote (s : string) : string :=
  String double_quote (escape s +:+ String double_quote EmptyString).

Definition SplitHostPort (s : string) : option (string * string) :=
  match cut ":" s with
  | Some (host, port) =>
      match cut ":" port with
      | None => Some (host, port)
      | Some _ => None
      end
  | None => None
  end.

Definition SignedValue (seed key value : string) (now : Z) : string :=
  Ref.EncodeToString (value +:+ "|" +:+ key).

Definition Handle_panic (serveMux : list (string * UpstreamProxy))
    (pattern : string) : option string :=
  if String.eqb pattern EmptyString then Some "http: invalid pattern"
  else if existsb (fun route => String.eqb (fst route) pattern) serveMux
  then Some ("http: multiple registrations for " +:+ pattern)
  else None.

Definition NewCipher (secret : string) : string + string :=
  if existsb (Nat.eqb (String.length secret)) [16; 24; 32]%nat
  then inl secret else inr "crypto/aes: invalid key size".

Definition secretBytes (secret : string) : string := secret.

(** [http://10.0.0.20:8080/], [file:///var/www/static#/static/] and
    [ftp://files.example/pub]. *)
Definition backend : URL :=
  {| Scheme := "http"; u_Host := "10.0.0.20:8080"; u_Path := "/"; Fragment := "" |}.
Definition static : URL :=
  {| Scheme := "file"; u_Host := ""; u_Path := "/var/www/static";
     Fragment := "/static/" |}.
Definition ftp : URL :=
  {| Scheme := "ftp"; u_Host := "files.example"; u_Path := "/pub"; Fragment := "" |}.

(** The options of a start-up with the given upstreams, refresh interval
    and cookie secret, under the prefix [/ldap]. *)
Definition options (urls : list URL) (refresh : Z) (secret : string)
  : @Options Ref.lib :=
  {| opt_signatureData := Some {| hash := "sha1"; key := "upstream-key" |};
     opt_proxyURLs := urls; opt_PassHostHeader := false;
     opt_CompiledPathRegex := [];
     opt_CookieName := "_ldap_proxy"; opt_CookieSecret := secret;
     opt_CookieDomain := "corp.example"; opt_CookieSecure := true;
     opt_CookieHTTPOnly := true;
     opt_CookieExpire := 7 * day; opt_CookieRefresh := refresh;
     opt_LdapBaseDn := "dc=example,dc=org";
     opt_LdapServerHost := "ldap.example.org"; opt_LdapServerPort := 389;
     opt_LdapTLS := false; opt_LdapBindDn := "cn=proxy,dc=example,dc=org";
     opt_LdapBindDnPassword := "bind-secret";
     opt_ProxyPrefix := "/ldap";
     opt_SetXAuthRequest := false; opt_PassBasicAuth := false;
     opt_PassUserHeaders := true; opt_BasicAuthPassword := "";
     opt_RealIPHeader := "X-Real-IP"; opt_ProxyIPHeader := "X-Forwarded-For";
     opt_LdapGroups := []; opt_skipIPs := []; opt_SkipAuthPreflight := false;
     opt_Footer := "" |}.

(** The deployment [with_file] without the forwarded-user headers. *)
Definition bare : LdapProxy :=
  {| CookieExpire := 7 * day; CookieRefresh := 0;
     Validator := validator;
     RobotsPath := "/robots.txt"; PingPath := "/ping";
     SignInPath := "/ldap/sign_in"; SignOutPath := "/ldap/sign_out";
     AuthOnlyPath := "/ldap/auth";
     ProxyPrefix := "/ldap"; SignInMessage := "";
     Htpasswd := Some htpasswd; SetXAuthRequest := false;
     PassBasicAuth := false; PassUserHeaders := false;
     BasicAuthPassword := "";
     RealIPHeader := "X-Real-IP"; ProxyIPHeader := "X-Forwarded-For";
     LdapConfiguration := ldapCfg; LdapGroups := [];
     skipAuthIPs := []; skipAuthPreflight := false;
     compiledPathRegex := []; Footer := "" |}.

(** A request that brings identity headers of its own. *)
Definition get_spoofed : Request :=
  request "GET" "/private/page" "10.0.0.5:51234"
    {[ "X-Forwarded-User" := ["root"];
       "X-Forwarded-Email" := ["root@corp.example"] ]} ∅.

(** The [GET] that shows the sign-in form. *)
Definition get_sign_in : Request :=
  request "GET" "/ldap/sign_in" "10.0.0.5:51234" ∅ ∅.

(** The cookie holds the session of [carol], two hours old. *)
Definition carol_due : Package := with_cookie carol (2 * hour) (false, None) None.

(** The cookie holds the session of [carol] and the refresh hook reports a
    refresh. *)
Definition carol_refreshed : Package :=
  with_cookie carol (hour / 2) (true, None) None.

(** The cookie holds the session of [carol] and the refresh hook fails. *)
Definition carol_hook_fails : Package :=
  with_cookie carol (hour / 2) (false, Some "provider unreachable") None.

(** The cookie holds the session of [carol], two hours old, and the state
    check fails. *)
Definition carol_invalid : Package :=
  {| LoadCookiedSession := fun req => (Some carol, 2 * hour, None);
     RefreshSessionIfNeeded := fun s => (false, None);
     IsExpired := fun s => negb (ExpiresOn s =? 0) && (ExpiresOn s <? now);
     ValidateSessionState := fun s => false;
     SaveSession := fun req s => None;
     NewLDAPClient := fun cfg => inl (directory ([], None));
     NoCache := fun h => h |}.

End Cases.

(** * Properties *)

Section Facts.
Context `{lib : GoLib} `{pkg : Package}.

(** ** Strings *)

Lemma eqb_empty_false (s : string) :
  String.eqb s EmptyString = false <-> s <> EmptyString.
Proof.
  destruct (String.eqb_spec s EmptyString) as [E | E]; split; intro H;
    congruence.
Qed.

Lemma HasPrefix_spec (pre s : string) :
  HasPrefix s pre = true <-> exists rest, s = pre +:+ rest.
Proof.
  revert s. induction pre as [| a pre IH]; intros s; simpl.
  - split; [intros _; exists s; reflexivity | reflexivity].
  - destruct s as [| b s].
    + split; [discriminate | intros [rest H]; discriminate].
    + rewrite andb_true_iff, Ascii.eqb_eq, IH. split.
      * intros [-> [rest ->]]. exists rest. reflexivity.
      * intros [rest H]. injection H as -> ->. eauto.
Qed.

Lemma HasPrefix_slash (s : string) :
  HasPrefix s "/" = true <-> exists rest, s = "/" +:+ rest.
Proof. apply HasPrefix_spec. Qed.

Lemma HasPrefix_slash_slash (s : string) :
  HasPrefix s "//" = true <-> exists rest, s = "//" +:+ rest.
Proof. apply HasPrefix_spec. Qed.

(** ** Client address *)

Lemma getRemoteAddr_source (p : LdapProxy) (req : Request) (src : string) :
  ip_source p req src -> getRemoteAddr p req = ParseIP src.
Proof.
  unfold getRemoteAddr.
  destruct 1 as [Hp | Hp Hr | Hp Hr].
  - apply eqb_empty_false in Hp. rewrite Hp. reflexivity.
  - rewrite Hp. apply eqb_empty_false in Hr. rewrite Hr. reflexivity.
  - rewrite Hp, Hr. reflexivity.
Qed.

(** C2, as the code has it.  The proxy-IP header is consulted last and
    overrides what came before: when it is set its value is the client
    address, also when the real-IP header is set; the real-IP header counts
    only when the proxy-IP header is empty, and the peer address only when
    both are empty. *)
Theorem getRemoteAddr_priority (p : LdapProxy) (req : Request) :
  let proxy_ip := Header_Get (Header req) (ProxyIPHeader p) in
  let real_ip := Header_Get (Header req) (RealIPHeader p) in
  (proxy_ip <> EmptyString -> getRemoteAddr p req = ParseIP proxy_ip)
  /\ (proxy_ip = EmptyString -> real_ip <> EmptyString ->
      getRemoteAddr p req = ParseIP real_ip)
  /\ (proxy_ip = EmptyString -> real_ip = EmptyString ->
      getRemoteAddr p req = ParseIP (SplitN2_first (RemoteAddr req) ":"%char)).
Proof.
  cbv zeta. repeat split; intros.
  - apply getRemoteAddr_source. now constructor.
  - apply getRemoteAddr_source. now constructor.
  - apply getRemoteAddr_source. now constructor.
Qed.

(** C9.  When the text the client address is read from (the proxy-IP
    header if set, else the real-IP header if set, else the peer address)
    does not parse, the client address is nil and the IP whitelist rejects
    it whatever CIDR blocks are configured, so that the request is
    whitelisted only by the preflight rule or by a path pattern.  A set but
    unparseable proxy-IP header does so whatever the peer address is. *)
Theorem getRemoteAddr_unparseable (p : LdapProxy) (req : Request) (src : string) :
  ip_source p req src ->
  ParseIP src = None ->
  getRemoteAddr p req = None
  /\ IsWhitelistedIP p (getRemoteAddr p req) = false
  /\ IsWhitelistedRequest p req
     = (skipAuthPreflight p && String.eqb (Method req) "OPTIONS"
        || IsWhitelistedPath p (URL_Path req))
  /\ (Header_Get (Header req) (ProxyIPHeader p) <> EmptyString ->
      src = Header_Get (Header req) (ProxyIPHeader p)).
Proof.
  intros Hsrc Hparse.
  assert (Hnil : getRemoteAddr p req = None)
    by (rewrite (getRemoteAddr_source p req src Hsrc); exact Hparse).
  repeat split.
  - exact Hnil.
  - rewrite Hnil. reflexivity.
  - unfold IsWhitelistedRequest. rewrite Hnil. simpl.
    now rewrite orb_false_r.
  - intros Hset. destruct Hsrc; congruence.
Qed.

(** ** Dispatcher *)

(** C5, as the code has it.  Only the robots and ping paths come before
    the whitelist check.  A request that is whitelisted and is not for one
    of those two goes to the upstream, also when its path is the sign-in,
    sign-out or auth-only path; these three are handled as system paths
    only when the request is not whitelisted. *)
Theorem ServeHTTP_order (p : LdapProxy) (req : Request) :
  let path := URL_Path req in
  (path = RobotsPath p -> ServeHTTP_case p req = H_RobotsTxt)
  /\ (path <> RobotsPath p -> path = PingPath p ->
      ServeHTTP_case p req = H_PingPage)
  /\ (path <> RobotsPath p -> path <> PingPath p ->
      IsWhitelistedRequest p req = true ->
      ServeHTTP_case p req = H_Upstream)
  /\ (path <> RobotsPath p -> path <> PingPath p ->
      IsWhitelistedRequest p req = false ->
      (path = SignInPath p -> ServeHTTP_case p req = H_SignIn)
      /\ (path <> SignInPath p -> path = SignOutPath p ->
          ServeHTTP_case p req = H_SignOut)
      /\ (path <> SignInPath p -> path <> SignOutPath p ->
          path = AuthOnlyPath p -> ServeHTTP_case p req = H_AuthenticateOnly)
      /\ (path <> SignInPath p -> path <> SignOutPath p ->
          path <> AuthOnlyPath p -> ServeHTTP_case p req = H_Proxy)).
Proof.
  cbv zeta. unfold ServeHTTP_case.
  destruct (String.eqb_spec (URL_Path req) (RobotsPath p));
  destruct (String.eqb_spec (URL_Path req) (PingPath p));
  destruct (IsWhitelistedRequest p req);
  destruct (String.eqb_spec (URL_Path req) (SignInPath p));
  destruct (String.eqb_spec (URL_Path req) (SignOutPath p));
  destruct (String.eqb_spec (URL_Path req) (AuthOnlyPath p));
  repeat split; intros; try reflexivity; try congruence.
Qed.

(** ** Redirect target *)

(** C7.  For a sign-in request whose form parses, the redirect target is
    the [rd] parameter as given when it starts with a single slash, and [/]
    in every other case; a sign-in that redirects with 302 redirects there. *)
Theorem GetRedirect_single_slash (p : LdapProxy) (rw : gmap string (list string))
    (req : Request) :
  ParseForm_err req = None ->
  let rd := Values_Get (Form req) "rd" in
  (single_slash rd -> GetRedirect req = (rd, None))
  /\ (~ single_slash rd -> GetRedirect req = ("/", None))
  /\ (forall cookies header url,
        SignIn p rw req = Reply 302 cookies header (RedirectTo url) ->
        url = fst (GetRedirect req)).
Proof.
  intros Hform. cbv zeta. unfold single_slash.
  split; [| split].
  - intros [[rest Hone] Htwo]. unfold GetRedirect. rewrite Hform.
    assert (H1 : HasPrefix (Values_Get (Form req) "rd") "/" = true)
      by (apply HasPrefix_slash; eauto).
    assert (H2 : HasPrefix (Values_Get (Form req) "rd") "//" = false).
    { destruct (HasPrefix (Values_Get (Form req) "rd") "//") eqn:E; [| easy].
      apply HasPrefix_slash_slash in E. contradiction. }
    assert (H0 : String.eqb (Values_Get (Form req) "rd") EmptyString = false).
    { apply eqb_empty_false. rewrite Hone. discriminate. }
    rewrite H0, H1, H2. reflexivity.
  - intros Hnot. unfold GetRedirect. rewrite Hform.
    destruct (String.eqb (Values_Get (Form req) "rd") EmptyString); [reflexivity |].
    destruct (HasPrefix (Values_Get (Form req) "rd") "/") eqn:E1; [| reflexivity].
    destruct (HasPrefix (Values_Get (Form req) "rd") "//") eqn:E2; [reflexivity |].
    exfalso. apply Hnot. split.
    + now apply HasPrefix_slash.
    + intros H. apply HasPrefix_slash_slash in H. congruence.
  - intros cookies header url. unfold SignIn.
    destruct (GetRedirect req) as [redirect [err |]]; simpl.
    + unfold ErrorPage. intros H. inversion H.
    + destruct (ManualSignIn p req) as [user [|]].
      * intros H. inversion H. reflexivity.
      * destruct (LdapSignIn p req) as [[user' groups] ok].
        unfold SignInPage.
        destruct ok; simpl;
          [| intros H; inversion H].
        destruct (0 <? Z.of_nat (List.length (LdapGroups p)));
          [destruct (sliceContainsString (LdapGroups p) groups) |];
          intros H; inversion H; reflexivity.
Qed.

(** ** Authentication engine *)

Lemma Header_Get_Set (h : gmap string (list string)) (key value : string) :
  Header_Get (Header_Set h key value) key = value.
Proof. unfold Header_Get, Header_Set. now rewrite lookup_insert_eq. Qed.

(** The trust header after the header writes: the e-mail address when the
    session has one, else the user name. *)
Lemma auth_inject_LAP_Auth (p : LdapProxy) (s : SessionState)
    (rqh rwh : gmap string (list string)) :
  Header_Get (snd (auth_inject p s rqh rwh)) "LAP-Auth"
  = if String.eqb (Email s) EmptyString then User s else Email s.
Proof.
  unfold auth_inject. simpl.
  destruct (String.eqb (Email s) EmptyString); apply Header_Get_Set.
Qed.

(** *** The steps of the decision phase *)

Lemma auth_refresh_due_none (p : LdapProxy) (age : Z) (st : AuthState) :
  session st = None -> auth_refresh_due p age st = st.
Proof. unfold auth_refresh_due. now intros ->. Qed.

Lemma auth_expire_none (st : AuthState) :
  session st = None -> auth_expire st = st.
Proof. unfold auth_expire. now intros ->. Qed.

Lemma auth_validate_none (st : AuthState) :
  session st = None -> auth_validate st = st.
Proof. unfold auth_validate. now intros ->. Qed.

Lemma auth_policy_none (p : LdapProxy) (st : AuthState) :
  session st = None -> auth_policy p st = st.
Proof. unfold auth_policy. now intros ->. Qed.

Lemma auth_refresh_none (st : AuthState) :
  session st = None -> session (auth_refresh st) = None.
Proof.
  unfold auth_refresh. intros H.
  destruct (RefreshSessionIfNeeded (session st)) as [[|] [e |]]; simpl; auto.
Qed.

Lemma auth_refresh_due_kept (p : LdapProxy) (age : Z) (s : SessionState)
    (st : AuthState) :
  kept_or_cleared s st -> kept_or_cleared s (auth_refresh_due p age st).
Proof.
  unfold kept_or_cleared, auth_refresh_due. intros [H | [H Hc]]; rewrite H.
  - destruct (_ && _); simpl; auto.
  - auto.
Qed.

Lemma auth_refresh_kept (s : SessionState) (st : AuthState) :
  kept_or_cleared s st -> kept_or_cleared s (auth_refresh st).
Proof.
  unfold kept_or_cleared, auth_refresh. intros H.
  destruct (RefreshSessionIfNeeded (session st)) as [[|] [e |]]; simpl; auto.
Qed.

Lemma auth_expire_kept (s : SessionState) (st : AuthState) :
  kept_or_cleared s st -> kept_or_cleared s (auth_expire st).
Proof.
  unfold kept_or_cleared, auth_expire. intros [H | [H Hc]]; rewrite H.
  - destruct (IsExpired s); simpl; auto.
  - auto.
Qed.

Lemma auth_validate_kept (s : SessionState) (st : AuthState) :
  kept_or_cleared s st -> kept_or_cleared s (auth_validate st).
Proof.
  unfold kept_or_cleared, auth_validate. intros [H | [H Hc]]; rewrite H.
  - destruct (_ && _); [destruct (negb _) |]; simpl; auto.
  - auto.
Qed.

Lemma auth_policy_kept (p : LdapProxy) (s : SessionState) (st : AuthState) :
  kept_or_cleared s st -> kept_or_cleared s (auth_policy p st).
Proof.
  unfold kept_or_cleared, auth_policy. intros [H | [H Hc]]; rewrite H.
  - destruct (_ && _); simpl; auto.
  - auto.
Qed.

Lemma auth_checked_unfold (p : LdapProxy) (req : Request) :
  auth_checked p req
  = auth_validate (auth_expire (auth_refresh
      (auth_refresh_due p (snd (auth_load req)) (fst (auth_load req))))).
Proof. unfold auth_checked. now destruct (auth_load req). Qed.

Lemma auth_load_kept (req : Request) (s : SessionState) (age : Z)
    (err : option string) :
  LoadCookiedSession req = (Some s, age, err) ->
  kept_or_cleared s (fst (auth_load req)) /\ snd (auth_load req) = age.
Proof. unfold auth_load. intros ->. split; [now left | reflexivity]. Qed.

(** Up to the policy test a loaded session is kept as it is, or dropped
    with the cookie to be cleared. *)
Lemma auth_checked_kept (p : LdapProxy) (req : Request) (s : SessionState)
    (age : Z) (err : option string) :
  LoadCookiedSession req = (Some s, age, err) ->
  kept_or_cleared s (auth_checked p req).
Proof.
  intros Hload. rewrite auth_checked_unfold.
  destruct (auth_load_kept req s age err Hload) as [K _].
  now apply auth_validate_kept, auth_expire_kept, auth_refresh_kept,
    auth_refresh_due_kept.
Qed.

(** Without a loaded session there is none at the policy test. *)
Lemma auth_checked_none (p : LdapProxy) (req : Request) :
  fst (fst (LoadCookiedSession req)) = None ->
  session (auth_checked p req) = None.
Proof.
  intros Hload. rewrite auth_checked_unfold.
  assert (H0 : session (fst (auth_load req)) = None).
  { unfold auth_load. destruct (LoadCookiedSession req) as [[ses age] err].
    exact Hload. }
  rewrite auth_validate_none; rewrite ?auth_expire_none;
    rewrite ?auth_refresh_due_none; auto using auth_refresh_none.
Qed.

(** No step of the decision phase changes the session other than by
    dropping it. *)
Lemma auth_checked_session (p : LdapProxy) (req : Request) :
  session (auth_checked p req) = None
  \/ session (auth_checked p req) = fst (fst (LoadCookiedSession req)).
Proof.
  destruct (LoadCookiedSession req) as [[[s |] age] err] eqn:E.
  - destruct (auth_checked_kept p req s age err E) as [K | [K _]]; auto.
  - left. apply auth_checked_none. now rewrite E.
Qed.

(** What [Authenticate] does once the decision phase has dropped the
    session and asked for the cookie to be cleared: nothing is saved, the
    cookie is cleared and the Basic-Auth fallback decides. *)
Lemma Authenticate_dropped (p : LdapProxy) (rw : gmap string (list string))
    (req : Request) :
  session (auth_decide p req) = None ->
  clearSession (auth_decide p req) = true ->
  Authenticate p rw req =
    match fst (CheckBasicAuth p req) with
    | None =>
        {| status := 403; cookieOps := [ClearSessionCookie];
           reqHeader := Header req; rwHeader := rw |}
    | Some b =>
        {| status := 202; cookieOps := [ClearSessionCookie];
           reqHeader := fst (auth_inject p b (Header req) rw);
           rwHeader := snd (auth_inject p b (Header req) rw) |}
    end.
Proof.
  intros Hs Hc. unfold Authenticate. rewrite Hs, Hc. simpl.
  destruct (fst (CheckBasicAuth p req)) as [b |]; [| reflexivity].
  destruct (auth_inject p b (Header req) rw); reflexivity.
Qed.

(** Every session [CheckBasicAuth] returns is [SessionState{User: user}]. *)
Lemma CheckBasicAuth_user_only (p : LdapProxy) (req : Request) (s : SessionState) :
  fst (CheckBasicAuth p req) = Some s ->
  exists user, s = SessionState_of_user user.
Proof.
  unfold CheckBasicAuth.
  destruct (Htpasswd p) as [file |]; [| discriminate].
  destruct (String.eqb _ _); [discriminate |].
  destruct (SplitN2 _ _) as [| s0 [| s1 [| ? ?]]]; try discriminate.
  destruct (negb _); [discriminate |].
  destruct (DecodeString s1) as [b |]; [| discriminate].
  destruct (SplitN2 b _) as [| pair0 [| pair1 [| ? ?]]]; try discriminate.
  destruct (Validate file pair0 pair1); [| discriminate].
  simpl. intros [= <-]. eauto.
Qed.

(** C1, as the code has it.  A request whose cookie holds a session with a
    non-empty e-mail address that the identity-allow predicate rejects has
    that session dropped, whatever the refresh, expiry and validity tests
    say; no cookie is saved and the session cookie is cleared.  The request
    then falls back to Basic-Auth: it is answered Forbidden when that
    yields no session, and Accepted for the Basic-Auth user when it does. *)
Theorem Authenticate_policy_denial (p : LdapProxy) (rw : gmap string (list string))
    (req : Request) (s : SessionState) (age : Z) (err : option string) :
  LoadCookiedSession req = (Some s, age, err) ->
  Email s <> EmptyString ->
  Validator p (Email s) = false ->
  session (auth_decide p req) = None
  /\ clearSession (auth_decide p req) = true
  /\ cookieOps (Authenticate p rw req) = [ClearSessionCookie]
  /\ (fst (CheckBasicAuth p req) = None ->
      status (Authenticate p rw req) = 403)
  /\ (forall b, fst (CheckBasicAuth p req) = Some b ->
      status (Authenticate p rw req) = 202
      /\ Header_Get (rwHeader (Authenticate p rw req)) "LAP-Auth" = User b).
Proof.
  intros Hload Hmail Hdeny.
  apply eqb_empty_false in Hmail.
  assert (Hst : session (auth_decide p req) = None
                /\ clearSession (auth_decide p req) = true).
  { unfold auth_decide.
    destruct (auth_checked_kept p req s age err Hload) as [K | [K Kc]].
    - unfold auth_policy. rewrite K, Hmail, Hdeny. simpl. auto.
    - rewrite auth_policy_none by exact K. auto. }
  destruct Hst as [Hs Hc].
  rewrite (Authenticate_dropped p rw req Hs Hc).
  repeat split; auto.
  - destruct (fst (CheckBasicAuth p req)); reflexivity.
  - intros ->. reflexivity.
  - rewrite H. reflexivity.
  - rewrite H. cbn [rwHeader]. rewrite auth_inject_LAP_Auth.
    destruct (CheckBasicAuth_user_only p req b H) as [user ->]. reflexivity.
Qed.

(** C4, as the code has it.  A request whose loaded session has passed its
    absolute expiry has the session dropped and the cookie cleared, and
    never gets a re-signed session cookie, also when a refresh-driven save
    was pending: [Authenticate] does not end in a server error and the
    only cookie operation is the clearing.  [saveSession] is reset to false
    by the expiry test; when the refresh hook has failed the session is
    already gone by then and the flag stays as the refresh test left it. *)
Theorem Authenticate_expired (p : LdapProxy) (rw : gmap string (list string))
    (req : Request) (s : SessionState) (age : Z) (err : option string) :
  LoadCookiedSession req = (Some s, age, err) ->
  IsExpired s = true ->
  session (auth_decide p req) = None
  /\ clearSession (auth_decide p req) = true
  /\ (snd (RefreshSessionIfNeeded (Some s)) = None ->
      saveSession (auth_decide p req) = false)
  /\ cookieOps (Authenticate p rw req) = [ClearSessionCookie]
  /\ status (Authenticate p rw req) <> 500.
Proof.
  intros Hload Hexp.
  assert (Hst : session (auth_decide p req) = None
                /\ clearSession (auth_decide p req) = true
                /\ (snd (RefreshSessionIfNeeded (Some s)) = None ->
                    saveSession (auth_decide p req) = false)).
  { unfold auth_decide. rewrite auth_checked_unfold.
    destruct (auth_load_kept req s age err Hload) as [K _].
    apply (auth_refresh_due_kept p (snd (auth_load req))) in K.
    set (st1 := auth_refresh_due p (snd (auth_load req)) (fst (auth_load req))) in *.
    assert (H1 : session st1 = Some s).
    { destruct K as [K | [K _]]; [exact K |].
      exfalso. unfold st1, auth_refresh_due, auth_load in K.
      rewrite Hload in K. simpl in K. destruct (_ && _) in K; discriminate. }
    assert (H3 : session (auth_expire (auth_refresh st1)) = None
                 /\ clearSession (auth_expire (auth_refresh st1)) = true
                 /\ (snd (RefreshSessionIfNeeded (Some s)) = None ->
                     saveSession (auth_expire (auth_refresh st1)) = false)).
    { unfold auth_refresh. rewrite H1.
      destruct (RefreshSessionIfNeeded (Some s)) as [[|] [e |]]; simpl.
      - unfold auth_expire. simpl. repeat split; auto. discriminate.
      - unfold auth_expire. simpl. rewrite Hexp. simpl. auto.
      - unfold auth_expire. simpl. repeat split; auto. discriminate.
      - unfold auth_expire. rewrite H1, Hexp. simpl. auto. }
    destruct H3 as (Hs3 & Hc3 & Hv3).
    rewrite auth_policy_none; rewrite auth_validate_none; auto. }
  destruct Hst as (Hs & Hc & Hsave).
  rewrite (Authenticate_dropped p rw req Hs Hc).
  repeat split; auto;
    destruct (fst (CheckBasicAuth p req)); simpl; (reflexivity || discriminate).
Qed.

(** C8.  When the decision phase ends with a session to save and saving it
    fails, [Authenticate] returns 500 at once: no cookie is set or cleared,
    the Basic-Auth fallback is not asked and no header is written; [Proxy]
    then renders the error page.  This is the only way to a 500: every
    other run returns 202 or 403. *)
Theorem Authenticate_internal_error (p : LdapProxy) (rw : gmap string (list string))
    (req : Request) :
  (forall s err,
      session (auth_decide p req) = Some s ->
      saveSession (auth_decide p req) = true ->
      SaveSession req s = Some err ->
      Authenticate p rw req
      = {| status := 500; cookieOps := []; reqHeader := Header req; rwHeader := rw |}
      /\ Proxy p rw req = ErrorPage [] rw 500 "Internal Error" "Internal Error")
  /\ (status (Authenticate p rw req) = 500 ->
      exists s err,
        session (auth_decide p req) = Some s
        /\ saveSession (auth_decide p req) = true
        /\ SaveSession req s = Some err)
  /\ (status (Authenticate p rw req) <> 500 ->
      status (Authenticate p rw req) = 202 \/ status (Authenticate p rw req) = 403).
Proof.
  split; [| split].
  - intros s err Hs Hsave Herr.
    assert (HA : Authenticate p rw req
                 = {| status := 500; cookieOps := [];
                      reqHeader := Header req; rwHeader := rw |}).
    { unfold Authenticate. rewrite Hs, Hsave, Herr. reflexivity. }
    split; [exact HA |]. unfold Proxy. rewrite HA. reflexivity.
  - unfold Authenticate.
    destruct (session (auth_decide p req)) as [s |].
    + destruct (saveSession (auth_decide p req)).
      * destruct (SaveSession req s) as [err |] eqn:E.
        -- intros _. exists s, err. auto.
        -- destruct (auth_inject p s (Header req) rw). simpl. discriminate.
      * destruct (auth_inject p s (Header req) rw). simpl. discriminate.
    + destruct (fst (CheckBasicAuth p req)) as [b |].
      * destruct (auth_inject p b (Header req) rw). simpl. discriminate.
      * simpl. discriminate.
  - unfold Authenticate.
    destruct (session (auth_decide p req)) as [s |].
    + destruct (saveSession (auth_decide p req)).
      * destruct (SaveSession req s) as [err |] eqn:E.
        -- simpl. congruence.
        -- destruct (auth_inject p s (Header req) rw). simpl. auto.
      * destruct (auth_inject p s (Header req) rw). simpl. auto.
    + destruct (fst (CheckBasicAuth p req)) as [b |].
      * destruct (auth_inject p b (Header req) rw). simpl. auto.
      * simpl. auto.
Qed.

(** ** Sign-in *)

Lemma GetRedirect_ok (req : Request) :
  ParseForm_err req = None -> snd (GetRedirect req) = None.
Proof.
  unfold GetRedirect. intros ->.
  destruct (_ || _); reflexivity.
Qed.

Lemma sliceContainsString_inner_spec (aItem : string) (b : list string) :
  sliceContainsString_inner aItem b = true
  <-> exists bItem, In bItem b /\ ToLower aItem = ToLower bItem.
Proof.
  induction b as [| x b IH]; simpl.
  - split; [discriminate | intros (y & [] & _)].
  - destruct (String.eqb_spec (ToLower aItem) (ToLower x)) as [E | E].
    + split; [intros _; exists x; auto | reflexivity].
    + rewrite IH. split.
      * intros (y & Hy & Hl). exists y. auto.
      * intros (y & [<- | Hy] & Hl); [contradiction | eauto].
Qed.

(** [sliceContainsString] decides whether the two lists have a group in
    common, letter case set aside. *)
Lemma sliceContainsString_spec (a b : list string) :
  sliceContainsString a b = true <-> common_group a b.
Proof.
  unfold common_group. induction a as [| x a IH]; simpl.
  - split; [discriminate | intros (y & z & [] & _)].
  - destruct (sliceContainsString_inner x b) eqn:E.
    + apply sliceContainsString_inner_spec in E as (z & Hz & Hl).
      split; [intros _; exists x, z; auto | reflexivity].
    + rewrite IH. split.
      * intros (y & z & Hy & Hz & Hl). exists y, z. auto.
      * intros (y & z & [<- | Hy] & Hz & Hl); [| eauto].
        assert (sliceContainsString_inner x b = true)
          by (apply sliceContainsString_inner_spec; eauto).
        congruence.
Qed.

Lemma sliceContainsString_nil (a : list string) :
  sliceContainsString a [] = false.
Proof. induction a; simpl; auto. Qed.

(** What [SignIn] answers to a directory sign-in: the form parses, the
    credential file does not accept the request and the directory does. *)
Lemma SignIn_directory (p : LdapProxy) (rw : gmap string (list string))
    (req : Request) (user : string) (groups : list string) :
  ParseForm_err req = None ->
  snd (ManualSignIn p req) = false ->
  LdapSignIn p req = (user, groups, true) ->
  SignIn p rw req =
    if (0 <? Z.of_nat (List.length (LdapGroups p)))
       && negb (sliceContainsString (LdapGroups p) groups)
    then SignInPage p [] rw req 401 true
    else Reply 302 (saved_cookie req (SessionState_of_user user)) rw
           (RedirectTo (fst (GetRedirect req))).
Proof.
  intros Hform Hmanual Hldap. unfold SignIn.
  pose proof (GetRedirect_ok req Hform) as Hr.
  destruct (GetRedirect req) as [redirect e]. simpl in Hr. subst e.
  destruct (ManualSignIn p req) as [u ok]. simpl in Hmanual. subst ok.
  rewrite Hldap. simpl.
  destruct (0 <? Z.of_nat (List.length (LdapGroups p)));
    [destruct (sliceContainsString (LdapGroups p) groups) |]; reflexivity.
Qed.

Lemma nonempty_length (l : list string) :
  l <> [] -> (0 <? Z.of_nat (List.length l)) = true.
Proof. destruct l; [congruence | intros _; reflexivity]. Qed.

(** C3, as the code has it.  When the bind succeeds and the group lookup
    fails, [LdapSignIn] still reports the user as authenticated, with no
    groups.  The sign-in then fails (401, the session cookie cleared and
    none set) when a group allow-list is configured, and goes through (the
    session saved, 302) when none is. *)
Theorem LdapSignIn_group_lookup_error (p : LdapProxy)
    (rw : gmap string (list string)) (req : Request) (ldapClient : LDAPClient)
    (attributes : gmap string string) (groups : list string) (err : string) :
  let user := Values_Get (Form req) "username" in
  let passwd := Values_Get (Form req) "password" in
  user <> EmptyString ->
  NewLDAPClient (LdapConfiguration p) = inl ldapClient ->
  ldap_Authenticate ldapClient user passwd = (true, attributes, None) ->
  GetGroupsOfUser ldapClient (default EmptyString (attributes !! "dn"))
  = (groups, Some err) ->
  LdapSignIn p req = (user, [], true)
  /\ (ParseForm_err req = None -> snd (ManualSignIn p req) = false ->
      (LdapGroups p <> [] ->
       exists page, SignIn p rw req = Reply 401 [ClearSessionCookie] rw page)
      /\ (LdapGroups p = [] ->
          SignIn p rw req
          = Reply 302 (saved_cookie req (SessionState_of_user user)) rw
              (RedirectTo (fst (GetRedirect req))))).
Proof.
  cbv zeta. intros Huser Hclient Hbind Hgroups.
  assert (HL : LdapSignIn p req = (Values_Get (Form req) "username", [], true)).
  { unfold LdapSignIn. apply eqb_empty_false in Huser.
    rewrite Huser, Hclient, Hbind, Hgroups. reflexivity. }
  split; [exact HL |].
  intros Hform Hmanual.
  rewrite (SignIn_directory p rw req _ _ Hform Hmanual HL).
  split; intros HG.
  - rewrite (nonempty_length _ HG), sliceContainsString_nil. simpl.
    unfold SignInPage. eauto.
  - rewrite HG. reflexivity.
Qed.

(** C6, as the code has it.  With a non-empty group allow-list a directory
    sign-in is accepted exactly when the fetched groups and the allow-list
    have a group in common, letter case set aside: the session is saved and
    the answer is 302 (the session cookie is set unless saving it fails);
    otherwise the answer is 401 with the session cookie cleared and none
    set.  A local-file sign-in is answered the same way whatever the
    allow-list is, and so is every run of [Authenticate], Basic-Auth
    included. *)
Theorem SignIn_group_policy (p : LdapProxy) (rw : gmap string (list string))
    (req : Request) :
  (forall user groups,
      ParseForm_err req = None ->
      snd (ManualSignIn p req) = false ->
      LdapSignIn p req = (user, groups, true) ->
      LdapGroups p <> [] ->
      (common_group (LdapGroups p) groups ->
       SignIn p rw req
       = Reply 302 (saved_cookie req (SessionState_of_user user)) rw
           (RedirectTo (fst (GetRedirect req))))
      /\ (~ common_group (LdapGroups p) groups ->
          exists page, SignIn p rw req = Reply 401 [ClearSessionCookie] rw page)
      /\ (SaveSession req (SessionState_of_user user) = None ->
          saved_cookie req (SessionState_of_user user)
          = [SetSessionCookie (SessionState_of_user user)]))
  /\ (forall user allowed,
        ParseForm_err req = None ->
        ManualSignIn p req = (user, true) ->
        SignIn (with_LdapGroups p allowed) rw req
        = Reply 302 (saved_cookie req (SessionState_of_user user)) rw
            (RedirectTo (fst (GetRedirect req))))
  /\ (forall allowed,
        Authenticate (with_LdapGroups p allowed) rw req = Authenticate p rw req).
Proof.
  split; [| split].
  - intros user groups Hform Hmanual Hldap HG.
    rewrite (SignIn_directory p rw req user groups Hform Hmanual Hldap).
    rewrite (nonempty_length _ HG). simpl.
    split; [| split].
    + intros Hc. apply sliceContainsString_spec in Hc. rewrite Hc. reflexivity.
    + intros Hn.
      destruct (sliceContainsString (LdapGroups p) groups) eqn:E.
      * apply sliceContainsString_spec in E. contradiction.
      * simpl. unfold SignInPage. eauto.
    + unfold saved_cookie. intros ->. reflexivity.
  - intros user allowed Hform Hmanual. unfold SignIn.
    pose proof (GetRedirect_ok req Hform) as Hr.
    destruct (GetRedirect req) as [redirect e]. simpl in Hr. subst e.
    change (ManualSignIn (with_LdapGroups p allowed) req) with (ManualSignIn p req).
    rewrite Hmanual. reflexivity.
  - intros allowed. reflexivity.
Qed.

(** ** Sessions that carry a user name only *)

Lemma auth_decide_Validator (p : LdapProxy) (v : string -> bool) (req : Request) :
  (forall s, fst (fst (LoadCookiedSession req)) = Some s -> Email s = EmptyString) ->
  auth_decide (with_Validator p v) req = auth_decide p req.
Proof.
  intros Hmail. unfold auth_decide.
  change (auth_checked (with_Validator p v) req) with (auth_checked p req).
  unfold auth_policy.
  destruct (session (auth_checked p req)) as [s |] eqn:E; [| reflexivity].
  destruct (auth_checked_session p req) as [K | K]; [congruence |].
  rewrite E in K. symmetry in K. rewrite (Hmail s K). reflexivity.
Qed.

(** C10.  A session made by [CheckBasicAuth] or by a local-file sign-in is
    [SessionState{User: user}]: the user name and an empty e-mail address.
    [Authenticate] does not consult the identity-allow predicate for a
    request whose session has an empty e-mail address (or that has none and
    falls back to Basic-Auth): it behaves the same under every predicate.
    When such a session is accepted, the [LAP-Auth] header carries the
    user name. *)
Theorem user_only_sessions (p : LdapProxy) (rw : gmap string (list string))
    (req : Request) :
  (forall s, fst (CheckBasicAuth p req) = Some s ->
     Email s = EmptyString /\ exists user, s = SessionState_of_user user)
  /\ (forall user,
        ParseForm_err req = None ->
        ManualSignIn p req = (user, true) ->
        SignIn p rw req
        = Reply 302 (saved_cookie req (SessionState_of_user user)) rw
            (RedirectTo (fst (GetRedirect req)))
        /\ Email (SessionState_of_user user) = EmptyString)
  /\ (forall v,
        (forall s, fst (fst (LoadCookiedSession req)) = Some s ->
                   Email s = EmptyString) ->
        Authenticate (with_Validator p v) rw req = Authenticate p rw req)
  /\ (forall b,
        session (auth_decide p req) = None ->
        fst (CheckBasicAuth p req) = Some b ->
        status (Authenticate p rw req) = 202
        /\ Header_Get (rwHeader (Authenticate p rw req)) "LAP-Auth" = User b)
  /\ (forall s,
        session (auth_decide p req) = Some s ->
        Email s = EmptyString ->
        status (Authenticate p rw req) = 202 ->
        Header_Get (rwHeader (Authenticate p rw req)) "LAP-Auth" = User s).
Proof.
  split; [| split; [| split; [| split]]].
  - intros s H. destruct (CheckBasicAuth_user_only p req s H) as [user ->].
    split; [reflexivity | eauto].
  - intros user Hform Hmanual. split; [| reflexivity]. unfold SignIn.
    pose proof (GetRedirect_ok req Hform) as Hr.
    destruct (GetRedirect req) as [redirect e]. simpl in Hr. subst e.
    rewrite Hmanual. reflexivity.
  - intros v Hmail. unfold Authenticate.
    rewrite (auth_decide_Validator p v req Hmail). reflexivity.
  - intros b Hs Hb. unfold Authenticate. rewrite Hs, Hb.
    destruct (auth_inject p b (Header req) rw) as [rqh rwh] eqn:E. simpl.
    split; [reflexivity |].
    change rwh with (snd (rqh, rwh)). rewrite <- E, auth_inject_LAP_Auth.
    destruct (CheckBasicAuth_user_only p req b Hb) as [user ->]. reflexivity.
  - intros s Hs Hmail. unfold Authenticate. rewrite Hs.
    assert (HL : forall rqh rwh,
               auth_inject p s (Header req) rw = (rqh, rwh) ->
               Header_Get rwh "LAP-Auth" = User s).
    { intros rqh rwh E. change rwh with (snd (rqh, rwh)).
      rewrite <- E, auth_inject_LAP_Auth, Hmail. reflexivity. }
    destruct (saveSession (auth_decide p req));
      [destruct (SaveSession req s) |];
      try (simpl; discriminate);
      destruct (auth_inject p s (Header req) rw) as [rqh rwh] eqn:E; simpl;
      intros _; eauto.
Qed.

End Facts.

(** * The properties on the sample deployments *)

Import Sample.

(** C1: a denied session and valid Basic credentials: accepted, not Forbidden. *)
Lemma Authenticate_policy_denial_not_forbidden :
  LoadCookiedSession (Package := denied) get_private_basic
  = (Some mallory, hour, None)
  /\ IsExpired (Package := denied) mallory = false
  /\ Email mallory <> EmptyString
  /\ Validator with_file (Email mallory) = false
  /\ session (auth_decide (pkg := denied) with_file get_private_basic) = None
  /\ status (Authenticate (pkg := denied) with_file ∅ get_private_basic) = 202
  /\ status (Authenticate (pkg := denied) with_file ∅ get_private_basic) <> 403.
Proof. repeat split; try reflexivity; discriminate. Qed.

Lemma Authenticate_policy_denial_witness :
  LoadCookiedSession (Package := denied) get_private_basic
  = (Some mallory, hour, None)
  /\ Email mallory <> EmptyString
  /\ Validator with_file (Email mallory) = false
  /\ session (auth_decide (pkg := denied) with_file get_private_basic) = None
  /\ cookieOps (Authenticate (pkg := denied) with_file ∅ get_private_basic)
     = [ClearSessionCookie]
  /\ status (Authenticate (pkg := denied) with_file ∅ get_private_basic) = 202
  /\ Header_Get (rwHeader (Authenticate (pkg := denied) with_file ∅ get_private_basic))
       "LAP-Auth" = "alice".
Proof.
  assert (h1 : LoadCookiedSession (Package := denied) get_private_basic
               = (Some mallory, hour, None)) by reflexivity.
  assert (h2 : Email mallory <> EmptyString) by discriminate.
  assert (h3 : Validator with_file (Email mallory) = false) by reflexivity.
  destruct (Authenticate_policy_denial (pkg := denied) with_file ∅
              get_private_basic mallory hour None h1 h2 h3)
    as (c1 & _ & c3 & _ & c5).
  destruct (c5 (SessionState_of_user "alice") eq_refl) as [c6 c7].
  exact (conj h1 (conj h2 (conj h3 (conj c1 (conj c3 (conj c6 c7)))))).
Defined.

(** C2: with both headers set the client address is read from the
    proxy-IP header, not from the real-IP header. *)
Lemma getRemoteAddr_prefers_proxy_header :
  Header_Get (Header get_both_headers) (RealIPHeader with_net10) = "10.0.0.1"
  /\ Header_Get (Header get_both_headers) (ProxyIPHeader with_net10) = "192.168.1.7"
  /\ getRemoteAddr with_net10 get_both_headers = ParseIP "192.168.1.7"
  /\ getRemoteAddr with_net10 get_both_headers <> ParseIP "10.0.0.1".
Proof. repeat split; try reflexivity; discriminate. Qed.

Lemma getRemoteAddr_priority_witness :
  Header_Get (Header get_both_headers) (ProxyIPHeader with_net10) <> EmptyString
  /\ getRemoteAddr with_net10 get_both_headers = ParseIP "192.168.1.7".
Proof.
  assert (h : Header_Get (Header get_both_headers) (ProxyIPHeader with_net10)
              <> EmptyString) by discriminate.
  split; [exact h |].
  exact (proj1 (getRemoteAddr_priority with_net10 get_both_headers) h).
Defined.

(** C9: a peer in the whitelisted block, masked by a proxy-IP header that
    is no address. *)
Lemma getRemoteAddr_unparseable_witness :
  ip_source with_net10 get_bad_proxy_header "unknown"
  /\ ParseIP "unknown" = None
  /\ ParseIP (SplitN2_first (RemoteAddr get_bad_proxy_header) ":"%char)
     = Some 167772165
  /\ Contains net10 167772165 = true
  /\ getRemoteAddr with_net10 get_bad_proxy_header = None
  /\ IsWhitelistedIP with_net10 (getRemoteAddr with_net10 get_bad_proxy_header) = false
  /\ IsWhitelistedRequest with_net10 get_bad_proxy_header = false.
Proof.
  assert (h1 : ip_source with_net10 get_bad_proxy_header "unknown")
    by (apply (source_proxy_header with_net10 get_bad_proxy_header); discriminate).
  assert (h2 : ParseIP "unknown" = None) by reflexivity.
  destruct (getRemoteAddr_unparseable with_net10 get_bad_proxy_header "unknown" h1 h2)
    as (c1 & c2 & c3 & _).
  assert (h3 : ParseIP (SplitN2_first (RemoteAddr get_bad_proxy_header) ":"%char)
               = Some 167772165) by reflexivity.
  assert (h4 : Contains net10 167772165 = true) by reflexivity.
  exact (conj h1 (conj h2 (conj h3 (conj h4 (conj c1 (conj c2 c3)))))).
Defined.

(** C5: a whitelisted request for the sign-in path goes to the upstream. *)
Lemma ServeHTTP_whitelisted_sign_in :
  URL_Path options_sign_in = SignInPath with_preflight
  /\ IsWhitelistedRequest with_preflight options_sign_in = true
  /\ ServeHTTP_case with_preflight options_sign_in = H_Upstream
  /\ ServeHTTP (pkg := anonymous) with_preflight ∅ options_sign_in
     = ToUpstream [] ∅ options_sign_in.
Proof. repeat split. Qed.

Lemma ServeHTTP_order_witness :
  URL_Path options_sign_in <> RobotsPath with_preflight
  /\ URL_Path options_sign_in <> PingPath with_preflight
  /\ IsWhitelistedRequest with_preflight options_sign_in = true
  /\ ServeHTTP_case with_preflight options_sign_in = H_Upstream.
Proof.
  assert (h1 : URL_Path options_sign_in <> RobotsPath with_preflight) by discriminate.
  assert (h2 : URL_Path options_sign_in <> PingPath with_preflight) by discriminate.
  assert (h3 : IsWhitelistedRequest with_preflight options_sign_in = true)
    by reflexivity.
  exact (conj h1 (conj h2 (conj h3
           (proj1 (proj2 (proj2 (ServeHTTP_order with_preflight options_sign_in)))
              h1 h2 h3)))).
Defined.

(** C7: [/dashboard] is kept, [//evil.example] is not. *)
Lemma GetRedirect_single_slash_witness :
  ParseForm_err (post_sign_in_rd "/dashboard") = None
  /\ single_slash "/dashboard"
  /\ GetRedirect (post_sign_in_rd "/dashboard") = ("/dashboard", None)
  /\ ~ single_slash "//evil.example"
  /\ GetRedirect (post_sign_in_rd "//evil.example") = ("/", None).
Proof.
  assert (h1 : single_slash "/dashboard").
  { split; [exists "dashboard"; reflexivity | intros [rest H]; discriminate]. }
  assert (h2 : ~ single_slash "//evil.example").
  { intros [_ H]. apply H. exists "evil.example". reflexivity. }
  split; [reflexivity |]. split; [exact h1 |]. split; [| split; [exact h2 |]].
  - exact (proj1 (GetRedirect_single_slash (pkg := eng_ops) (directory_only [])
                    ∅ (post_sign_in_rd "/dashboard") eq_refl) h1).
  - exact (proj1 (proj2 (GetRedirect_single_slash (pkg := eng_ops) (directory_only [])
                           ∅ (post_sign_in_rd "//evil.example") eq_refl)) h2).
Defined.

(** C3: the group lookup fails for [bob] and no allow-list is configured:
    [LdapSignIn] reports him authenticated and the session cookie is set. *)
Lemma LdapSignIn_lookup_error_signs_in :
  ldap_Authenticate (directory ([], Some "LDAP Result Code 3: Time Limit Exceeded"))
    "bob" "s3cret"
  = (true, {[ "dn" := "uid=bob,dc=example,dc=org" ]}, None)
  /\ snd (GetGroupsOfUser
            (directory ([], Some "LDAP Result Code 3: Time Limit Exceeded"))
            "uid=bob,dc=example,dc=org")
     = Some "LDAP Result Code 3: Time Limit Exceeded"
  /\ LdapSignIn (pkg := lookup_fails) (directory_only []) post_sign_in_bob
     = ("bob", [], true)
  /\ SignIn (pkg := lookup_fails) (directory_only []) ∅ post_sign_in_bob
     = Reply 302 [SetSessionCookie (SessionState_of_user "bob")] ∅ (RedirectTo "/").
Proof. repeat split. Qed.

Lemma LdapSignIn_group_lookup_error_witness :
  Values_Get (Form post_sign_in_bob) "username" <> EmptyString
  /\ NewLDAPClient (Package := lookup_fails) (LdapConfiguration (directory_only ["admin"]))
     = inl (directory ([], Some "LDAP Result Code 3: Time Limit Exceeded"))
  /\ LdapSignIn (pkg := lookup_fails) (directory_only ["admin"]) post_sign_in_bob
     = ("bob", [], true)
  /\ (exists page,
        SignIn (pkg := lookup_fails) (directory_only ["admin"]) ∅ post_sign_in_bob
        = Reply 401 [ClearSessionCookie] ∅ page).
Proof.
  assert (h1 : Values_Get (Form post_sign_in_bob) "username" <> EmptyString)
    by discriminate.
  assert (h2 : NewLDAPClient (Package := lookup_fails)
                 (LdapConfiguration (directory_only ["admin"]))
               = inl (directory ([], Some "LDAP Result Code 3: Time Limit Exceeded")))
    by reflexivity.
  destruct (LdapSignIn_group_lookup_error (pkg := lookup_fails)
              (directory_only ["admin"]) ∅ post_sign_in_bob
              (directory ([], Some "LDAP Result Code 3: Time Limit Exceeded"))
              {[ "dn" := "uid=bob,dc=example,dc=org" ]} []
              "LDAP Result Code 3: Time Limit Exceeded"
              h1 h2 eq_refl eq_refl) as [c1 c2].
  destruct (c2 eq_refl eq_refl) as [c3 _].
  assert (h3 : LdapGroups (directory_only ["admin"]) <> []) by discriminate.
  exact (conj h1 (conj h2 (conj c1 (c3 h3)))).
Defined.

(** C4: the session has expired, a refresh-driven save is pending and the
    refresh hook fails: the session is dropped and the cookie cleared, and
    [saveSession] is still true. *)
Lemma Authenticate_expired_save_flag :
  LoadCookiedSession (Package := stale_refresh_failed) get_private
  = (Some stale, 8 * day, None)
  /\ IsExpired (Package := stale_refresh_failed) stale = true
  /\ (CookieExpire refreshing <? 8 * day) = true
  /\ session (auth_decide (pkg := stale_refresh_failed) refreshing get_private) = None
  /\ clearSession (auth_decide (pkg := stale_refresh_failed) refreshing get_private)
     = true
  /\ saveSession (auth_decide (pkg := stale_refresh_failed) refreshing get_private)
     = true
  /\ saveSession (auth_decide (pkg := stale_refresh_failed) refreshing get_private)
     <> false.
Proof. repeat split; try reflexivity; discriminate. Qed.

Lemma Authenticate_expired_witness :
  LoadCookiedSession (Package := stale_cookie) get_private
  = (Some stale, 8 * day, None)
  /\ IsExpired (Package := stale_cookie) stale = true
  /\ (CookieRefresh refreshing <? 8 * day) = true
  /\ session (auth_decide (pkg := stale_cookie) refreshing get_private) = None
  /\ clearSession (auth_decide (pkg := stale_cookie) refreshing get_private) = true
  /\ saveSession (auth_decide (pkg := stale_cookie) refreshing get_private) = false
  /\ cookieOps (Authenticate (pkg := stale_cookie) refreshing ∅ get_private)
     = [ClearSessionCookie]
  /\ status (Authenticate (pkg := stale_cookie) refreshing ∅ get_private) <> 500.
Proof.
  assert (h1 : LoadCookiedSession (Package := stale_cookie) get_private
               = (Some stale, 8 * day, None)) by reflexivity.
  assert (h2 : IsExpired (Package := stale_cookie) stale = true) by reflexivity.
  assert (h3 : (CookieRefresh refreshing <? 8 * day) = true) by reflexivity.
  destruct (Authenticate_expired (pkg := stale_cookie) refreshing ∅ get_private
              stale (8 * day) None h1 h2) as (c1 & c2 & c3 & c4 & c5).
  exact (conj h1 (conj h2 (conj h3 (conj c1 (conj c2
           (conj (c3 eq_refl) (conj c4 c5))))))).
Defined.

(** C6: [bob] is in [eng] and [ops]; the allow-list [Eng] admits him, and
    saving the session fails: the answer is 302 and no cookie is set. *)
Lemma SignIn_accepted_without_cookie :
  LdapSignIn (pkg := eng_ops_save_fails) (directory_only ["Eng"]) post_sign_in_bob
  = ("bob", ["eng"; "ops"], true)
  /\ sliceContainsString (LdapGroups (directory_only ["Eng"])) ["eng"; "ops"] = true
  /\ SignIn (pkg := eng_ops_save_fails) (directory_only ["Eng"]) ∅ post_sign_in_bob
     = Reply 302 [] ∅ (RedirectTo "/").
Proof. repeat split. Qed.

Lemma SignIn_group_policy_witness :
  (LdapSignIn (pkg := eng_ops) (directory_only ["admin"]) post_sign_in_bob
   = ("bob", ["eng"; "ops"], true)
   /\ ~ common_group (LdapGroups (directory_only ["admin"])) ["eng"; "ops"]
   /\ exists page,
       SignIn (pkg := eng_ops) (directory_only ["admin"]) ∅ post_sign_in_bob
       = Reply 401 [ClearSessionCookie] ∅ page)
  /\ (LdapSignIn (pkg := eng_ops) (directory_only ["eng"]) post_sign_in_bob
      = ("bob", ["eng"; "ops"], true)
      /\ common_group (LdapGroups (directory_only ["eng"])) ["eng"; "ops"]
      /\ SignIn (pkg := eng_ops) (directory_only ["eng"]) ∅ post_sign_in_bob
         = Reply 302 [SetSessionCookie (SessionState_of_user "bob")] ∅
             (RedirectTo "/")).
Proof.
  assert (n1 : ~ common_group (LdapGroups (directory_only ["admin"])) ["eng"; "ops"]).
  { intros (a & b & Ha & Hb & Hl). simpl in Ha, Hb.
    destruct Ha as [<- | []]. destruct Hb as [<- | [<- | []]]; discriminate Hl. }
  assert (y1 : common_group (LdapGroups (directory_only ["eng"])) ["eng"; "ops"]).
  { exists "eng", "eng". simpl. auto. }
  assert (g1 : LdapGroups (directory_only ["admin"]) <> []) by discriminate.
  assert (g2 : LdapGroups (directory_only ["eng"]) <> []) by discriminate.
  destruct (proj1 (SignIn_group_policy (pkg := eng_ops) (directory_only ["admin"])
                     ∅ post_sign_in_bob)
              "bob" ["eng"; "ops"] eq_refl eq_refl eq_refl g1) as (_ & c1 & _).
  destruct (proj1 (SignIn_group_policy (pkg := eng_ops) (directory_only ["eng"])
                     ∅ post_sign_in_bob)
              "bob" ["eng"; "ops"] eq_refl eq_refl eq_refl g2) as (c2 & _ & _).
  exact (conj (conj eq_refl (conj n1 (c1 n1))) (conj eq_refl (conj y1 (c2 y1)))).
Defined.

(** C8: a refresh-driven save that fails. *)
Lemma Authenticate_internal_error_witness :
  session (auth_decide (pkg := save_fails) refreshing get_private_basic) = Some carol
  /\ saveSession (auth_decide (pkg := save_fails) refreshing get_private_basic) = true
  /\ SaveSession (Package := save_fails) get_private_basic carol
     = Some "cookie cipher failed"
  /\ Authenticate (pkg := save_fails) refreshing ∅ get_private_basic
     = {| status := 500; cookieOps := [];
          reqHeader := Header get_private_basic; rwHeader := ∅ |}
  /\ Proxy (pkg := save_fails) refreshing ∅ get_private_basic
     = Reply 500 [] ∅ (ErrorHtml "Internal Error" "Internal Error").
Proof.
  assert (h1 : session (auth_decide (pkg := save_fails) refreshing get_private_basic)
               = Some carol) by reflexivity.
  assert (h2 : saveSession (auth_decide (pkg := save_fails) refreshing get_private_basic)
               = true) by reflexivity.
  assert (h3 : SaveSession (Package := save_fails) get_private_basic carol
               = Some "cookie cipher failed") by reflexivity.
  destruct (proj1 (Authenticate_internal_error (pkg := save_fails) refreshing ∅
                     get_private_basic) carol "cookie cipher failed" h1 h2 h3)
    as [c1 c2].
  exact (conj h1 (conj h2 (conj h3 (conj c1 c2)))).
Defined.

(** C10: the Basic-Auth session of [alice] and the cookie session of
    [carol] are accepted with the user name in [LAP-Auth]. *)
Lemma user_only_sessions_witness :
  (fst (CheckBasicAuth with_file get_private_basic)
   = Some (SessionState_of_user "alice")
   /\ status (Authenticate (pkg := anonymous) with_file ∅ get_private_basic) = 202
   /\ Header_Get (rwHeader (Authenticate (pkg := anonymous) with_file ∅
                               get_private_basic)) "LAP-Auth" = "alice")
  /\ (session (auth_decide (pkg := carol_cookie) with_file get_private) = Some carol
      /\ Header_Get (rwHeader (Authenticate (pkg := carol_cookie) with_file ∅
                                  get_private)) "LAP-Auth" = "carol")
  /\ Authenticate (pkg := carol_cookie) (with_Validator with_file (fun _ => false))
       ∅ get_private
     = Authenticate (pkg := carol_cookie) with_file ∅ get_private.
Proof.
  destruct (user_only_sessions (pkg := anonymous) with_file ∅ get_private_basic)
    as (_ & _ & _ & c4 & _).
  destruct (c4 (SessionState_of_user "alice") eq_refl eq_refl) as [c41 c42].
  destruct (user_only_sessions (pkg := carol_cookie) with_file ∅ get_private)
    as (_ & _ & c3 & _ & c5).
  assert (h3 : forall s,
             fst (fst (LoadCookiedSession (Package := carol_cookie) get_private))
             = Some s -> Email s = EmptyString).
  { intros s H. injection H as <-. reflexivity. }
  exact (conj (conj eq_refl (conj c41 c42))
           (conj (conj eq_refl (c5 carol eq_refl eq_refl eq_refl))
              (c3 (fun _ => false) h3))).
Defined.

(** * Further properties of the handlers *)

Section Engine.
Context `{lib : GoLib} `{pkg : Package}.

(** ** Splitting *)

Lemma cut_Some (c : ascii) (s before after : string) :
  cut c s = Some (before, after)
  <-> s = before +:+ String c after /\ cut c before = None.
Proof.
  revert before after. induction s as [| a s IH]; intros before after; simpl.
  - split; [discriminate |]. intros [H _]. destruct before; discriminate.
  - destruct (Ascii.eqb_spec a c) as [-> | Hne].
    + split.
      * intros [= <- <-]. split; reflexivity.
      * intros [H Hb]. destruct before as [| b before].
        -- simpl in H. injection H as <-. reflexivity.
        -- simpl in H, Hb. injection H as <- _.
           rewrite Ascii.eqb_refl in Hb. discriminate.
    + destruct (cut c s) as [[x y] |] eqn:E.
      * split.
        -- intros [= <- <-]. destruct (proj1 (IH x y) eq_refl) as [-> Hx].
           split; [reflexivity |]. simpl.
           destruct (Ascii.eqb_spec a c); [contradiction |]. now rewrite Hx.
        -- intros [H Hb]. destruct before as [| b before].
           ++ simpl in H. injection H as -> _. contradiction.
           ++ simpl in H, Hb. injection H as <- ->.
              destruct (Ascii.eqb_spec a c); [contradiction |].
              destruct (cut c before) as [[? ?] |] eqn:Eb; [discriminate |].
              assert (K : Some (x, y) = Some (before, after))
                by (apply IH; auto).
              now injection K as -> ->.
      * split; [discriminate |]. intros [H Hb].
        destruct before as [| b before].
        -- simpl in H. injection H as -> _. contradiction.
        -- simpl in H, Hb. injection H as <- ->.
           destruct (Ascii.eqb_spec a c); [contradiction |].
           destruct (cut c before) as [[? ?] |] eqn:Eb; [discriminate |].
           assert (K : None = Some (before, after)) by (apply IH; auto).
           discriminate.
Qed.

(** ** The decision phase, case by case *)

(** Whether the cookie is old enough to be re-issued. *)
Lemma auth_checked_live (p : LdapProxy) (req : Request) (s : SessionState)
    (age : Z) (err : option string) (ok : bool) :
  LoadCookiedSession req = (Some s, age, err) ->
  RefreshSessionIfNeeded (Some s) = (ok, None) ->
  IsExpired s = false ->
  auth_checked p req
  = if ok
    then {| session := Some s; saveSession := true;
            clearSession := false; revalidated := true |}
    else if (CookieRefresh p <? age) && negb (CookieRefresh p =? 0)
    then if ValidateSessionState s
         then {| session := Some s; saveSession := true;
                 clearSession := false; revalidated := false |}
         else {| session := None; saveSession := false;
                 clearSession := true; revalidated := false |}
    else {| session := Some s; saveSession := false;
            clearSession := false; revalidated := false |}.
Proof.
  intros Hload Hhook Hexp. unfold auth_checked, auth_load. rewrite Hload.
  unfold auth_refresh_due. cbn [session].
  destruct ((CookieRefresh p <? age) && negb (CookieRefresh p =? 0));
    unfold auth_refresh; cbn [session]; rewrite Hhook; destruct ok;
    unfold auth_expire; cbn [session]; rewrite Hexp;
    unfold auth_validate; cbn [session saveSession revalidated]; cbn [andb negb];
    try reflexivity.
  destruct (ValidateSessionState s); reflexivity.
Qed.

(** A failing refresh hook drops the session and asks for the cookie to be
    cleared. *)
Lemma auth_checked_hook_error (p : LdapProxy) (req : Request) (ok : bool)
    (err : string) :
  RefreshSessionIfNeeded (fst (fst (LoadCookiedSession req))) = (ok, Some err) ->
  session (auth_checked p req) = None
  /\ clearSession (auth_checked p req) = true.
Proof.
  intros Hhook. rewrite auth_checked_unfold.
  set (st1 := auth_refresh_due p _ _).
  assert (H1 : session st1 = fst (fst (LoadCookiedSession req))).
  { unfold st1, auth_refresh_due, auth_load.
    destruct (LoadCookiedSession req) as [[[s |] age] e]; cbn; [| reflexivity].
    destruct (_ && _); reflexivity. }
  assert (H2 : session (auth_refresh st1) = None
               /\ clearSession (auth_refresh st1) = true).
  { unfold auth_refresh. rewrite H1, Hhook. destruct ok; split; reflexivity. }
  destruct H2 as [H2 H3].
  rewrite auth_validate_none; rewrite ?auth_expire_none; auto.
Qed.

(** Each step keeps: the cookie is to be cleared only when the session has
    been dropped. *)
Lemma auth_refresh_due_clear (p : LdapProxy) (age : Z) (st : AuthState) :
  (clearSession st = true -> session st = None) ->
  clearSession (auth_refresh_due p age st) = true ->
  session (auth_refresh_due p age st) = None.
Proof.
  intros J. unfold auth_refresh_due.
  destruct (session st) eqn:E; [destruct (_ && _) |]; cbn; rewrite ?E; auto.
Qed.

Lemma auth_refresh_clear (st : AuthState) :
  (clearSession st = true -> session st = None) ->
  clearSession (auth_refresh st) = true -> session (auth_refresh st) = None.
Proof.
  intros J. unfold auth_refresh.
  destruct (RefreshSessionIfNeeded (session st)) as [[|] [e |]]; cbn; auto.
Qed.

Lemma auth_expire_clear (st : AuthState) :
  (clearSession st = true -> session st = None) ->
  clearSession (auth_expire st) = true -> session (auth_expire st) = None.
Proof.
  intros J. unfold auth_expire.
  destruct (session st) eqn:E; [destruct (IsExpired _) |]; cbn; rewrite ?E; auto.
Qed.

Lemma auth_validate_clear (st : AuthState) :
  (clearSession st = true -> session st = None) ->
  clearSession (auth_validate st) = true -> session (auth_validate st) = None.
Proof.
  intros J. unfold auth_validate.
  destruct (session st) eqn:E;
    [destruct (_ && _); [destruct (negb _) |] |]; cbn; rewrite ?E; auto.
Qed.

Lemma auth_policy_clear (p : LdapProxy) (st : AuthState) :
  (clearSession st = true -> session st = None) ->
  clearSession (auth_policy p st) = true -> session (auth_policy p st) = None.
Proof.
  intros J. unfold auth_policy.
  destruct (session st) eqn:E; [destruct (_ && _) |]; cbn; rewrite ?E; auto.
Qed.

(** The cookie is cleared only when the session has been dropped. *)
Lemma auth_decide_clear (p : LdapProxy) (req : Request) :
  clearSession (auth_decide p req) = true -> session (auth_decide p req) = None.
Proof.
  unfold auth_decide. rewrite auth_checked_unfold.
  apply auth_policy_clear, auth_validate_clear, auth_expire_clear,
    auth_refresh_clear, auth_refresh_due_clear.
  unfold auth_load. destruct (LoadCookiedSession req) as [[ses age] e].
  cbn. discriminate.
Qed.

(** A session is saved only if it is the one the cookie held. *)
Lemma auth_decide_loaded (p : LdapProxy) (req : Request) (s : SessionState) :
  session (auth_decide p req) = Some s ->
  fst (fst (LoadCookiedSession req)) = Some s.
Proof.
  intros H. unfold auth_decide in H.
  destruct (session (auth_checked p req)) as [s' |] eqn:E.
  - destruct (auth_checked_session p req) as [K | K]; [congruence |].
    rewrite <- K, E. unfold auth_policy in H. rewrite E in H.
    destruct (_ && _) in H; [discriminate | congruence].
  - rewrite auth_policy_none in H by exact E. congruence.
Qed.

(** *** What [Authenticate] returns in each case *)

Lemma Authenticate_none (p : LdapProxy) (rw : gmap string (list string))
    (req : Request) :
  session (auth_decide p req) = None ->
  Authenticate p rw req =
    match fst (CheckBasicAuth p req) with
    | None =>
        {| status := 403;
           cookieOps := if clearSession (auth_decide p req)
                        then [ClearSessionCookie] else [];
           reqHeader := Header req; rwHeader := rw |}
    | Some b =>
        {| status := 202;
           cookieOps := if clearSession (auth_decide p req)
                        then [ClearSessionCookie] else [];
           reqHeader := fst (auth_inject p b (Header req) rw);
           rwHeader := snd (auth_inject p b (Header req) rw) |}
    end.
Proof.
  intros Hs. unfold Authenticate. rewrite Hs. cbn [app].
  destruct (fst (CheckBasicAuth p req)) as [b |]; [| reflexivity].
  destruct (auth_inject p b (Header req) rw); reflexivity.
Qed.

Lemma Authenticate_kept (p : LdapProxy) (rw : gmap string (list string))
    (req : Request) (s : SessionState) :
  session (auth_decide p req) = Some s ->
  (saveSession (auth_decide p req) = true -> SaveSession req s = None) ->
  Authenticate p rw req =
    {| status := 202;
       cookieOps := if saveSession (auth_decide p req)
                    then [SetSessionCookie s] else [];
       reqHeader := fst (auth_inject p s (Header req) rw);
       rwHeader := snd (auth_inject p s (Header req) rw) |}.
Proof.
  intros Hs Hsave. unfold Authenticate. rewrite Hs.
  assert (Hc : clearSession (auth_decide p req) = false).
  { destruct (clearSession (auth_decide p req)) eqn:E; [| reflexivity].
    apply auth_decide_clear in E. congruence. }
  rewrite Hc.
  destruct (saveSession (auth_decide p req)).
  - rewrite (Hsave eq_refl).
    destruct (auth_inject p s (Header req) rw); reflexivity.
  - destruct (auth_inject p s (Header req) rw); reflexivity.
Qed.

Lemma Authenticate_save_failed (p : LdapProxy) (rw : gmap string (list string))
    (req : Request) (s : SessionState) (err : string) :
  session (auth_decide p req) = Some s ->
  saveSession (auth_decide p req) = true ->
  SaveSession req s = Some err ->
  Authenticate p rw req
  = {| status := 500; cookieOps := []; reqHeader := Header req; rwHeader := rw |}.
Proof.
  intros Hs Hsave Herr. unfold Authenticate. rewrite Hs, Hsave, Herr. reflexivity.
Qed.

(** The three ways [Authenticate] can end, with the session it accepts. *)
Lemma Authenticate_cases (p : LdapProxy) (rw : gmap string (list string))
    (req : Request) :
  (exists s err,
      session (auth_decide p req) = Some s
      /\ saveSession (auth_decide p req) = true
      /\ SaveSession req s = Some err
      /\ Authenticate p rw req
         = {| status := 500; cookieOps := [];
              reqHeader := Header req; rwHeader := rw |})
  \/ (session (auth_decide p req) = None
      /\ fst (CheckBasicAuth p req) = None
      /\ Authenticate p rw req
         = {| status := 403;
              cookieOps := if clearSession (auth_decide p req)
                           then [ClearSessionCookie] else [];
              reqHeader := Header req; rwHeader := rw |})
  \/ (exists s,
        (session (auth_decide p req) = Some s
         \/ (session (auth_decide p req) = None
             /\ fst (CheckBasicAuth p req) = Some s))
        /\ status (Authenticate p rw req) = 202
        /\ reqHeader (Authenticate p rw req) = fst (auth_inject p s (Header req) rw)
        /\ rwHeader (Authenticate p rw req) = snd (auth_inject p s (Header req) rw)
        /\ (cookieOps (Authenticate p rw req) = []
            \/ cookieOps (Authenticate p rw req) = [ClearSessionCookie]
            \/ (cookieOps (Authenticate p rw req) = [SetSessionCookie s]
                /\ session (auth_decide p req) = Some s
                /\ saveSession (auth_decide p req) = true))).
Proof.
  destruct (session (auth_decide p req)) as [s |] eqn:Hs.
  - destruct (saveSession (auth_decide p req)) eqn:Hsave.
    + destruct (SaveSession req s) as [err |] eqn:Herr.
      * left. exists s, err. repeat split; auto.
        now apply Authenticate_save_failed with (s := s) (err := err).
      * right. right. exists s.
        rewrite (Authenticate_kept p rw req s Hs (fun _ => Herr)), Hsave.
        cbn. repeat split; auto.
    + right. right. exists s.
      rewrite (Authenticate_kept p rw req s Hs) by (rewrite Hsave; discriminate).
      rewrite Hsave. cbn. repeat split; auto.
  - rewrite (Authenticate_none p rw req Hs).
    destruct (fst (CheckBasicAuth p req)) as [b |] eqn:Hb.
    + right. right. exists b. cbn. repeat split; auto.
      destruct (clearSession (auth_decide p req)); auto.
    + right. left. auto.
Qed.

Lemma auth_policy_pass (p : LdapProxy) (st : AuthState) (s : SessionState) :
  session st = Some s ->
  Email s = EmptyString \/ Validator p (Email s) = true ->
  auth_policy p st = st.
Proof.
  intros Hs Hok. unfold auth_policy. rewrite Hs.
  destruct Hok as [-> | ->]; [reflexivity |].
  now rewrite andb_false_r.
Qed.

Lemma not_due (p : LdapProxy) (age : Z) :
  CookieRefresh p = 0 \/ age <= CookieRefresh p ->
  (CookieRefresh p <? age) && negb (CookieRefresh p =? 0) = false.
Proof.
  intros [-> | H].
  - now rewrite andb_false_r.
  - apply Z.ltb_ge in H. now rewrite H.
Qed.

Lemma is_due (p : LdapProxy) (age : Z) :
  CookieRefresh p <> 0 -> CookieRefresh p < age ->
  (CookieRefresh p <? age) && negb (CookieRefresh p =? 0) = true.
Proof.
  intros H0 H. apply Z.ltb_lt in H. apply Z.eqb_neq in H0. now rewrite H, H0.
Qed.

(** ** Cookies written by [Authenticate] *)

(** X1.  One run of [Authenticate] writes at most one session cookie: it
    clears it, or it sets it, never both.  A cookie is set only for the
    session the request came with, and only on a run that ends Accepted. *)
Theorem Authenticate_cookie_ops (p : LdapProxy) (rw : gmap string (list string))
    (req : Request) :
  cookieOps (Authenticate p rw req) = []
  \/ cookieOps (Authenticate p rw req) = [ClearSessionCookie]
  \/ exists s,
       cookieOps (Authenticate p rw req) = [SetSessionCookie s]
       /\ fst (fst (LoadCookiedSession req)) = Some s
       /\ status (Authenticate p rw req) = 202.
Proof.
  destruct (Authenticate_cases p rw req)
    as [(s & err & _ & _ & _ & ->) | [(_ & _ & ->) | (s & _ & H202 & _ & _ & Hc)]].
  - left. reflexivity.
  - cbn. destruct (clearSession (auth_decide p req)); auto.
  - destruct Hc as [Hc | [Hc | (Hc & Hs & _)]]; auto.
    right. right. exists s.
    split; [exact Hc |]. split; [exact (auth_decide_loaded p req s Hs) | exact H202].
Qed.

(** X2.  With cookie refresh disabled, or a cookie not older than the
    refresh interval, and a refresh hook that does not report a refresh,
    no session is saved: [Authenticate] sets no session cookie and cannot
    end in a server error. *)
Theorem Authenticate_no_refresh (p : LdapProxy) (rw : gmap string (list string))
    (req : Request) :
  CookieRefresh p = 0 \/ snd (fst (LoadCookiedSession req)) <= CookieRefresh p ->
  fst (RefreshSessionIfNeeded (fst (fst (LoadCookiedSession req)))) = false ->
  saveSession (auth_decide p req) = false
  /\ (forall s, ~ In (SetSessionCookie s) (cookieOps (Authenticate p rw req)))
  /\ status (Authenticate p rw req) <> 500.
Proof.
  intros Hdue Hhook.
  assert (Hsave : saveSession (auth_decide p req) = false).
  { unfold auth_decide. rewrite auth_checked_unfold.
    set (st1 := auth_refresh_due p _ _).
    assert (H1 : session st1 = fst (fst (LoadCookiedSession req))
                 /\ saveSession st1 = false).
    { unfold st1, auth_refresh_due, auth_load.
      destruct (LoadCookiedSession req) as [[[s |] age] e]; cbn; auto.
      cbn in Hdue. rewrite (not_due p age Hdue). auto. }
    destruct H1 as [H1 H1s].
    assert (H2 : saveSession (auth_refresh st1) = false).
    { unfold auth_refresh. rewrite H1.
      destruct (RefreshSessionIfNeeded _) as [ok [e |]]; cbn in Hhook; subst ok;
        cbn; exact H1s. }
    assert (H3 : saveSession (auth_expire (auth_refresh st1)) = false).
    { unfold auth_expire.
      destruct (session (auth_refresh st1)); [destruct (IsExpired _) |]; auto. }
    assert (H4 : saveSession (auth_validate (auth_expire (auth_refresh st1))) = false).
    { unfold auth_validate. rewrite H3.
      destruct (session (auth_expire (auth_refresh st1))); auto. }
    unfold auth_policy.
    destruct (session (auth_validate _)); [destruct (_ && _) |]; auto. }
  split; [exact Hsave |].
  destruct (Authenticate_cases p rw req)
    as [(s & err & _ & H & _) | [(_ & _ & ->) | (s & _ & H202 & _ & _ & Hc)]].
  - congruence.
  - cbn. split; [| discriminate].
    intros s. destruct (clearSession (auth_decide p req)); cbn; intuition discriminate.
  - split; [| rewrite H202; discriminate].
    intros s'. destruct Hc as [-> | [-> | (_ & _ & H)]];
      [cbn; tauto | cbn; intuition discriminate | congruence].
Qed.

(** X3.  A valid session whose cookie is older than the (enabled) refresh
    interval is re-issued: when the refresh hook does nothing, the session
    is not expired, the state check passes, the identity-allow predicate
    admits it and the save goes through, [Authenticate] ends Accepted with
    exactly one cookie operation, the re-signed session cookie. *)
Theorem Authenticate_refresh_due (p : LdapProxy) (rw : gmap string (list string))
    (req : Request) (s : SessionState) (age : Z) (err : option string) :
  LoadCookiedSession req = (Some s, age, err) ->
  CookieRefresh p <> 0 ->
  CookieRefresh p < age ->
  RefreshSessionIfNeeded (Some s) = (false, None) ->
  IsExpired s = false ->
  ValidateSessionState s = true ->
  Email s = EmptyString \/ Validator p (Email s) = true ->
  SaveSession req s = None ->
  Authenticate p rw req
  = {| status := 202; cookieOps := [SetSessionCookie s];
       reqHeader := fst (auth_inject p s (Header req) rw);
       rwHeader := snd (auth_inject p s (Header req) rw) |}.
Proof.
  intros Hload H0 Hage Hhook Hexp Hval Hpol Hsave.
  assert (Hd : auth_decide p req
               = {| session := Some s; saveSession := true;
                    clearSession := false; revalidated := false |}).
  { unfold auth_decide.
    rewrite (auth_checked_live p req s age err false Hload Hhook Hexp).
    rewrite (is_due p age H0 Hage), Hval.
    now apply auth_policy_pass with (s := s). }
  rewrite (Authenticate_kept p rw req s); rewrite Hd; auto.
Qed.

(** X4.  A valid session that is not due for a refresh is accepted as it
    is: no cookie is written, the state check and the save are not
    involved, and the session of the cookie is the one accepted whatever
    [Authorization] header the request carries. *)
Theorem Authenticate_steady (p : LdapProxy) (rw : gmap string (list string))
    (req : Request) (s : SessionState) (age : Z) (err : option string) :
  LoadCookiedSession req = (Some s, age, err) ->
  CookieRefresh p = 0 \/ age <= CookieRefresh p ->
  RefreshSessionIfNeeded (Some s) = (false, None) ->
  IsExpired s = false ->
  Email s = EmptyString \/ Validator p (Email s) = true ->
  Authenticate p rw req
  = {| status := 202; cookieOps := [];
       reqHeader := fst (auth_inject p s (Header req) rw);
       rwHeader := snd (auth_inject p s (Header req) rw) |}.
Proof.
  intros Hload Hage Hhook Hexp Hpol.
  assert (Hd : auth_decide p req
               = {| session := Some s; saveSession := false;
                    clearSession := false; revalidated := false |}).
  { unfold auth_decide.
    rewrite (auth_checked_live p req s age err false Hload Hhook Hexp).
    rewrite (not_due p age Hage).
    now apply auth_policy_pass with (s := s). }
  rewrite (Authenticate_kept p rw req s); rewrite Hd; auto. discriminate.
Qed.

(** X5.  When the refresh hook reports a refresh, the session is saved
    whatever the age of the cookie and without the state check: not
    expired, admitted by the predicate and saved without error, it is
    accepted and its cookie re-issued. *)
Theorem Authenticate_revalidated (p : LdapProxy) (rw : gmap string (list string))
    (req : Request) (s : SessionState) (age : Z) (err : option string) :
  LoadCookiedSession req = (Some s, age, err) ->
  RefreshSessionIfNeeded (Some s) = (true, None) ->
  IsExpired s = false ->
  Email s = EmptyString \/ Validator p (Email s) = true ->
  SaveSession req s = None ->
  Authenticate p rw req
  = {| status := 202; cookieOps := [SetSessionCookie s];
       reqHeader := fst (auth_inject p s (Header req) rw);
       rwHeader := snd (auth_inject p s (Header req) rw) |}.
Proof.
  intros Hload Hhook Hexp Hpol Hsave.
  assert (Hd : auth_decide p req
               = {| session := Some s; saveSession := true;
                    clearSession := false; revalidated := true |}).
  { unfold auth_decide.
    rewrite (auth_checked_live p req s age err true Hload Hhook Hexp).
    now apply auth_policy_pass with (s := s). }
  rewrite (Authenticate_kept p rw req s); rewrite Hd; auto.
Qed.

(** X6.  A session due for a refresh that fails the state check is
    dropped, whatever the identity-allow predicate says: the cookie is
    cleared and not re-issued, and without Basic-Auth credentials the
    request is Forbidden. *)
Theorem Authenticate_invalid_state (p : LdapProxy) (rw : gmap string (list string))
    (req : Request) (s : SessionState) (age : Z) (err : option string) :
  LoadCookiedSession req = (Some s, age, err) ->
  CookieRefresh p <> 0 ->
  CookieRefresh p < age ->
  RefreshSessionIfNeeded (Some s) = (false, None) ->
  IsExpired s = false ->
  ValidateSessionState s = false ->
  session (auth_decide p req) = None
  /\ cookieOps (Authenticate p rw req) = [ClearSessionCookie]
  /\ (fst (CheckBasicAuth p req) = None -> status (Authenticate p rw req) = 403).
Proof.
  intros Hload H0 Hage Hhook Hexp Hval.
  assert (Hd : auth_decide p req
               = {| session := None; saveSession := false;
                    clearSession := true; revalidated := false |}).
  { unfold auth_decide.
    rewrite (auth_checked_live p req s age err false Hload Hhook Hexp).
    rewrite (is_due p age H0 Hage), Hval. reflexivity. }
  rewrite (Authenticate_none p rw req); rewrite Hd; [| reflexivity].
  cbn [session clearSession].
  repeat split; destruct (fst (CheckBasicAuth p req)); cbn; congruence.
Qed.

(** X7.  An error of the refresh hook logs the user out: whatever the
    cookie held, no session is kept, the session cookie is cleared and
    none is set, and without Basic-Auth credentials the request is
    Forbidden. *)
Theorem Authenticate_hook_error (p : LdapProxy) (rw : gmap string (list string))
    (req : Request) (ok : bool) (err : string) :
  RefreshSessionIfNeeded (fst (fst (LoadCookiedSession req))) = (ok, Some err) ->
  session (auth_decide p req) = None
  /\ cookieOps (Authenticate p rw req) = [ClearSessionCookie]
  /\ (fst (CheckBasicAuth p req) = None -> status (Authenticate p rw req) = 403).
Proof.
  intros Hhook.
  destruct (auth_checked_hook_error p req ok err Hhook) as [Hs Hc].
  assert (Hd : auth_decide p req = auth_checked p req)
    by (unfold auth_decide; now apply auth_policy_none).
  rewrite (Authenticate_none p rw req); rewrite Hd; [| exact Hs].
  rewrite Hc.
  repeat split; auto; destruct (fst (CheckBasicAuth p req)); cbn; congruence.
Qed.

(** ** Headers written by [Authenticate] *)

(** X8.  With neither [PassBasicAuth] nor [PassUserHeaders] the header of
    the request is left as the client sent it, on every run: no identity
    header is added and none is removed. *)
Theorem Authenticate_request_header_untouched (p : LdapProxy)
    (rw : gmap string (list string)) (req : Request) :
  PassBasicAuth p = false ->
  PassUserHeaders p = false ->
  reqHeader (Authenticate p rw req) = Header req.
Proof.
  intros Hb Hu.
  assert (Hi : forall s, fst (auth_inject p s (Header req) rw) = Header req).
  { intros s. unfold auth_inject. rewrite Hb, Hu. reflexivity. }
  destruct (Authenticate_cases p rw req)
    as [(s & err & _ & _ & _ & ->) | [(_ & _ & ->) | (s & _ & _ & -> & _)]];
    auto.
Qed.

(** X9.  With [PassUserHeaders], an accepted request is forwarded with
    [X-Forwarded-User] set to the user of the accepted session (the one of
    the cookie, or the Basic-Auth one when there is none) and, when the
    session has an e-mail address, [X-Forwarded-Email] set to it.  When it
    has none, the [X-Forwarded-Email] header is not written: without
    [PassBasicAuth] the value the client sent stays in place. *)
Theorem Authenticate_forwarded_user (p : LdapProxy) (rw : gmap string (list string))
    (req : Request) :
  PassUserHeaders p = true ->
  status (Authenticate p rw req) = 202 ->
  exists s,
    (session (auth_decide p req) = Some s
     \/ (session (auth_decide p req) = None /\ fst (CheckBasicAuth p req) = Some s))
    /\ reqHeader (Authenticate p rw req) !! "X-Forwarded-User" = Some [User s]
    /\ (Email s <> EmptyString ->
        reqHeader (Authenticate p rw req) !! "X-Forwarded-Email" = Some [Email s])
    /\ (Email s = EmptyString -> PassBasicAuth p = false ->
        reqHeader (Authenticate p rw req) !! "X-Forwarded-Email"
        = Header req !! "X-Forwarded-Email").
Proof.
  intros Hu H202.
  destruct (Authenticate_cases p rw req)
    as [(s & err & _ & _ & _ & H) | [(_ & _ & H) | (s & Hs & _ & Hq & _)]];
    [rewrite H in H202; discriminate | rewrite H in H202; discriminate |].
  exists s. split; [exact Hs |]. rewrite Hq. unfold auth_inject. rewrite Hu.
  cbn [fst]. repeat split.
  - destruct (negb (String.eqb (Email s) EmptyString)).
    + rewrite lookup_insert_ne by discriminate. apply lookup_insert_eq.
    + apply lookup_insert_eq.
  - intros Hm. apply eqb_empty_false in Hm. rewrite Hm. cbn [negb].
    apply lookup_insert_eq.
  - intros Hm Hb. rewrite Hm, Hb. cbn.
    now rewrite lookup_insert_ne by discriminate.
Qed.


(** ** Basic-Auth *)

Lemma SplitN2_two (s : string) (c : ascii) (x y : string) :
  SplitN2 s c = [x; y] <-> cut c s = Some (x, y).
Proof.
  unfold SplitN2. destruct (cut c s) as [[a b] |]; split; intros H;
    try discriminate; congruence.
Qed.

(** X11.  [CheckBasicAuth] returns a session exactly when a credential
    file is configured, the [Authorization] header is [Basic] followed by a
    space and the base64 of [user:password], [user] holding no colon, and
    the file validates the pair; the session is then that of [user].  The
    scheme is compared as written, and the password is what follows the
    first colon. *)
Theorem CheckBasicAuth_session (p : LdapProxy) (req : Request) (s : SessionState) :
  fst (CheckBasicAuth p req) = Some s
  <-> exists file enc user passwd,
        Htpasswd p = Some file
        /\ Header_Get (Header req) "Authorization" = "Basic " +:+ enc
        /\ DecodeString enc = Some (user +:+ ":" +:+ passwd)
        /\ cut ":" user = None
        /\ Validate file user passwd = true
        /\ s = SessionState_of_user user.
Proof.
  unfold CheckBasicAuth. split.
  - destruct (Htpasswd p) as [file |]; [| discriminate].
    destruct (String.eqb _ _); [discriminate |].
    destruct (SplitN2 _ _) as [| s0 [| s1 [| ? ?]]] eqn:E1; try discriminate.
    destruct (String.eqb_spec s0 "Basic") as [-> | N]; [| discriminate]. cbn [negb].
    destruct (DecodeString s1) as [b |] eqn:E2; [| discriminate].
    destruct (SplitN2 b _) as [| pair0 [| pair1 [| ? ?]]] eqn:E3; try discriminate.
    destruct (Validate file pair0 pair1) eqn:E4; [| discriminate].
    cbn. intros [= <-].
    apply SplitN2_two, cut_Some in E1 as [E1 _].
    apply SplitN2_two, cut_Some in E3 as [E3 E3'].
    subst b. exists file, s1, pair0, pair1.
    split; [reflexivity |]. split; [exact E1 |]. split; [exact E2 |].
    split; [exact E3' |]. split; [exact E4 | reflexivity].
  - intros (file & enc & user & passwd & Hf & Ha & Hd & Hc & Hv & ->).
    rewrite Hf, Ha. cbn [String.eqb append Ascii.eqb].
    assert (E1 : SplitN2 ("Basic " +:+ enc) " " = ["Basic"; enc]).
    { apply SplitN2_two, cut_Some. split; reflexivity. }
    cbn [String.append] in E1. 
    replace (String.eqb _ EmptyString) with false by reflexivity.
    rewrite E1. cbn [String.eqb negb]. 
    replace (String.eqb "Basic" "Basic") with true by reflexivity. cbn [negb].
    rewrite Hd.
    assert (E3 : SplitN2 (user +:+ ":" +:+ passwd) ":" = [user; passwd]).
    { apply SplitN2_two, cut_Some. split; [reflexivity | exact Hc]. }
    rewrite E3, Hv. reflexivity.
Qed.

(** X12.  [CheckBasicAuth] never returns a session together with an error,
    and it stays silent (no session, no error) only when no credential file
    is configured or the request has no [Authorization] header: every other
    failure (another scheme, bad base64, no colon, credentials the file
    rejects) is reported as an error. *)
Theorem CheckBasicAuth_errors (p : LdapProxy) (req : Request) :
  (forall s err, CheckBasicAuth p req <> (Some s, Some err))
  /\ (CheckBasicAuth p req = (None, None)
      <-> Htpasswd p = None
          \/ Header_Get (Header req) "Authorization" = EmptyString).
Proof.
  unfold CheckBasicAuth.
  destruct (Htpasswd p) as [file |]; [| split; [discriminate | tauto]].
  destruct (String.eqb_spec (Header_Get (Header req) "Authorization") EmptyString)
    as [E | E]; [split; [discriminate | tauto] |].
  assert (R : forall x : option SessionState * option string,
             (forall s err, x <> (Some s, Some err)) -> x <> (None, None) ->
             (forall s err, x <> (Some s, Some err))
             /\ (x = (None, None) <->
                 Some file = None
                 \/ Header_Get (Header req) "Authorization" = EmptyString)).
  { intros x H1 H2. split; [exact H1 |]. split; [contradiction |].
    intros [H | H]; [discriminate | contradiction]. }
  apply R.
  - intros s err.
    destruct (SplitN2 _ _) as [| s0 [| s1 [| ? ?]]]; try discriminate.
    destruct (negb _); [discriminate |].
    destruct (DecodeString s1) as [b |]; [| discriminate].
    destruct (SplitN2 b _) as [| pair0 [| pair1 [| ? ?]]]; try discriminate.
    destruct (Validate file pair0 pair1); discriminate.
  - destruct (SplitN2 _ _) as [| s0 [| s1 [| ? ?]]]; try discriminate.
    destruct (negb _); [discriminate |].
    destruct (DecodeString s1) as [b |]; [| discriminate].
    destruct (SplitN2 b _) as [| pair0 [| pair1 [| ? ?]]]; try discriminate.
    destruct (Validate file pair0 pair1); discriminate.
Qed.

(** X13.  The credentials [SetBasicAuth] writes are the ones
    [CheckBasicAuth] reads back: for a user name without a colon and a
    base64 codec that decodes what it encodes, a proxy with a credential
    file accepts the header exactly when the file validates the user with
    that password. *)
Theorem SetBasicAuth_CheckBasicAuth (p : LdapProxy) (req : Request)
    (file : HtpasswdFile) (user password : string) :
  Htpasswd p = Some file ->
  cut ":" user = None ->
  DecodeString (EncodeToString (user +:+ ":" +:+ password))
  = Some (user +:+ ":" +:+ password) ->
  CheckBasicAuth p (with_header req (SetBasicAuth (Header req) user password))
  = if Validate file user password
    then (Some (SessionState_of_user user), None)
    else (None, Some (user +:+ " not in HtpasswdFile")).
Proof.
  intros Hf Hc Hd. unfold CheckBasicAuth. rewrite Hf.
  cbn [Header with_header]. unfold SetBasicAuth. rewrite Header_Get_Set.
  replace (String.eqb ("Basic " +:+ _) EmptyString) with false by reflexivity.
  assert (E1 : SplitN2 ("Basic " +:+ EncodeToString (user +:+ ":" +:+ password)) " "
               = ["Basic"; EncodeToString (user +:+ ":" +:+ password)]).
  { apply SplitN2_two, cut_Some. split; reflexivity. }
  rewrite E1.
  replace (String.eqb "Basic" "Basic") with true by reflexivity. cbn [negb].
  rewrite Hd.
  assert (E3 : SplitN2 (user +:+ ":" +:+ password) ":" = [user; password]).
  { apply SplitN2_two, cut_Some. split; [reflexivity | exact Hc]. }
  rewrite E3. reflexivity.
Qed.

(** ** Sign-in *)

(** X14.  The local-file sign-in succeeds exactly for a [POST] with a
    non-empty user name that the configured credential file validates with
    the submitted password, and then returns that user name; in every
    other case it returns no user. *)
Theorem ManualSignIn_accepts (p : LdapProxy) (req : Request) :
  (forall user,
      ManualSignIn p req = (user, true)
      <-> Method req = "POST"
          /\ user = Values_Get (Form req) "username"
          /\ user <> EmptyString
          /\ exists file,
               Htpasswd p = Some file
               /\ Validate file user (Values_Get (Form req) "password") = true)
  /\ (snd (ManualSignIn p req) = false -> ManualSignIn p req = (EmptyString, false)).
Proof.
  unfold ManualSignIn. split.
  - intros user. split.
    + destruct (Htpasswd p) as [file |]; [| discriminate].
      destruct (String.eqb_spec (Method req) "POST") as [E | E]; [| discriminate].
      cbn [negb].
      destruct (String.eqb_spec (Values_Get (Form req) "username") EmptyString)
        as [U | U]; [discriminate |].
      destruct (Validate file _ _) eqn:V; [| discriminate].
      intros [= <-]. eauto 6.
    + intros (Hm & -> & Hu & file & Hf & Hv).
      rewrite Hf, Hm. apply eqb_empty_false in Hu. cbn [String.eqb negb].
      replace (String.eqb "POST" "POST") with true by reflexivity. cbn [negb].
      rewrite Hu, Hv. reflexivity.
  - destruct (Htpasswd p) as [file |]; [| reflexivity].
    destruct (negb _); [reflexivity |].
    destruct (String.eqb _ EmptyString); [reflexivity |].
    destruct (Validate file _ _); [discriminate | reflexivity].
Qed.

(** X15.  The directory sign-in succeeds exactly when the user name is not
    empty, the connection to the directory opens and the bind answers
    [ok] without error; it then returns the submitted user name.  In every
    other case (no user name, no connection, bind error, bind refused) it
    returns no user and no groups. *)
Theorem LdapSignIn_accepts (p : LdapProxy) (req : Request) :
  let user := Values_Get (Form req) "username" in
  let passwd := Values_Get (Form req) "password" in
  (snd (LdapSignIn p req) = true
   <-> user <> EmptyString
       /\ exists ldapClient attributes,
            NewLDAPClient (LdapConfiguration p) = inl ldapClient
            /\ ldap_Authenticate ldapClient user passwd = (true, attributes, None))
  /\ (snd (LdapSignIn p req) = true -> fst (fst (LdapSignIn p req)) = user)
  /\ (snd (LdapSignIn p req) = false -> LdapSignIn p req = (EmptyString, [], false)).
Proof.
  cbv zeta. unfold LdapSignIn.
  destruct (String.eqb_spec (Values_Get (Form req) "username") EmptyString)
    as [U | U].
  - repeat split; try discriminate. intros [H _]. contradiction.
  - destruct (NewLDAPClient (LdapConfiguration p)) as [ldapClient | e].
    + destruct (ldap_Authenticate ldapClient _ _) as [[ok attributes] [e |]] eqn:A.
      * repeat split; try discriminate.
        intros (_ & c & a & [= <-] & H). congruence.
      * destruct ok.
        -- destruct (GetGroupsOfUser ldapClient _) as [groups [e |]];
             repeat split; try discriminate; eauto.
        -- repeat split; try discriminate.
           intros (_ & c & a & [= <-] & H). congruence.
    + repeat split; try discriminate.
      intros (_ & c & a & H & _). discriminate.
Qed.

Lemma SignIn_parse_error (p : LdapProxy) (rw : gmap string (list string))
    (req : Request) (err : string) :
  ParseForm_err req = Some err ->
  SignIn p rw req = Reply 500 [] rw (ErrorHtml "Internal Error" err).
Proof. intros H. unfold SignIn, GetRedirect. rewrite H. reflexivity. Qed.

Lemma SignIn_local (p : LdapProxy) (rw : gmap string (list string))
    (req : Request) (user : string) :
  ParseForm_err req = None ->
  ManualSignIn p req = (user, true) ->
  SignIn p rw req
  = Reply 302 (saved_cookie req (SessionState_of_user user)) rw
      (RedirectTo (fst (GetRedirect req))).
Proof.
  intros Hform Hmanual. unfold SignIn.
  pose proof (GetRedirect_ok req Hform) as Hr.
  destruct (GetRedirect req) as [redirect e]. simpl in Hr. subst e.
  rewrite Hmanual. reflexivity.
Qed.

Lemma SignIn_refused (p : LdapProxy) (rw : gmap string (list string))
    (req : Request) :
  ParseForm_err req = None ->
  snd (ManualSignIn p req) = false ->
  snd (LdapSignIn p req) = false ->
  SignIn p rw req = SignInPage p [] rw req 200 true.
Proof.
  intros Hform Hmanual Hldap. unfold SignIn.
  pose proof (GetRedirect_ok req Hform) as Hr.
  destruct (GetRedirect req) as [redirect e]. simpl in Hr. subst e.
  destruct (ManualSignIn p req) as [u ok]. simpl in Hmanual. subst ok.
  destruct (LdapSignIn p req) as [[user groups] ok]. simpl in Hldap. subst ok.
  reflexivity.
Qed.


Lemma SignIn_is_reply (p : LdapProxy) (rw : gmap string (list string))
    (req : Request) :
  exists code cookies body, SignIn p rw req = Reply code cookies rw body.
Proof.
  destruct (ParseForm_err req) as [e |] eqn:Hform.
  - rewrite (SignIn_parse_error p rw req e Hform). eauto.
  - destruct (ManualSignIn p req) as [user [|]] eqn:Hmanual.
    + rewrite (SignIn_local p rw req user Hform Hmanual). eauto.
    + assert (Hm : snd (ManualSignIn p req) = false) by now rewrite Hmanual.
      destruct (LdapSignIn p req) as [[user' groups] [|]] eqn:Hldap.
      * rewrite (SignIn_directory p rw req user' groups Hform Hm Hldap).
        unfold SignInPage. destruct (_ && _); eauto.
      * rewrite (SignIn_refused p rw req Hform Hm); [| now rewrite Hldap].
        unfold SignInPage. eauto.
Qed.


(** X17.  A sign-in request without a user name, such as the [GET] that
    shows the form, reaches neither the credential file nor the directory:
    it is answered 200 with the sign-in page marked as failed and the
    session cookie cleared. *)
Theorem SignIn_without_user (p : LdapProxy) (rw : gmap string (list string))
    (req : Request) :
  ParseForm_err req = None ->
  Values_Get (Form req) "username" = EmptyString ->
  ManualSignIn p req = (EmptyString, false)
  /\ LdapSignIn p req = (EmptyString, [], false)
  /\ SignIn p rw req = SignInPage p [] rw req 200 true
  /\ exists url,
       SignIn p rw req = Reply 200 [ClearSessionCookie] rw (SignInHtml true url).
Proof.
  intros Hform Huser.
  assert (Hm : ManualSignIn p req = (EmptyString, false)).
  { unfold ManualSignIn. rewrite Huser.
    destruct (Htpasswd p); [destruct (negb _) |]; reflexivity. }
  assert (Hl : LdapSignIn p req = (EmptyString, [], false)).
  { unfold LdapSignIn. rewrite Huser. reflexivity. }
  assert (Hs : SignIn p rw req = SignInPage p [] rw req 200 true).
  { apply SignIn_refused; auto; [rewrite Hm | rewrite Hl]; reflexivity. }
  repeat split; auto. rewrite Hs. unfold SignInPage. eauto.
Qed.

(** X18.  The sign-in page clears the session cookie and carries a
    redirect target: the [X-Auth-Request-Redirect] header when the request
    has one, the request URI otherwise, and [/] in place of the sign-in
    path itself, so that the target is never the sign-in path unless that
    path is [/]. *)
Theorem SignInPage_redirect (p : LdapProxy) (cookies : list CookieOp)
    (rw : gmap string (list string)) (req : Request) (code : Z) (failed : bool) :
  let override := Header_Get (Header req) "X-Auth-Request-Redirect" in
  exists url,
    SignInPage p cookies rw req code failed
    = Reply code (cookies ++ [ClearSessionCookie]) rw (SignInHtml failed url)
    /\ (SignInPath p <> "/" -> url <> SignInPath p)
    /\ (override <> EmptyString -> override <> SignInPath p -> url = override)
    /\ (override = EmptyString -> URL_RequestURI req <> SignInPath p ->
        url = URL_RequestURI req)
    /\ (override = SignInPath p -> override <> EmptyString -> url = "/").
Proof.
  cbv zeta. unfold SignInPage.
  destruct (String.eqb_spec (Header_Get (Header req) "X-Auth-Request-Redirect")
              EmptyString) as [E | E]; cbn [negb].
  - destruct (String.eqb_spec (URL_RequestURI req) (SignInPath p)) as [S | S];
      eexists; (split; [reflexivity |]); repeat split; intros; congruence.
  - destruct (String.eqb_spec (Header_Get (Header req) "X-Auth-Request-Redirect")
                (SignInPath p)) as [S | S];
      eexists; (split; [reflexivity |]); repeat split; intros; congruence.
Qed.

(** X19.  [sliceContainsString] does not depend on the order of its
    arguments, and an empty list on either side has nothing in common with
    any list. *)
Theorem sliceContainsString_sym (a b : list string) :
  sliceContainsString a b = sliceContainsString b a
  /\ sliceContainsString [] b = false
  /\ sliceContainsString a [] = false.
Proof.
  split; [| split; [reflexivity | apply sliceContainsString_nil]].
  assert (H : forall x y, common_group x y -> common_group y x).
  { intros x y (u & v & Hu & Hv & Hl). exists v, u. auto. }
  destruct (sliceContainsString a b) eqn:E1, (sliceContainsString b a) eqn:E2;
    try reflexivity.
  - apply sliceContainsString_spec, H, sliceContainsString_spec in E1. congruence.
  - apply sliceContainsString_spec, H, sliceContainsString_spec in E2. congruence.
Qed.

(** ** Whitelist and dispatch *)

Lemma anyContains_spec (nets : list net_IPNet) (ip : net_IP) :
  anyContains nets ip = true <-> exists c, In c nets /\ Contains c ip = true.
Proof.
  induction nets as [| c nets IH]; simpl.
  - split; [discriminate | intros (c & [] & _)].
  - destruct (Contains c ip) eqn:E.
    + split; [intros _; exists c; auto | reflexivity].
    + rewrite IH. split.
      * intros (c' & Hc & H). eauto.
      * intros (c' & [<- | Hc] & H); [congruence | eauto].
Qed.

Lemma IsWhitelistedPath_loop_spec (res : list Regexp) (path : string) :
  IsWhitelistedPath_loop res path = true
  <-> exists u, In u res /\ MatchString u path = true.
Proof.
  induction res as [| u res IH]; simpl.
  - split; [discriminate | intros (u & [] & _)].
  - destruct (MatchString u path) eqn:E.
    + split; [intros _; exists u; auto | reflexivity].
    + rewrite IH. split.
      * intros (u' & Hu & H). eauto.
      * intros (u' & [<- | Hu] & H); [congruence | eauto].
Qed.

(** X20.  A request is whitelisted exactly when the preflight bypass is on
    and its method is [OPTIONS], or some configured pattern matches its
    path, or its client address parses and lies in some configured block.
    With no rule configured nothing is whitelisted. *)
Theorem IsWhitelistedRequest_rules (p : LdapProxy) (req : Request) :
  (IsWhitelistedRequest p req = true
   <-> (skipAuthPreflight p = true /\ Method req = "OPTIONS")
       \/ (exists u, In u (compiledPathRegex p)
                     /\ MatchString u (URL_Path req) = true)
       \/ (exists ip c, getRemoteAddr p req = Some ip
                        /\ In c (skipAuthIPs p) /\ Contains c ip = true))
  /\ (skipAuthPreflight p = false -> compiledPathRegex p = [] ->
      skipAuthIPs p = [] -> IsWhitelistedRequest p req = false).
Proof.
  split.
  - unfold IsWhitelistedRequest, IsWhitelistedPath, IsWhitelistedIP.
    rewrite !orb_true_iff, andb_true_iff, String.eqb_eq,
      IsWhitelistedPath_loop_spec.
    destruct (getRemoteAddr p req) as [ip |].
    + rewrite anyContains_spec. split.
      * intros [[H | H] | (c & Hc & H)]; eauto 7.
      * intros [H | [H | (ip' & c & [= <-] & Hc & H)]]; eauto.
    + split.
      * intros [[H | H] | H]; [auto | auto | discriminate].
      * intros [H | [H | (ip' & c & H & _)]]; [auto | auto | discriminate].
  - intros Hp Hr Hi. unfold IsWhitelistedRequest, IsWhitelistedPath, IsWhitelistedIP.
    rewrite Hp, Hr, Hi. destruct (getRemoteAddr p req); reflexivity.
Qed.

(** X21.  [Authenticate] ends with 500, 403 or 202, and [Proxy] follows
    it: the request reaches the upstream exactly when the status is 202,
    with the header [Authenticate] left on it; on 403 the answer is the
    sign-in page with code 403, not marked as failed, and the session
    cookie cleared after whatever [Authenticate] did to it; on 500 it is
    the error page with no cookie written. *)
Theorem Proxy_outcomes (p : LdapProxy) (rw : gmap string (list string))
    (req : Request) :
  (status (Authenticate p rw req) = 202
   /\ Proxy p rw req
      = ToUpstream (cookieOps (Authenticate p rw req))
          (rwHeader (Authenticate p rw req))
          (with_header req (reqHeader (Authenticate p rw req))))
  \/ (status (Authenticate p rw req) = 403
      /\ exists url,
           Proxy p rw req
           = Reply 403 (cookieOps (Authenticate p rw req) ++ [ClearSessionCookie])
               rw (SignInHtml false url))
  \/ (status (Authenticate p rw req) = 500
      /\ Proxy p rw req
         = Reply 500 [] rw (ErrorHtml "Internal Error" "Internal Error")).
Proof.
  unfold Proxy.
  destruct (Authenticate_cases p rw req)
    as [(s & err & _ & _ & _ & H) | [(_ & _ & H) | (s & _ & H202 & _)]].
  - right. right. rewrite H. split; reflexivity.
  - right. left. rewrite H. cbn. unfold SignInPage. eauto.
  - left. rewrite H202. split; reflexivity.
Qed.

(** X22.  The auth-only endpoint answers 202 exactly when [Authenticate]
    accepts the request and 401 in every other case, a failed save
    included; the cookie operations of [Authenticate] go out with either
    answer. *)
Theorem AuthenticateOnly_codes (p : LdapProxy) (rw : gmap string (list string))
    (req : Request) :
  (status (Authenticate p rw req) = 202 ->
   AuthenticateOnly p rw req
   = Reply 202 (cookieOps (Authenticate p rw req))
       (rwHeader (Authenticate p rw req)) NoBody)
  /\ (status (Authenticate p rw req) <> 202 ->
      AuthenticateOnly p rw req
      = Reply 401 (cookieOps (Authenticate p rw req)) rw
          (PlainError "unauthorized request"))
  /\ (forall s err,
        session (auth_decide p req) = Some s ->
        saveSession (auth_decide p req) = true ->
        SaveSession req s = Some err ->
        AuthenticateOnly p rw req
        = Reply 401 [] rw (PlainError "unauthorized request")).
Proof.
  unfold AuthenticateOnly. split; [| split].
  - intros ->. reflexivity.
  - intros H.
    destruct (Authenticate_cases p rw req)
      as [(s & err & _ & _ & _ & K) | [(_ & _ & K) | (s & _ & H202 & _)]];
      [rewrite K; reflexivity | rewrite K; reflexivity | contradiction].
  - intros s err Hs Hsave Herr.
    rewrite (Authenticate_save_failed p rw req s err Hs Hsave Herr). reflexivity.
Qed.

(** X23.  [ServeHTTP] hands a request to the upstream in two cases only:
    the request is whitelisted, and then it is passed on as received, with
    no cookie and no header written; or it is not whitelisted and
    [Authenticate] accepted it, and then it is passed on with the header
    [Authenticate] left on it. *)
Theorem ServeHTTP_upstream (p : LdapProxy) (rw : gmap string (list string))
    (req : Request) (cookies : list CookieOp) (header : gmap string (list string))
    (forwarded : Request) :
  ServeHTTP p rw req = ToUpstream cookies header forwarded ->
  (IsWhitelistedRequest p req = true
   /\ cookies = [] /\ header = rw /\ forwarded = req)
  \/ (IsWhitelistedRequest p req = false
      /\ status (Authenticate p rw req) = 202
      /\ cookies = cookieOps (Authenticate p rw req)
      /\ header = rwHeader (Authenticate p rw req)
      /\ forwarded = with_header req (reqHeader (Authenticate p rw req))).
Proof.
  unfold ServeHTTP, ServeHTTP_case.
  destruct (String.eqb (URL_Path req) (RobotsPath p)); [discriminate |].
  destruct (String.eqb (URL_Path req) (PingPath p)); [discriminate |].
  destruct (IsWhitelistedRequest p req).
  - intros [= <- <- <-]. left. auto.
  - destruct (String.eqb (URL_Path req) (SignInPath p)).
    { destruct (SignIn_is_reply p (NoCache rw) req) as (c & k & b & ->).
      discriminate. }
    destruct (String.eqb (URL_Path req) (SignOutPath p)); [discriminate |].
    destruct (String.eqb (URL_Path req) (AuthOnlyPath p)).
    { unfold AuthenticateOnly. destruct (_ =? 202); discriminate. }
    unfold Proxy.
    destruct (Authenticate_cases p rw req)
      as [(s & err & _ & _ & _ & H) | [(_ & _ & H) | (s & _ & H202 & _)]].
    + rewrite H. discriminate.
    + rewrite H. discriminate.
    + rewrite H202. intros [= <- <- <-]. right. auto.
Qed.

End Engine.

(** * Properties of start-up, cookies and the log line *)

(** ** Appending strings *)

Lemma append_cons (x : ascii) (a b : string) :
  String x a +:+ b = String x (a +:+ b).
Proof. reflexivity. Qed.

Lemma append_assoc (a b c : string) : (a +:+ b) +:+ c = a +:+ (b +:+ c).
Proof.
  induction a as [| x a IH]; [reflexivity |].
  now rewrite !append_cons, IH.
Qed.

Lemma append_empty_r (a : string) : a +:+ EmptyString = a.
Proof.
  induction a as [| x a IH]; [reflexivity |]. now rewrite append_cons, IH.
Qed.

Lemma append_length (a b : string) :
  String.length (a +:+ b) = (String.length a + String.length b)%nat.
Proof.
  induction a as [| x a IH]; [reflexivity |].
  rewrite append_cons. cbn [String.length]. now rewrite IH.
Qed.

Lemma append_cancel_l (a b c : string) : a +:+ b = a +:+ c -> b = c.
Proof.
  induction a as [| x a IH]; [auto |].
  rewrite !append_cons. intros [= H]. auto.
Qed.

(** A path made of a prefix and a suffix differs from a literal that is
    shorter, or that ends otherwise. *)
Ltac differ_from_literal H :=
  let L := fresh "L" in
  pose proof (f_equal String.length H) as L;
  rewrite append_length in L; cbn [String.length] in L;
  repeat match type of H with
    | ?pre +:+ _ = _ =>
        is_var pre; destruct pre;
        [ rewrite ?append_cons in H; discriminate H
        | rewrite append_cons in H; cbn [String.length] in L;
          try lia; injection H as ? H ]
    end;
  try lia; try discriminate.

Lemma system_paths_distinct (prefix : string) :
  List.NoDup [ "/robots.txt"; "/ping"; prefix +:+ "/sign_in";
               prefix +:+ "/sign_out"; prefix +:+ "/auth" ].
Proof.
  assert (A1 : prefix +:+ "/sign_in" <> "/robots.txt")
    by (intros H; differ_from_literal H).
  assert (A2 : prefix +:+ "/sign_out" <> "/robots.txt")
    by (intros H; differ_from_literal H).
  assert (A3 : prefix +:+ "/auth" <> "/robots.txt")
    by (intros H; differ_from_literal H).
  assert (B1 : prefix +:+ "/sign_in" <> "/ping")
    by (intros H; differ_from_literal H).
  assert (B2 : prefix +:+ "/sign_out" <> "/ping")
    by (intros H; differ_from_literal H).
  assert (B3 : prefix +:+ "/auth" <> "/ping")
    by (intros H; differ_from_literal H).
  assert (C1 : prefix +:+ "/sign_in" <> prefix +:+ "/sign_out")
    by (intros H; apply append_cancel_l in H; discriminate).
  assert (C2 : prefix +:+ "/sign_in" <> prefix +:+ "/auth")
    by (intros H; apply append_cancel_l in H; discriminate).
  assert (C3 : prefix +:+ "/sign_out" <> prefix +:+ "/auth")
    by (intros H; apply append_cancel_l in H; discriminate).
  repeat constructor; cbn [In]; intuition congruence.
Qed.

Section StartupFacts.
Context `{lib : GoLib}.
Variable Quote : string -> string.
Variable SplitHostPort : string -> option (string * string).
Variable SignedValue : string -> string -> string -> Z -> string.
Variable Handle_panic : list (string * UpstreamProxy) -> string -> option string.
Variable Cipher : Type.
Variable NewCipher : string -> Cipher + string.
Variable secretBytes : string -> string.

(** ** The log line *)

(** X24.  The address [getRemoteAddrStr] prints starts with the peer
    address as it is; it is followed by nothing when neither IP header is
    set and, when both are, by the quoted real-IP header and then the
    quoted proxy-IP header, each in brackets. *)
Theorem getRemoteAddrStr_shape (p : LdapProxy) (req : Request) :
  let real_ip := Header_Get (Header req) (RealIPHeader p) in
  let proxy_ip := Header_Get (Header req) (ProxyIPHeader p) in
  exists suffix,
    getRemoteAddrStr Quote p req = RemoteAddr req +:+ suffix
    /\ (suffix = EmptyString <-> real_ip = EmptyString /\ proxy_ip = EmptyString)
    /\ (real_ip <> EmptyString -> proxy_ip <> EmptyString ->
        suffix = " (" +:+ Quote real_ip +:+ ")" +:+ " (" +:+ Quote proxy_ip +:+ ")")
    /\ (real_ip = EmptyString -> proxy_ip <> EmptyString ->
        suffix = " (" +:+ Quote proxy_ip +:+ ")")
    /\ (real_ip <> EmptyString -> proxy_ip = EmptyString ->
        suffix = " (" +:+ Quote real_ip +:+ ")").
Proof.
  cbv zeta. unfold getRemoteAddrStr.
  destruct (String.eqb_spec (Header_Get (Header req) (RealIPHeader p)) EmptyString)
    as [R | R];
  destruct (String.eqb_spec (Header_Get (Header req) (ProxyIPHeader p)) EmptyString)
    as [P | P]; cbn [negb].
  - exists EmptyString. rewrite append_empty_r.
    repeat split; auto; intros; congruence.
  - eexists. split; [reflexivity |].
    repeat split; try (intros; congruence); try discriminate.
    intros [_ H]. contradiction.
  - eexists. split; [reflexivity |].
    repeat split; try (intros; congruence); try discriminate.
    intros [H _]. contradiction.
  - eexists. split; [apply append_assoc |].
    repeat split; try (intros; congruence); try discriminate.
    + intros [H _]. contradiction.
    + intros _ _. now rewrite !append_assoc.
Qed.

(** ** Cookies *)

(** X25.  The session cookie is named after the configured cookie, has the
    path [/] and expires [expiration] after [now], that is in the past
    exactly for a negative [expiration].  An empty value is never signed,
    so that the clearing cookie stays empty; any other value is replaced by
    its signed form.  The domain is the configured cookie domain whenever
    there is one, whatever host the request names, and otherwise the host
    of the request without its port. *)
Theorem MakeSessionCookie_fields (c : CookieSettings) (host value : string)
    (expiration now : Z) :
  let k := MakeSessionCookie SplitHostPort SignedValue c host value expiration now in
  Name k = CookieName c
  /\ Path k = "/"
  /\ (Expires k < now <-> expiration < 0)
  /\ (value = EmptyString -> Value k = EmptyString)
  /\ (value <> EmptyString ->
      Value k = SignedValue (CookieSeed c) (CookieName c) value now)
  /\ (CookieDomain c <> EmptyString -> Domain k = CookieDomain c)
  /\ (CookieDomain c = EmptyString ->
      (forall h port, SplitHostPort host = Some (h, port) -> Domain k = h)
      /\ (SplitHostPort host = None -> Domain k = host))
  /\ k = makeCookie SplitHostPort c host (CookieName c) (Value k) expiration now.
Proof.
  cbv zeta. unfold MakeSessionCookie, makeCookie. cbn [Name Path Expires Value Domain].
  repeat split; try lia.
  - intros ->. reflexivity.
  - intros H. apply eqb_empty_false in H. now rewrite H.
  - intros H. apply eqb_empty_false in H. now rewrite H.
  - rewrite H. cbn [String.eqb negb]. intros h port ->. reflexivity.
  - rewrite H. cbn [String.eqb negb]. intros ->. reflexivity.
Qed.

(** ** Start-up *)

Lemma known_scheme_dec (u : URL) :
  (String.eqb (Scheme u) "http" || String.eqb (Scheme u) "https"
   || String.eqb (Scheme u) "file") = true <-> known_scheme u.
Proof.
  unfold known_scheme. rewrite !orb_true_iff, !String.eqb_eq. tauto.
Qed.

(** An upstream with an unknown scheme stops the registration loop. *)
Lemma register_upstreams_unknown (opts : Options) (auth : option HmacAuth)
    (urls : list URL) :
  (exists u, In u urls /\ ~ known_scheme u) ->
  forall serveMux,
    exists message,
      register_upstreams Handle_panic opts auth urls serveMux = inr message.
Proof.
  induction urls as [| u urls IH]; intros (x & Hx & Hbad) serveMux.
  - destruct Hx.
  - cbn [register_upstreams].
    destruct (String.eqb (Scheme u) "http" || String.eqb (Scheme u) "https") eqn:E1.
    + destruct (Handle_panic serveMux (u_Path u)); [eauto |].
      destruct Hx as [-> | Hx]; [| eauto].
      exfalso. apply Hbad, known_scheme_dec. now rewrite E1.
    + destruct (String.eqb (Scheme u) "file") eqn:E2; [| eauto].
      destruct (Handle_panic serveMux _); [eauto |].
      destruct Hx as [-> | Hx]; [| eauto].
      exfalso. apply Hbad, known_scheme_dec. rewrite E2. apply orb_true_r.
Qed.

(** A registration loop that ends well has appended one handler per
    upstream, in order. *)
Lemma register_upstreams_ok (opts : Options) (auth : option HmacAuth)
    (urls : list URL) :
  forall serveMux result,
    register_upstreams Handle_panic opts auth urls serveMux = inl result ->
    result
    = (serveMux
       ++ map (fun u => (upstream_pattern u, upstream_handler opts auth u)) urls)%list
    /\ Forall known_scheme urls.
Proof.
  induction urls as [| u urls IH]; intros serveMux result; cbn [register_upstreams].
  - intros [= <-]. split; [now rewrite app_nil_r | constructor].
  - destruct (String.eqb (Scheme u) "http" || String.eqb (Scheme u) "https") eqn:E1.
    + destruct (Handle_panic serveMux (u_Path u)); [discriminate |].
      intros H. apply IH in H as [-> HF]. rewrite <- app_assoc. cbn [map app].
      assert (K : known_scheme u) by (apply known_scheme_dec; now rewrite E1).
      split; [| now constructor]. do 2 f_equal.
      unfold upstream_pattern, upstream_handler.
      assert (E3 : String.eqb (Scheme u) "file" = false).
      { apply orb_true_iff in E1. rewrite !String.eqb_eq in E1.
        destruct E1 as [-> | ->]; reflexivity. }
      rewrite E3. destruct (opt_PassHostHeader opts); reflexivity.
    + destruct (String.eqb (Scheme u) "file") eqn:E3; [| discriminate].
      assert (K : known_scheme u).
      { apply known_scheme_dec. rewrite E3. apply orb_true_r. }
      assert (P : (if negb (String.eqb (Fragment u) EmptyString)
                   then Fragment u else u_Path u) = upstream_pattern u).
      { unfold upstream_pattern. now rewrite E3. }
      rewrite P.
      destruct (Handle_panic serveMux _); [discriminate |].
      intros H. apply IH in H as [-> HF]. rewrite <- app_assoc. cbn [map app].
      split; [| now constructor]. do 2 f_equal.
      unfold upstream_handler. now rewrite E3.
Qed.

(** What a start-up that goes through has computed. *)
Lemma NewLdapProxy_started (opts : Options) (validator : string -> bool)
    (p : LdapProxy) (c : CookieSettings) (serveMux : list (string * UpstreamProxy))
    (cipher : option Cipher) :
  NewLdapProxy Handle_panic NewCipher secretBytes opts validator
  = Started p c serveMux cipher ->
  exists auth,
    auth = match opt_signatureData opts with
           | Some sigData =>
               Some {| auth_hash := hash sigData; auth_key := key sigData;
                       auth_header := signatureHeader;
                       auth_headers := signatureHeaders |}
           | None => None
           end
    /\ register_upstreams Handle_panic opts auth (opt_proxyURLs opts) [] = inl serveMux
    /\ RobotsPath p = "/robots.txt" /\ PingPath p = "/ping"
    /\ SignInPath p = opt_ProxyPrefix opts +:+ "/sign_in"
    /\ SignOutPath p = opt_ProxyPrefix opts +:+ "/sign_out"
    /\ AuthOnlyPath p = opt_ProxyPrefix opts +:+ "/auth"
    /\ Htpasswd p = None
    /\ CookieRefresh p = opt_CookieRefresh opts
    /\ (if negb (opt_CookieRefresh opts =? 0)
        then exists k, cipher = Some k
                       /\ NewCipher (secretBytes (opt_CookieSecret opts)) = inl k
        else cipher = None).
Proof.
  unfold NewLdapProxy. eexists. split; [reflexivity |]. revert H.
  destruct (register_upstreams _ _ _ _ _) as [mux | msg]; [| discriminate].
  destruct (negb (opt_CookieRefresh opts =? 0)).
  - destruct (NewCipher _) as [k | e]; [| discriminate].
    intros [= <- <- <- <-]. cbn. repeat split; eauto.
  - intros [= <- <- <- <-]. cbn. repeat split; eauto.
Qed.

(** X26.  An upstream whose scheme is not [http], [https] or [file] makes
    [NewLdapProxy] panic: it returns no proxy and does not get as far as
    checking the cookie secret. *)
Theorem NewLdapProxy_unknown_scheme (opts : Options) (validator : string -> bool) :
  (exists u, In u (opt_proxyURLs opts) /\ ~ known_scheme u) ->
  exists message,
    NewLdapProxy Handle_panic NewCipher secretBytes opts validator = Panic message.
Proof.
  intros Hbad. unfold NewLdapProxy.
  destruct (register_upstreams_unknown opts
              match opt_signatureData opts with
              | Some sigData =>
                  Some {| auth_hash := hash sigData; auth_key := key sigData;
                          auth_header := signatureHeader;
                          auth_headers := signatureHeaders |}
              | None => None
              end (opt_proxyURLs opts) Hbad []) as [message ->].
  eauto.
Qed.

(** X27.  The five system paths of a proxy built by [NewLdapProxy] are
    pairwise different, whatever the prefix.  So each of them has its own
    handler: the ping path is always answered by the ping page, and a
    request for the sign-in, sign-out or auth-only path that is not
    whitelisted is handled by the handler of that path. *)
Theorem NewLdapProxy_system_paths (opts : Options) (validator : string -> bool)
    (p : LdapProxy) (c : CookieSettings) (serveMux : list (string * UpstreamProxy))
    (cipher : option Cipher) :
  NewLdapProxy Handle_panic NewCipher secretBytes opts validator
  = Started p c serveMux cipher ->
  List.NoDup [RobotsPath p; PingPath p; SignInPath p; SignOutPath p;
              AuthOnlyPath p]
  /\ forall req,
       (URL_Path req = PingPath p -> ServeHTTP_case p req = H_PingPage)
       /\ (IsWhitelistedRequest p req = false ->
           (URL_Path req = SignInPath p -> ServeHTTP_case p req = H_SignIn)
           /\ (URL_Path req = SignOutPath p -> ServeHTTP_case p req = H_SignOut)
           /\ (URL_Path req = AuthOnlyPath p ->
               ServeHTTP_case p req = H_AuthenticateOnly)).
Proof.
  intros H.
  destruct (NewLdapProxy_started opts validator p c serveMux cipher H)
    as (auth & _ & _ & Hr & Hp & Hi & Ho & Ha & _).
  assert (D : List.NoDup [RobotsPath p; PingPath p; SignInPath p; SignOutPath p;
                          AuthOnlyPath p]).
  { rewrite Hr, Hp, Hi, Ho, Ha. apply system_paths_distinct. }
  split; [exact D |].
  assert (N : forall x y : string, x <> y -> String.eqb x y = false)
    by (intros x y; apply String.eqb_neq).
  inversion D as [| ? ? R1 D1]; subst. inversion D1 as [| ? ? R2 D2]; subst.
  inversion D2 as [| ? ? R3 D3]; subst. inversion D3 as [| ? ? R4 D4]; subst.
  cbn [In] in R1, R2, R3, R4.
  intros req. unfold ServeHTTP_case. split; [| intros W; rewrite W; repeat split].
  - intros ->. rewrite (N (PingPath p) (RobotsPath p)) by intuition.
    now rewrite String.eqb_refl.
  - intros ->. rewrite (N (SignInPath p) (RobotsPath p)) by intuition.
    rewrite (N (SignInPath p) (PingPath p)) by intuition.
    now rewrite String.eqb_refl.
  - intros ->. rewrite (N (SignOutPath p) (RobotsPath p)) by intuition.
    rewrite (N (SignOutPath p) (PingPath p)) by intuition.
    rewrite (N (SignOutPath p) (SignInPath p)) by intuition.
    now rewrite String.eqb_refl.
  - intros ->. rewrite (N (AuthOnlyPath p) (RobotsPath p)) by intuition.
    rewrite (N (AuthOnlyPath p) (PingPath p)) by intuition.
    rewrite (N (AuthOnlyPath p) (SignInPath p)) by intuition.
    rewrite (N (AuthOnlyPath p) (SignOutPath p)) by intuition.
    now rewrite String.eqb_refl.
Qed.

(** X28.  [NewLdapProxy] attaches no credential file.  Until one is set on
    the proxy, the two providers that rely on it are off: the local-file
    sign-in refuses every request and the Basic-Auth fallback yields no
    session and no error, whatever [Authorization] header is sent. *)
Theorem NewLdapProxy_no_credential_file (opts : Options)
    (validator : string -> bool) (p : LdapProxy) (c : CookieSettings)
    (serveMux : list (string * UpstreamProxy)) (cipher : option Cipher) :
  NewLdapProxy Handle_panic NewCipher secretBytes opts validator
  = Started p c serveMux cipher ->
  Htpasswd p = None
  /\ forall req,
       ManualSignIn p req = (EmptyString, false)
       /\ CheckBasicAuth p req = (None, None).
Proof.
  intros H.
  destruct (NewLdapProxy_started opts validator p c serveMux cipher H)
    as (auth & _ & _ & _ & _ & _ & _ & _ & Hf & _).
  split; [exact Hf |]. intros req.
  unfold ManualSignIn, CheckBasicAuth. rewrite Hf. split; reflexivity.
Qed.

(** X29.  A start-up that goes through has registered every upstream once,
    in the order given, under its path, or under its fragment for a [file]
    upstream that has one.  Every reverse-proxy handler forwards to its
    target with the path cleared and signs with the configured signature
    data, if any; its director empties the query, sets the opaque part of
    the URL to the request URI, and sets the host to the upstream host
    unless the host header is passed, in which case it leaves the host as
    it found it.  File handlers sign nothing. *)
Theorem NewLdapProxy_routes (opts : Options) (validator : string -> bool)
    (p : LdapProxy) (c : CookieSettings) (serveMux : list (string * UpstreamProxy))
    (cipher : option Cipher) :
  NewLdapProxy Handle_panic NewCipher secretBytes opts validator
  = Started p c serveMux cipher ->
  map fst serveMux = map upstream_pattern (opt_proxyURLs opts)
  /\ Forall known_scheme (opt_proxyURLs opts)
  /\ (forall pattern upstream target director auth,
        In (pattern, ReverseProxy upstream target director auth) serveMux ->
        u_Path target = EmptyString
        /\ upstream = u_Host target
        /\ (opt_signatureData opts = None <-> auth = None)
        /\ (forall a, auth = Some a ->
                      auth_header a = "LAP-Signature"
                      /\ In "Lap-Auth" (auth_headers a))
        /\ forall inner req,
             let out := run_director director inner target req in
             out_URL_RawQuery out = EmptyString
             /\ out_URL_Opaque out = out_RequestURI (inner req)
             /\ out_Host out
                = if opt_PassHostHeader opts then out_Host (inner req)
                  else upstream)
  /\ (forall pattern upstream path filesystemPath,
        In (pattern, FileServer upstream path filesystemPath) serveMux ->
        upstream = pattern /\ path = pattern).
Proof.
  clear Quote SplitHostPort SignedValue.
  intros H.
  destruct (NewLdapProxy_started opts validator p c serveMux cipher H)
    as (auth & Hauth & Hreg & _).
  apply register_upstreams_ok in Hreg as [Hmux Hknown]. cbn [app] in Hmux.
  split; [| split; [exact Hknown | split]].
  - rewrite Hmux, map_map. reflexivity.
  - intros pattern upstream target director a Hin.
    rewrite Hmux in Hin. apply in_map_iff in Hin as (u & Hu & _).
    unfold upstream_handler in Hu.
    destruct (String.eqb (Scheme u) "file"); [discriminate |].
    injection Hu as _ <- <- <- <-.
    split; [reflexivity |]. split; [reflexivity |].
    split; [rewrite Hauth; destruct (opt_signatureData opts);
            split; congruence |].
    split.
    + rewrite Hauth. destruct (opt_signatureData opts); [| discriminate].
      intros a [= <-]. cbn. split; [reflexivity | tauto].
    + intros inner req. destruct (opt_PassHostHeader opts); cbn; auto.
  - intros pattern upstream path filesystemPath Hin.
    rewrite Hmux in Hin. apply in_map_iff in Hin as (u & Hu & _).
    unfold upstream_handler in Hu.
    destruct (String.eqb (Scheme u) "file"); [| discriminate].
    injection Hu as <- <- <- _. auto.
Qed.


End StartupFacts.

(** * The further properties on the sample deployments *)

Import Cases.

(** X2: refresh disabled, a cookie half an hour old. *)
Lemma Authenticate_no_refresh_witness :
  CookieRefresh with_file = 0
  /\ fst (RefreshSessionIfNeeded (Package := carol_cookie)
            (fst (fst (LoadCookiedSession (Package := carol_cookie) get_private))))
     = false
  /\ saveSession (auth_decide (pkg := carol_cookie) with_file get_private) = false
  /\ (forall s, ~ In (SetSessionCookie s)
                    (cookieOps (Authenticate (pkg := carol_cookie) with_file ∅
                                  get_private)))
  /\ status (Authenticate (pkg := carol_cookie) with_file ∅ get_private) <> 500.
Proof.
  assert (h1 : CookieRefresh with_file = 0) by reflexivity.
  assert (h2 : fst (RefreshSessionIfNeeded (Package := carol_cookie)
                      (fst (fst (LoadCookiedSession (Package := carol_cookie)
                                   get_private)))) = false) by reflexivity.
  exact (conj h1 (conj h2
           (Authenticate_no_refresh (pkg := carol_cookie) with_file ∅ get_private
              (or_introl h1) h2))).
Defined.

(** X3: refresh every hour, a cookie two hours old. *)
Lemma Authenticate_refresh_due_witness :
  LoadCookiedSession (Package := carol_due) get_private
  = (Some carol, 2 * hour, None)
  /\ CookieRefresh refreshing < 2 * hour
  /\ status (Authenticate (pkg := carol_due) refreshing ∅ get_private) = 202
  /\ cookieOps (Authenticate (pkg := carol_due) refreshing ∅ get_private)
     = [SetSessionCookie carol].
Proof.
  assert (h1 : LoadCookiedSession (Package := carol_due) get_private
               = (Some carol, 2 * hour, None)) by reflexivity.
  assert (h2 : CookieRefresh refreshing <> 0) by discriminate.
  assert (h3 : CookieRefresh refreshing < 2 * hour) by reflexivity.
  pose proof (Authenticate_refresh_due (pkg := carol_due) refreshing ∅ get_private
                carol (2 * hour) None h1 h2 h3 eq_refl eq_refl eq_refl
                (or_introl eq_refl) eq_refl) as c.
  exact (conj h1 (conj h3 (conj (f_equal status c) (f_equal cookieOps c)))).
Defined.

(** X4: a fresh cookie and Basic credentials in one request: the session
    of the cookie is the one accepted. *)
Lemma Authenticate_steady_witness :
  LoadCookiedSession (Package := carol_cookie) get_private_basic
  = (Some carol, hour / 2, None)
  /\ hour / 2 <= CookieRefresh refreshing
  /\ fst (CheckBasicAuth refreshing get_private_basic)
     = Some (SessionState_of_user "alice")
  /\ status (Authenticate (pkg := carol_cookie) refreshing ∅ get_private_basic) = 202
  /\ cookieOps (Authenticate (pkg := carol_cookie) refreshing ∅ get_private_basic)
     = []
  /\ Header_Get (rwHeader (Authenticate (pkg := carol_cookie) refreshing ∅
                              get_private_basic)) "LAP-Auth" = "carol".
Proof.
  assert (h1 : LoadCookiedSession (Package := carol_cookie) get_private_basic
               = (Some carol, hour / 2, None)) by reflexivity.
  assert (h2 : hour / 2 <= CookieRefresh refreshing) by discriminate.
  pose proof (Authenticate_steady (pkg := carol_cookie) refreshing ∅
                get_private_basic carol (hour / 2) None h1 (or_intror h2)
                eq_refl eq_refl (or_introl eq_refl)) as c.
  exact (conj h1 (conj h2 (conj eq_refl
           (conj (f_equal status c) (conj (f_equal cookieOps c)
              (f_equal (fun r => Header_Get (rwHeader r) "LAP-Auth") c)))))).
Defined.

(** X5: the refresh hook reports a refresh of a cookie half an hour old. *)
Lemma Authenticate_revalidated_witness :
  LoadCookiedSession (Package := carol_refreshed) get_private
  = (Some carol, hour / 2, None)
  /\ RefreshSessionIfNeeded (Package := carol_refreshed) (Some carol) = (true, None)
  /\ CookieRefresh with_file = 0
  /\ status (Authenticate (pkg := carol_refreshed) with_file ∅ get_private) = 202
  /\ cookieOps (Authenticate (pkg := carol_refreshed) with_file ∅ get_private)
     = [SetSessionCookie carol].
Proof.
  assert (h1 : LoadCookiedSession (Package := carol_refreshed) get_private
               = (Some carol, hour / 2, None)) by reflexivity.
  assert (h2 : RefreshSessionIfNeeded (Package := carol_refreshed) (Some carol)
               = (true, None)) by reflexivity.
  pose proof (Authenticate_revalidated (pkg := carol_refreshed) with_file ∅
                get_private carol (hour / 2) None h1 h2 eq_refl
                (or_introl eq_refl) eq_refl) as c.
  exact (conj h1 (conj h2 (conj eq_refl
           (conj (f_equal status c) (f_equal cookieOps c))))).
Defined.

(** X6: a cookie due for a refresh whose state check fails. *)
Lemma Authenticate_invalid_state_witness :
  LoadCookiedSession (Package := carol_invalid) get_private
  = (Some carol, 2 * hour, None)
  /\ ValidateSessionState (Package := carol_invalid) carol = false
  /\ session (auth_decide (pkg := carol_invalid) refreshing get_private) = None
  /\ cookieOps (Authenticate (pkg := carol_invalid) refreshing ∅ get_private)
     = [ClearSessionCookie]
  /\ status (Authenticate (pkg := carol_invalid) refreshing ∅ get_private) = 403.
Proof.
  assert (h1 : LoadCookiedSession (Package := carol_invalid) get_private
               = (Some carol, 2 * hour, None)) by reflexivity.
  assert (h2 : CookieRefresh refreshing <> 0) by discriminate.
  assert (h3 : CookieRefresh refreshing < 2 * hour) by reflexivity.
  assert (h6 : ValidateSessionState (Package := carol_invalid) carol = false)
    by reflexivity.
  destruct (Authenticate_invalid_state (pkg := carol_invalid) refreshing ∅
              get_private carol (2 * hour) None h1 h2 h3 eq_refl eq_refl h6)
    as (c1 & c2 & c3).
  exact (conj h1 (conj h6 (conj c1 (conj c2 (c3 eq_refl))))).
Defined.

(** X7: a valid cookie and a refresh hook that fails. *)
Lemma Authenticate_hook_error_witness :
  RefreshSessionIfNeeded (Package := carol_hook_fails)
    (fst (fst (LoadCookiedSession (Package := carol_hook_fails) get_private)))
  = (false, Some "provider unreachable")
  /\ session (auth_decide (pkg := carol_hook_fails) with_file get_private) = None
  /\ cookieOps (Authenticate (pkg := carol_hook_fails) with_file ∅ get_private)
     = [ClearSessionCookie]
  /\ status (Authenticate (pkg := carol_hook_fails) with_file ∅ get_private) = 403.
Proof.
  assert (h1 : RefreshSessionIfNeeded (Package := carol_hook_fails)
                 (fst (fst (LoadCookiedSession (Package := carol_hook_fails)
                              get_private)))
               = (false, Some "provider unreachable")) by reflexivity.
  destruct (Authenticate_hook_error (pkg := carol_hook_fails) with_file ∅
              get_private false "provider unreachable" h1) as (c1 & c2 & c3).
  exact (conj h1 (conj c1 (conj c2 (c3 eq_refl)))).
Defined.

(** X8: identity headers sent by the client reach the upstream as sent. *)
Lemma Authenticate_request_header_untouched_witness :
  PassBasicAuth bare = false
  /\ PassUserHeaders bare = false
  /\ status (Authenticate (pkg := carol_cookie) bare ∅ get_spoofed) = 202
  /\ reqHeader (Authenticate (pkg := carol_cookie) bare ∅ get_spoofed)
     = Header get_spoofed
  /\ Header get_spoofed !! "X-Forwarded-User" = Some ["root"].
Proof.
  assert (h1 : PassBasicAuth bare = false) by reflexivity.
  assert (h2 : PassUserHeaders bare = false) by reflexivity.
  exact (conj h1 (conj h2 (conj eq_refl
           (conj (Authenticate_request_header_untouched (pkg := carol_cookie)
                    bare ∅ get_spoofed h1 h2) eq_refl)))).
Defined.

(** X9: the user header is overwritten, the e-mail header of the client
    stays. *)
Lemma Authenticate_forwarded_user_witness :
  PassUserHeaders with_file = true
  /\ status (Authenticate (pkg := carol_cookie) with_file ∅ get_spoofed) = 202
  /\ exists s,
       (session (auth_decide (pkg := carol_cookie) with_file get_spoofed) = Some s
        \/ (session (auth_decide (pkg := carol_cookie) with_file get_spoofed) = None
            /\ fst (CheckBasicAuth with_file get_spoofed) = Some s))
       /\ reqHeader (Authenticate (pkg := carol_cookie) with_file ∅ get_spoofed)
            !! "X-Forwarded-User" = Some [User s]
       /\ (Email s <> EmptyString ->
           reqHeader (Authenticate (pkg := carol_cookie) with_file ∅ get_spoofed)
             !! "X-Forwarded-Email" = Some [Email s])
       /\ (Email s = EmptyString -> PassBasicAuth with_file = false ->
           reqHeader (Authenticate (pkg := carol_cookie) with_file ∅ get_spoofed)
             !! "X-Forwarded-Email" = Header get_spoofed !! "X-Forwarded-Email").
Proof.
  assert (h1 : PassUserHeaders with_file = true) by reflexivity.
  assert (h2 : status (Authenticate (pkg := carol_cookie) with_file ∅ get_spoofed)
               = 202) by reflexivity.
  exact (conj h1 (conj h2
           (Authenticate_forwarded_user (pkg := carol_cookie) with_file ∅
              get_spoofed h1 h2))).
Defined.

(** X13: the header written for [alice] is read back as [alice]. *)
Lemma SetBasicAuth_CheckBasicAuth_witness :
  Htpasswd with_file = Some htpasswd
  /\ cut ":" "alice" = None
  /\ DecodeString (EncodeToString "alice:pw") = Some "alice:pw"
  /\ CheckBasicAuth with_file
       (with_header get_private (SetBasicAuth (Header get_private) "alice" "pw"))
     = (Some (SessionState_of_user "alice"), None).
Proof.
  assert (h1 : Htpasswd with_file = Some htpasswd) by reflexivity.
  assert (h2 : cut ":" "alice" = None) by reflexivity.
  assert (h3 : DecodeString (EncodeToString ("alice" +:+ ":" +:+ "pw"))
               = Some ("alice" +:+ ":" +:+ "pw")) by reflexivity.
  exact (conj h1 (conj h2 (conj h3
           (SetBasicAuth_CheckBasicAuth with_file get_private htpasswd
              "alice" "pw" h1 h2 h3)))).
Defined.

(** X17: the [GET] that shows the sign-in form. *)
Lemma SignIn_without_user_witness :
  ParseForm_err get_sign_in = None
  /\ Values_Get (Form get_sign_in) "username" = EmptyString
  /\ SignIn (pkg := anonymous) with_file ∅ get_sign_in
     = Reply 200 [ClearSessionCookie] ∅ (SignInHtml true "/").
Proof.
  assert (h1 : ParseForm_err get_sign_in = None) by reflexivity.
  assert (h2 : Values_Get (Form get_sign_in) "username" = EmptyString)
    by reflexivity.
  destruct (SignIn_without_user (pkg := anonymous) with_file ∅ get_sign_in h1 h2)
    as (_ & _ & c & _).
  exact (conj h1 (conj h2 c)).
Defined.

(** X23: the preflight for the sign-in path goes up as received. *)
Lemma ServeHTTP_upstream_witness :
  ServeHTTP (pkg := anonymous) with_preflight ∅ options_sign_in
  = ToUpstream [] ∅ options_sign_in
  /\ ((IsWhitelistedRequest with_preflight options_sign_in = true
       /\ @nil CookieOp = [] /\ (∅ : gmap string (list string)) = ∅
       /\ options_sign_in = options_sign_in)
      \/ (IsWhitelistedRequest with_preflight options_sign_in = false
          /\ status (Authenticate (pkg := anonymous) with_preflight ∅ options_sign_in)
             = 202
          /\ [] = cookieOps (Authenticate (pkg := anonymous) with_preflight ∅
                               options_sign_in)
          /\ ∅ = rwHeader (Authenticate (pkg := anonymous) with_preflight ∅
                             options_sign_in)
          /\ options_sign_in
             = with_header options_sign_in
                 (reqHeader (Authenticate (pkg := anonymous) with_preflight ∅
                               options_sign_in)))).
Proof.
  assert (h : ServeHTTP (pkg := anonymous) with_preflight ∅ options_sign_in
              = ToUpstream [] ∅ options_sign_in) by reflexivity.
  exact (conj h (ServeHTTP_upstream (pkg := anonymous) with_preflight ∅
                   options_sign_in [] ∅ options_sign_in h)).
Defined.

(** X26: an [ftp] upstream. *)
Lemma NewLdapProxy_unknown_scheme_witness :
  (exists u, In u (opt_proxyURLs (options [backend; ftp] 0 "")) /\ ~ known_scheme u)
  /\ exists message,
       NewLdapProxy Handle_panic NewCipher secretBytes
         (options [backend; ftp] 0 "") validator = Panic message.
Proof.
  assert (h : exists u, In u (opt_proxyURLs (options [backend; ftp] 0 ""))
                        /\ ~ known_scheme u).
  { exists ftp. split; [right; left; reflexivity |].
    intros [H | [H | H]]; discriminate H. }
  exact (conj h (NewLdapProxy_unknown_scheme Handle_panic string NewCipher
                   secretBytes (options [backend; ftp] 0 "") validator h)).
Defined.

(** X27: the start-up with the two upstreams; the sign-in form is served by
    the sign-in handler. *)
Lemma NewLdapProxy_system_paths_witness :
  exists p c serveMux cipher,
    NewLdapProxy Handle_panic NewCipher secretBytes
      (options [backend; static] 0 "") validator = Started p c serveMux cipher
    /\ SignInPath p = "/ldap/sign_in"
    /\ List.NoDup [RobotsPath p; PingPath p; SignInPath p; SignOutPath p;
                   AuthOnlyPath p]
    /\ ServeHTTP_case p get_sign_in = H_SignIn.
Proof.
  eexists _, _, _, _. split; [reflexivity |]. split; [reflexivity |].
  destruct (NewLdapProxy_system_paths Handle_panic string NewCipher secretBytes
              (options [backend; static] 0 "") validator _ _ _ _ eq_refl)
    as [D C].
  split; [exact D |].
  exact (proj1 (proj2 (C get_sign_in) eq_refl) eq_refl).
Defined.

(** X28: the same start-up; Basic credentials are not looked at. *)
Lemma NewLdapProxy_no_credential_file_witness :
  exists p c serveMux cipher,
    NewLdapProxy Handle_panic NewCipher secretBytes
      (options [backend; static] 0 "") validator = Started p c serveMux cipher
    /\ Htpasswd p = None
    /\ CheckBasicAuth p get_private_basic = (None, None).
Proof.
  eexists _, _, _, _. split; [reflexivity |].
  destruct (NewLdapProxy_no_credential_file Handle_panic string NewCipher
              secretBytes (options [backend; static] 0 "") validator _ _ _ _
              eq_refl) as [F C].
  split; [exact F |]. exact (proj2 (C get_private_basic)).
Defined.

(** X29: the same start-up; the backend is mounted at [/] and the file
    server at its fragment. *)
Lemma NewLdapProxy_routes_witness :
  exists p c serveMux cipher,
    NewLdapProxy Handle_panic NewCipher secretBytes
      (options [backend; static] 0 "") validator = Started p c serveMux cipher
    /\ map fst serveMux = ["/"; "/static/"]
    /\ Forall known_scheme [backend; static].
Proof.
  eexists _, _, _, _. split; [reflexivity |].
  destruct (NewLdapProxy_routes Handle_panic string NewCipher secretBytes
              (options [backend; static] 0 "") validator _ _ _ _ eq_refl)
    as (M & K & _).
  split; [exact M | exact K].
Defined.
